(** * QuizMania backend: collaboration, scoring and analytics

    A shallow embedding of [backend/app.py].  The four module-level lists
    of the program ([quizzes], [quiz_history], [quiz_collaborators],
    [collaboration_invitations]) form an explicit store that every endpoint
    threads through; an endpoint either returns its JSON body or raises.
    An [HTTPException] is what the code raises on purpose; [KeyError],
    [IndexError] and [ZeroDivisionError] are the Python exceptions that
    escape a handler (the framework answers 500 for them). *)

From Stdlib Require Import ZArith List String Bool Lia Floats Uint63 DecimalString.
From Stdlib Require Import Permutation Sorted.
Import ListNotations.
Open Scope string_scope.
Open Scope list_scope.
Open Scope Z_scope.

(** ** Exceptions and the handler monad *)

Inductive exn : Type :=
| HTTPException (status_code : Z) (detail : string)
| KeyError (key : string)
| IndexError
| ZeroDivisionError.

Inductive result (A : Type) : Type :=
| Ok (a : A)
| Raise (e : exn).
Arguments Ok {A} a.
Arguments Raise {A} e.

(** The response status a client observes. *)
Definition status_of {A} (r : result A) : Z :=
  match r with
  | Ok _ => 200
  | Raise (HTTPException code _) => code
  | Raise _ => 500
  end.

(** ** Data model *)

(** A question dictionary of a stored quiz: the keys ["question"],
    ["options"] and ["correct"], which both creation paths require. *)
Module Question.
Record t := mk { question : string; options : list string; correct : string }.
End Question.

(** A question as it arrives in a request body: any key may be absent. *)
Module QuestionData.
Record t := mk {
    question : option string;
    options : option (list string);
    correct : option string }.
End QuestionData.

(** The body of [POST /create-quiz]. *)
Module QuizData.
Record t := mk {
    title : option string;
    description : option string;
    category : option string;
    difficulty : option string;
    time_limit : option Z;
    questions : option (list QuestionData.t);
    created_by : option string }.
End QuizData.

(** A quiz dictionary of the catalog.  [create_quiz] and [import_quiz]
    write the key ["created_by"]; the collaboration endpoints read the key
    ["creator"] (and ["created_at"]), which no endpoint writes; such a
    field is [None] when the dictionary has no such key. *)
Module Quiz.
Record t := mk {
    id : Z;
    title : string;
    description : string;
    category : string;
    difficulty : string;
    time_limit : Z;
    questions : list Question.t;
    created_by : string;
    created_date : string;
    created_at : option string;
    creator : option string }.
End Quiz.

(** [class Answer(BaseModel)]. *)
Module Answer.
Record t := mk { question_id : Z; answer : string }.
End Answer.

(** [class QuizSubmission(BaseModel)]. *)
Module QuizSubmission.
Record t := mk {
    quiz_id : Z;
    username : string;
    answers : list Answer.t;
    time_taken : Z }.
End QuizSubmission.

(** One element of ["detailed_results"]. *)
Module DetailedResult.
Record t := mk {
    question : string;
    your_answer : Answer.t;
    correct_answer : string;
    is_correct : bool;
    options : list string }.
End DetailedResult.

(** A row of [quiz_history]. *)
Module HistoryEntry.
Record t := mk {
    username : string;
    quiz_title : string;
    score : float;
    date : string;
    detailed_results : list DetailedResult.t }.
End HistoryEntry.

(** The entry [submit_quiz] builds for its [leaderboard] list. *)
Module LeaderboardEntry.
Record t := mk {
    username : string;
    quiz_title : string;
    score : float;
    date : string }.
End LeaderboardEntry.

(** The body [submit_quiz] returns. *)
Module ScoreResult.
Record t := mk {
    score : float;
    correct : Z;
    total : Z;
    detailed_results : list DetailedResult.t }.
End ScoreResult.

(** A row of [quiz_collaborators]. *)
Module Collaborator.
Record t := mk {
    quiz_id : Z;
    username : string;
    role : string;
    status : string;
    invited_by : string;
    invited_at : string;
    joined_at : string }.
End Collaborator.

(** A row of [collaboration_invitations]; ["responded_at"] is absent until
    the invitation is answered. *)
Module Invitation.
Record t := mk {
    id : Z;
    quiz_id : Z;
    inviter : string;
    invitee : string;
    role : string;
    status : string;
    created_at : string;
    quiz_title : string;
    responded_at : option string }.
End Invitation.

(** The module-level lists. *)
Record Store := mkStore {
  quizzes : list Quiz.t;
  quiz_history : list HistoryEntry.t;
  quiz_collaborators : list Collaborator.t;
  collaboration_invitations : list Invitation.t }.

(** The state at import time of the module. *)
Definition initial_store : Store := mkStore [] [] [] [].

(** A handler runs on the store and leaves a store behind, also when it
    raises. *)
Definition App (A : Type) : Type := Store -> result A * Store.

Definition ret {A} (a : A) : App A := fun st => (Ok a, st).
Definition raise {A} (e : exn) : App A := fun st => (Raise e, st).
Definition bind {A B} (m : App A) (k : A -> App B) : App B :=
  fun st =>
    match m st with
    | (Ok a, st') => k a st'
    | (Raise e, st') => (Raise e, st')
    end.
Definition get : App Store := fun st => (Ok st, st).
Definition put (st : Store) : App unit := fun _ => (Ok tt, st).

Notation "x <- m ;; k" := (bind m (fun x => k))
  (at level 61, m at next level, right associativity).
Notation "m ;;; k" := (bind m (fun _ => k))
  (at level 61, right associativity).

(** [if cond: raise e]. *)
Definition raise_if (cond : bool) (e : exn) : App unit :=
  if cond then raise e else ret tt.

(** [d[key]] on a dictionary where the key may be missing. *)
Definition subscript {A} (key : string) (v : option A) : App A :=
  match v with
  | Some a => ret a
  | None => raise (KeyError key)
  end.

(** Lifting a pure computation that may raise. *)
Definition lift {A} (r : result A) : App A := fun st => (r, st).

(** [str(n)] of an integer, as an f-string renders it. *)
Definition str (z : Z) : string := NilZero.string_of_int (Z.to_int z).

(** [next((q for q in quizzes if q["id"] == quiz_id), None)]. *)
Definition find_quiz (quiz_id : Z) (qs : list Quiz.t) : option Quiz.t :=
  find (fun q => Quiz.id q =? quiz_id) qs.

(** ** Scoring: [submit_quiz] *)

(** [float(n)] of a Python integer of magnitude below 2^63 (exact below
    2^53, where the lengths, counts and sums of this program are). *)
Definition float_of_int (z : Z) : float :=
  if z <? 0 then PrimFloat.opp (PrimFloat.of_uint63 (Uint63.of_Z (- z)))
  else PrimFloat.of_uint63 (Uint63.of_Z z).

(** Python's [a / b] on integers: [ZeroDivisionError] when [b] is zero, the
    binary64 quotient otherwise. *)
Definition true_div (a b : Z) : result float :=
  if b =? 0 then Raise ZeroDivisionError
  else Ok (PrimFloat.div (float_of_int a) (float_of_int b)).

(** The body of [for i, answer in enumerate(submission.answers)], started at
    index [i] with the running [correct_answers] and [detailed_results]. *)
Fixpoint grade_loop (questions : list Question.t) (i : nat)
    (answers : list Answer.t) (correct_answers : Z)
    (detailed_results : list DetailedResult.t)
    : result (Z * list DetailedResult.t) :=
  match answers with
  | [] => Ok (correct_answers, detailed_results)
  | answer :: rest =>
      match nth_error questions i with
      | None => Raise IndexError
      | Some question =>
          let is_correct :=
            String.eqb (Answer.answer answer) (Question.correct question) in
          let correct_answers :=
            if is_correct then correct_answers + 1 else correct_answers in
          grade_loop questions (S i) rest correct_answers
            (detailed_results ++
             [DetailedResult.mk (Question.question question) answer
                (Question.correct question) is_correct
                (Question.options question)])
      end
  end.

(** [POST /submit-quiz].  [now1] and [now2] are the two readings of
    [datetime.now().isoformat()].  The names [leaderboard] and
    [quiz_history] are assigned inside the function, so they are locals:
    the appends go to two fresh lists that die with the call, and the
    module-level [quiz_history] of the store is not touched. *)
Definition submit_quiz (submission : QuizSubmission.t) (now1 now2 : string)
    : App ScoreResult.t :=
  st <- get ;;
  match find_quiz (QuizSubmission.quiz_id submission) (quizzes st) with
  | None => raise (HTTPException 404 "Quiz not found")
  | Some quiz =>
      let correct_answers := 0 in
      let total_questions := Z.of_nat (List.length (Quiz.questions quiz)) in
      let detailed_results := [] in
      graded <- lift (grade_loop (Quiz.questions quiz) 0
                        (QuizSubmission.answers submission)
                        correct_answers detailed_results) ;;
      let '(correct_answers, detailed_results) := graded in
      quotient <- lift (true_div correct_answers total_questions) ;;
      let score := PrimFloat.mul quotient (float_of_int 100) in
      let leaderboard : list LeaderboardEntry.t := [] in
      let quiz_history : list HistoryEntry.t := [] in
      let leaderboard_entry :=
        LeaderboardEntry.mk (QuizSubmission.username submission)
          (Quiz.title quiz) score now1 in
      let leaderboard := leaderboard ++ [leaderboard_entry] in
      let quiz_history :=
        quiz_history ++
        [HistoryEntry.mk (QuizSubmission.username submission)
           (Quiz.title quiz) score now2 detailed_results] in
      ret (ScoreResult.mk score correct_answers total_questions
             detailed_results)
  end.

(** [GET /quiz-history/{username}]: reads the module-level list. *)
Definition get_quiz_history (username : string) : App (list HistoryEntry.t) :=
  st <- get ;;
  ret (filter (fun entry => String.eqb (HistoryEntry.username entry) username)
         (quiz_history st)).

(** ** The catalog: [create_quiz] *)

(** The body [create_quiz] returns. *)
Module CreateResponse.
Record t := mk { message : string; quiz_id : Z }.
End CreateResponse.

(** [max(l)] of a non-empty list of integers. *)
Definition py_max (first : Z) (others : list Z) : Z :=
  fold_left Z.max others first.

(** [max([q["id"] for q in quizzes]) + 1 if quizzes else 1]. *)
Definition next_quiz_id (qs : list Quiz.t) : Z :=
  match map Quiz.id qs with
  | [] => 1
  | first :: others => py_max first others + 1
  end.

(** [x in ["A", "B", "C", "D"]]. *)
Definition is_option_label (x : string) : bool :=
  existsb (String.eqb x) ["A"; "B"; "C"; "D"].

(** The loop [for i, question in enumerate(quiz_data["questions"])] of
    [create_quiz], started at index [i]; the questions that pass are the
    dictionaries that get stored. *)
Fixpoint validate_questions (i : Z) (qs : list QuestionData.t)
    : result (list Question.t) :=
  match qs with
  | [] => Ok []
  | q :: rest =>
      match QuestionData.question q, QuestionData.options q,
            QuestionData.correct q with
      | Some text, Some opts, Some label =>
          if (Z.of_nat (List.length opts) <? 2) then
            Raise (HTTPException 400
                     ("Question " ++ str (i + 1)
                      ++ " must have at least 2 options")%string)
          else if negb (is_option_label label) then
            Raise (HTTPException 400
                     ("Question " ++ str (i + 1)
                      ++ " correct answer must be A, B, C, or D")%string)
          else
            match validate_questions (i + 1) rest with
            | Ok stored => Ok (Question.mk text opts label :: stored)
            | Raise e => Raise e
            end
      | _, _, _ =>
          Raise (HTTPException 400
                   ("Question " ++ str (i + 1)
                    ++ " is missing required fields")%string)
      end
  end.

(** [if field not in quiz_data: raise HTTPException(400, ...)]. *)
Definition required {A} (field : string) (v : option A) : App A :=
  match v with
  | Some a => ret a
  | None =>
      raise (HTTPException 400 ("Missing required field: " ++ field)%string)
  end.

(** [quiz_data.get(key, default)]. *)
Definition get_default {A} (v : option A) (default : A) : A :=
  match v with
  | Some a => a
  | None => default
  end.

(** [POST /create-quiz]; [now] is [datetime.now().isoformat()].  The new
    dictionary has the key ["created_by"] and no key ["creator"]. *)
Definition create_quiz (quiz_data : QuizData.t) (now : string)
    : App CreateResponse.t :=
  st <- get ;;
  let new_id := next_quiz_id (quizzes st) in
  title <- required "title" (QuizData.title quiz_data) ;;
  description <- required "description" (QuizData.description quiz_data) ;;
  category <- required "category" (QuizData.category quiz_data) ;;
  difficulty <- required "difficulty" (QuizData.difficulty quiz_data) ;;
  time_limit <- required "time_limit" (QuizData.time_limit quiz_data) ;;
  questions <- required "questions" (QuizData.questions quiz_data) ;;
  raise_if (Z.of_nat (List.length questions) <? 1)
    (HTTPException 400 "Quiz must have at least 1 question") ;;;
  stored <- lift (validate_questions 0 questions) ;;
  let new_quiz :=
    Quiz.mk new_id title description category difficulty time_limit stored
      (get_default (QuizData.created_by quiz_data) "Anonymous") now
      None None in
  put (mkStore (quizzes st ++ [new_quiz]) (quiz_history st)
         (quiz_collaborators st) (collaboration_invitations st)) ;;;
  ret (CreateResponse.mk "Quiz created successfully" new_id).

(** ** Collaboration: invitations and collaborators *)

(** The body of [POST /quiz-collaboration/invite]; ["role"] may be left
    out. *)
Module InviteRequest.
Record t := mk {
  quiz_id : Z;
  inviter : string;
  invitee : string;
  role : option string }.
End InviteRequest.

Module InviteResponse.
Record t := mk { message : string; invitation_id : Z }.
End InviteResponse.

(** The body of [POST /quiz-collaboration/respond-invitation]; ["action"] is
    read with [.get] and never checked: it may be absent or any string. *)
Module RespondRequest.
Record t := mk {
  invitation_id : Z;
  action : option string;
  username : string }.
End RespondRequest.

Module RespondResponse.
Record t := mk { message : string; collaborator : option Collaborator.t }.
End RespondResponse.

(** The owner dictionary [get_quiz_collaborators] puts in front. *)
Module OwnerEntry.
Record t := mk {
  quiz_id : Z;
  username : string;
  role : string;
  status : string;
  joined_at : string }.
End OwnerEntry.

Inductive listed_collaborator : Type :=
| ListedOwner (owner : OwnerEntry.t)
| ListedRow (row : Collaborator.t).

(** [action == "accept"]. *)
Definition is_accept (action : option string) : bool :=
  match action with
  | Some a => String.eqb a "accept"
  | None => false
  end.

(** Equality of two collaborator dictionaries, as [list.remove] tests it. *)
Definition collaborator_eqb (a b : Collaborator.t) : bool :=
  (Collaborator.quiz_id a =? Collaborator.quiz_id b)
  && String.eqb (Collaborator.username a) (Collaborator.username b)
  && String.eqb (Collaborator.role a) (Collaborator.role b)
  && String.eqb (Collaborator.status a) (Collaborator.status b)
  && String.eqb (Collaborator.invited_by a) (Collaborator.invited_by b)
  && String.eqb (Collaborator.invited_at a) (Collaborator.invited_at b)
  && String.eqb (Collaborator.joined_at a) (Collaborator.joined_at b).

(** [l.remove(x)] for an [x] that [l] holds: the first equal element goes. *)
Fixpoint list_remove (x : Collaborator.t) (l : list Collaborator.t)
    : list Collaborator.t :=
  match l with
  | [] => []
  | y :: rest => if collaborator_eqb y x then rest else y :: list_remove x rest
  end.

(** Assigning to keys of the first dictionary of the list that satisfies
    [p]: the object [next(...)] returned is the one that sits in the list. *)
Fixpoint update_first {A} (p : A -> bool) (f : A -> A) (l : list A) : list A :=
  match l with
  | [] => []
  | y :: rest => if p y then f y :: rest else y :: update_first p f rest
  end.

(** [invitation["status"] = status; invitation["responded_at"] = now]. *)
Definition answered (status now : string) (i : Invitation.t) : Invitation.t :=
  Invitation.mk (Invitation.id i) (Invitation.quiz_id i) (Invitation.inviter i)
    (Invitation.invitee i) (Invitation.role i) status
    (Invitation.created_at i) (Invitation.quiz_title i) (Some now).

(** The generator conditions of the three searches of
    [invite_collaborator] and the two of [remove_collaborator]. *)
Definition is_manager_row (quiz_id : Z) (inviter : string)
    (c : Collaborator.t) : bool :=
  (Collaborator.quiz_id c =? quiz_id)
  && String.eqb (Collaborator.username c) inviter
  && existsb (String.eqb (Collaborator.role c)) ["admin"; "owner"].

Definition is_pending_for (quiz_id : Z) (invitee : string)
    (i : Invitation.t) : bool :=
  (Invitation.quiz_id i =? quiz_id)
  && String.eqb (Invitation.invitee i) invitee
  && String.eqb (Invitation.status i) "pending".

Definition is_row_of (quiz_id : Z) (username : string)
    (c : Collaborator.t) : bool :=
  (Collaborator.quiz_id c =? quiz_id)
  && String.eqb (Collaborator.username c) username.

Definition is_admin_row (quiz_id : Z) (remover_username : string)
    (c : Collaborator.t) : bool :=
  (Collaborator.quiz_id c =? quiz_id)
  && String.eqb (Collaborator.username c) remover_username
  && String.eqb (Collaborator.role c) "admin".

(** [x is None], for the result of [next(..., None)]. *)
Definition is_none {A} (v : option A) : bool :=
  match v with
  | Some _ => false
  | None => true
  end.

(** [POST /quiz-collaboration/invite]; [now] is
    [datetime.now().isoformat()]. *)
Definition invite_collaborator (invitation : InviteRequest.t) (now : string)
    : App InviteResponse.t :=
  st <- get ;;
  let quiz_id := InviteRequest.quiz_id invitation in
  let inviter := InviteRequest.inviter invitation in
  let invitee := InviteRequest.invitee invitation in
  let role := get_default (InviteRequest.role invitation) "editor" in
  match find_quiz quiz_id (quizzes st) with
  | None => raise (HTTPException 404 "Quiz not found")
  | Some quiz =>
      creator <- subscript "creator" (Quiz.creator quiz) ;;
      (if negb (String.eqb creator inviter) then
         let existing_collab :=
           find (is_manager_row quiz_id inviter) (quiz_collaborators st) in
         raise_if (is_none existing_collab)
           (HTTPException 403 "Insufficient permissions")
       else ret tt) ;;;
      let existing_invitation :=
        find (is_pending_for quiz_id invitee) (collaboration_invitations st) in
      raise_if (negb (is_none existing_invitation))
        (HTTPException 400 "User already invited") ;;;
      let existing_collaborator :=
        find (is_row_of quiz_id invitee) (quiz_collaborators st) in
      raise_if (negb (is_none existing_collaborator))
        (HTTPException 400 "User already collaborating") ;;;
      let invitation_id :=
        Z.of_nat (List.length (collaboration_invitations st)) + 1 in
      let new_invitation :=
        Invitation.mk invitation_id quiz_id inviter invitee role "pending"
          now (Quiz.title quiz) None in
      put (mkStore (quizzes st) (quiz_history st) (quiz_collaborators st)
             (collaboration_invitations st ++ [new_invitation])) ;;;
      ret (InviteResponse.mk "Invitation sent successfully" invitation_id)
  end.

(** [GET /quiz-collaboration/invitations/{username}]. *)
Definition get_user_invitations (username : string)
    : App (list Invitation.t) :=
  st <- get ;;
  ret (filter (fun inv =>
                 String.eqb (Invitation.invitee inv) username
                 && String.eqb (Invitation.status inv) "pending")
         (collaboration_invitations st)).

(** [POST /quiz-collaboration/respond-invitation]; [now1] and [now2] are the
    readings of the clock for ["responded_at"] and ["joined_at"]. *)
Definition respond_to_invitation (response : RespondRequest.t)
    (now1 now2 : string) : App RespondResponse.t :=
  st <- get ;;
  let invitation_id := RespondRequest.invitation_id response in
  let action := RespondRequest.action response in
  let username := RespondRequest.username response in
  let has_id := fun i => Invitation.id i =? invitation_id in
  match find has_id (collaboration_invitations st) with
  | None => raise (HTTPException 404 "Invitation not found")
  | Some invitation =>
      raise_if (negb (String.eqb (Invitation.invitee invitation) username))
        (HTTPException 403 "Not authorized to respond to this invitation") ;;;
      raise_if (negb (String.eqb (Invitation.status invitation) "pending"))
        (HTTPException 400 "Invitation already responded to") ;;;
      let status := if is_accept action then "accepted" else "declined" in
      let invitations :=
        update_first has_id (answered status now1)
          (collaboration_invitations st) in
      put (mkStore (quizzes st) (quiz_history st) (quiz_collaborators st)
             invitations) ;;;
      if is_accept action then
        let collaborator :=
          Collaborator.mk (Invitation.quiz_id invitation) username
            (Invitation.role invitation) "active"
            (Invitation.inviter invitation)
            (Invitation.created_at invitation) now2 in
        put (mkStore (quizzes st) (quiz_history st)
               (quiz_collaborators st ++ [collaborator]) invitations) ;;;
        ret (RespondResponse.mk "Invitation accepted" (Some collaborator))
      else
        ret (RespondResponse.mk "Invitation declined" None)
  end.

(** [GET /quiz-collaboration/{quiz_id}/collaborators]. *)
Definition get_quiz_collaborators (quiz_id : Z) (now : string)
    : App (list listed_collaborator) :=
  st <- get ;;
  match find_quiz quiz_id (quizzes st) with
  | None => raise (HTTPException 404 "Quiz not found")
  | Some quiz =>
      let collaborators :=
        filter (fun c =>
                  (Collaborator.quiz_id c =? quiz_id)
                  && String.eqb (Collaborator.status c) "active")
          (quiz_collaborators st) in
      creator <- subscript "creator" (Quiz.creator quiz) ;;
      let owner :=
        OwnerEntry.mk quiz_id creator "owner" "active"
          (get_default (Quiz.created_at quiz) now) in
      ret ([ListedOwner owner] ++ map ListedRow collaborators)
  end.

(** [DELETE /quiz-collaboration/{quiz_id}/collaborators/{username}];
    [remover_username] is [remover.get("username")]. *)
Definition remove_collaborator (quiz_id : Z) (username : string)
    (remover_username : string) : App string :=
  st <- get ;;
  match find_quiz quiz_id (quizzes st) with
  | None => raise (HTTPException 404 "Quiz not found")
  | Some quiz =>
      creator <- subscript "creator" (Quiz.creator quiz) ;;
      (if negb (String.eqb creator remover_username) then
         let remover_collab :=
           find (is_admin_row quiz_id remover_username)
             (quiz_collaborators st) in
         raise_if (is_none remover_collab)
           (HTTPException 403 "Insufficient permissions")
       else ret tt) ;;;
      creator <- subscript "creator" (Quiz.creator quiz) ;;
      raise_if (String.eqb username creator)
        (HTTPException 400 "Cannot remove quiz owner") ;;;
      match find (is_row_of quiz_id username) (quiz_collaborators st) with
      | None => raise (HTTPException 404 "Collaborator not found")
      | Some collaborator =>
          put (mkStore (quizzes st) (quiz_history st)
                 (list_remove collaborator (quiz_collaborators st))
                 (collaboration_invitations st)) ;;;
          ret "Collaborator removed successfully"
      end
  end.

(** ** The leaderboard over the database *)

(** A row of the table [users]. *)
Module User.
Record t := mk {
  id : Z;
  username : string;
  email : string;
  password : string;
  total_score : Z;
  quizzes_taken : Z }.
End User.

(** A row of the table [quiz_results]; [time_taken] may be NULL. *)
Module QuizResult.
Record t := mk {
  id : Z;
  user_id : Z;
  quiz_id : Z;
  score : Z;
  total_questions : Z;
  time_taken : option Z;
  answers : string }.
End QuizResult.

(** The two tables the leaderboard reads, in insertion order.  The engine
    is SQLite (the [connect_args] are SQLite's), which stores a row whose
    [user_id] names no user unless foreign keys are switched on, and the
    program does not switch them on. *)
Record Db := mkDb {
  users : list User.t;
  quiz_results : list QuizResult.t }.

(** One dictionary of the ["leaderboard"] list. *)
Module LeaderboardRow.
Record t := mk {
  username : string;
  total_score : Z;
  quizzes_taken : Z;
  average_score : float }.
End LeaderboardRow.

(** [FROM quiz_results JOIN users ON quiz_results.user_id = users.id]. *)
Definition joined (db : Db) : list (User.t * QuizResult.t) :=
  flat_map
    (fun r =>
       map (fun u => (u, r))
         (filter (fun u => User.id u =? QuizResult.user_id r) (users db)))
    (quiz_results db).

(** The group keys of [GROUP BY users.username], by first appearance. *)
Fixpoint group_keys (names : list string) : list string :=
  match names with
  | [] => []
  | n :: rest => n :: filter (fun m => negb (String.eqb m n)) (group_keys rest)
  end.

(** The scores of the joined rows of one group. *)
Definition scores_of (username : string) (rows : list (User.t * QuizResult.t))
    : list Z :=
  map (fun ur => QuizResult.score (snd ur))
    (filter (fun ur => String.eqb (User.username (fst ur)) username) rows).

Definition sum_list (l : list Z) : Z := fold_right Z.add 0 l.

(** The range of an SQLite INTEGER: 64 bits, signed. *)
Definition in_int64 (z : Z) : bool := (- 2 ^ 63 <=? z) && (z <? 2 ^ 63).

(** What the query of [get_leaderboard] leaves to the SQL engine, and the
    program does not decide: [sum(score)] over the scores of a group, which
    is [None] when the engine stops with "integer overflow" (the order in
    which it adds the rows of a group is its own); [avg(score)] over them,
    a binary64 whose last bits depend on how the engine accumulates; and
    the arrangement of the grouped rows by [ORDER BY sum(score) DESC],
    which promises nothing on the order of rows with equal sums. *)
Record Engine := mkEngine {
  sql_sum : list Z -> option Z;
  sql_avg : list Z -> float;
  order_by_sum_desc :
    list (string * Z * Z * float) -> list (string * Z * Z * float) }.

(** The integer nearest to [num / den], ties to even ([0 <= num], [0 < den]). *)
Definition round_half_even (num den : Z) : Z :=
  let q := num / den in
  let r := num mod den in
  match 2 * r ?= den with
  | Lt => q
  | Gt => q + 1
  | Eq => if Z.even q then q else q + 1
  end.

(** Python's [round(x, 1)] on a float: the exact value of [x] is rounded to
    one decimal, ties to even, and the decimal is read back as the nearest
    float.  From 2^49 on the floats are at least an eighth apart, the
    nearest one-decimal number is less than a sixteenth away, and so [x]
    itself is read back; below, the tenths are an integer under 2^53 and
    their quotient by ten is that nearest float.  Infinities and NaN are
    returned as they are. *)
Definition py_round1 (x : float) : float :=
  match Prim2SF x with
  | S754_finite s m e =>
      if -3 <=? e then x
      else
        let tenths := round_half_even (Zpos m * 10) (2 ^ (- e)) in
        let r := PrimFloat.div (float_of_int tenths) (float_of_int 10) in
        if s then PrimFloat.opp r else r
  | _ => x
  end.

(** [float(x or 0)] on a float: a zero of either sign is falsy and gives
    the integer [0], hence [0.0]. *)
Definition float_or_zero (x : float) : float :=
  if PrimFloat.eqb x 0%float then 0%float else x.

(** What the database layer raises to a handler that does not catch it. *)
Inductive db_exn : Type :=
| OperationalError (message : string).

Inductive db_result (A : Type) : Type :=
| Returned (a : A)
| Unhandled (e : db_exn).
Arguments Returned {A} a.
Arguments Unhandled {A} e.

(** The status of the response: FastAPI answers an exception that no
    handler caught with 500. *)
Definition db_status_of {A} (r : db_result A) : Z :=
  match r with
  | Returned _ => 200
  | Unhandled _ => 500
  end.

(** A row of the query result: username, [sum], [count], [avg]; nothing
    when the sum of the group overflows. *)
Definition aggregate (E : Engine) (rows : list (User.t * QuizResult.t))
    (username : string) : option (string * Z * Z * float) :=
  let scores := scores_of username rows in
  match sql_sum E scores with
  | Some total =>
      Some (username, total, Z.of_nat (List.length scores), sql_avg E scores)
  | None => None
  end.

(** The rows of all groups; nothing when the sum of some group overflows. *)
Fixpoint aggregate_all (E : Engine) (rows : list (User.t * QuizResult.t))
    (keys : list string) : option (list (string * Z * Z * float)) :=
  match keys with
  | [] => Some []
  | k :: rest =>
      match aggregate E rows k, aggregate_all E rows rest with
      | Some row, Some others => Some (row :: others)
      | _, _ => None
      end
  end.

Definition sum_of (row : string * Z * Z * float) : Z :=
  match row with (_, total, _, _) => total end.

(** The query of [get_leaderboard], [.all()] included.  The inner join
    leaves no row without a user and [users.username] is not nullable, so
    [coalesce(users.username, 'Anonymous')] is the user name. *)
Definition leaderboard_query (E : Engine) (db : Db)
    : db_result (list (string * Z * Z * float)) :=
  let rows := joined db in
  match
    aggregate_all E rows
      (group_keys (map (fun ur => User.username (fst ur)) rows))
  with
  | Some groups => Returned (order_by_sum_desc E groups)
  | None => Unhandled (OperationalError "integer overflow")
  end.

(** The dictionary built from one row of the query; [x or 0] and [int]
    leave an integer sum as it is. *)
Definition leaderboard_row (entry : string * Z * Z * float)
    : LeaderboardRow.t :=
  match entry with
  | (username, total_score, quizzes_taken, average_score) =>
      LeaderboardRow.mk username total_score quizzes_taken
        (py_round1 (float_or_zero average_score))
  end.

(** The sample data for the demo. *)
Definition sample_leaderboard : list LeaderboardRow.t :=
  [LeaderboardRow.mk "admin" 100 5 85%float;
   LeaderboardRow.mk "user1" 80 4 80%float;
   LeaderboardRow.mk "user2" 60 3 75%float].

(** [GET /leaderboard]: the exception of the query is not caught. *)
Definition get_leaderboard (E : Engine) (db : Db)
    : db_result (list LeaderboardRow.t) :=
  match leaderboard_query E db with
  | Unhandled e => Unhandled e
  | Returned entries =>
      let leaderboard := map leaderboard_row entries in
      Returned
        match leaderboard with
        | [] => sample_leaderboard
        | _ :: _ => leaderboard
        end
  end.

(** A numeric value of the body of [POST /quiz-history], an untyped
    dictionary: the key may be missing, or hold [null], or an integer of
    any size.  (Values of other JSON types are outside this model.) *)
Inductive json_int : Type :=
| JsonMissing
| JsonNull
| JsonInt (z : Z).

(** The body of [POST /quiz-history], of which only the result columns
    matter here; [answers] is the text [json.dumps] makes of that key. *)
Module QuizResultData.
Record t := mk {
  score : json_int;
  total_questions : json_int;
  time_taken : json_int;
  answers : string }.
End QuizResultData.

Module SubmitResultResponse.
Record t := mk { message : string; id : Z }.
End SubmitResultResponse.

(** [quiz_data.get(key, 0)]; Python's [None] is [None]. *)
Definition get_or_zero (v : json_int) : option Z :=
  match v with
  | JsonMissing => Some 0
  | JsonNull => None
  | JsonInt z => Some z
  end.

(** The value can be bound to an INTEGER parameter. *)
Definition binds (v : option Z) : bool :=
  match v with
  | Some z => in_int64 z
  | None => true
  end.

(** The next value of an autoincrement primary key. *)
Definition next_result_id (rows : list QuizResult.t) : Z :=
  match map QuizResult.id rows with
  | [] => 1
  | first :: others => py_max first others + 1
  end.

(** [POST /quiz-history]: a result for the default user 1 and quiz 1 is
    added and committed, and the new primary key is returned.  The insert
    fails, and nothing is stored, when an integer does not fit 64 bits or
    when [score] or [total_questions], which are [nullable=False], is
    [None]; the handler turns every exception into a 500 whose detail
    quotes the exception, [str_of_exception] being the text of the
    exception that the insert of this body raises. *)
Definition submit_quiz_result (str_of_exception : QuizResultData.t -> string)
    (quiz_data : QuizResultData.t) (db : Db)
    : result SubmitResultResponse.t * Db :=
  let score := get_or_zero (QuizResultData.score quiz_data) in
  let total_questions := get_or_zero (QuizResultData.total_questions quiz_data) in
  let time_taken := get_or_zero (QuizResultData.time_taken quiz_data) in
  let failed :=
    (Raise
       (HTTPException 500
          ("Failed to submit quiz result: " ++ str_of_exception quiz_data)),
     db) in
  if binds score && binds total_questions && binds time_taken then
    match score, total_questions with
    | Some score, Some total_questions =>
        let quiz_result :=
          QuizResult.mk (next_result_id (quiz_results db)) 1 1
            score total_questions time_taken
            (QuizResultData.answers quiz_data) in
        (Ok (SubmitResultResponse.mk "Quiz result submitted successfully"
               (QuizResult.id quiz_result)),
         mkDb (users db) (quiz_results db ++ [quiz_result]))
    | _, _ => failed
    end
  else failed.

(** ** Grading as the specification words it *)

(** What one answer and the question at the same position give. *)
Definition detail_of (aq : Answer.t * Question.t) : DetailedResult.t :=
  let (answer, question) := aq in
  DetailedResult.mk (Question.question question) answer
    (Question.correct question)
    (String.eqb (Answer.answer answer) (Question.correct question))
    (Question.options question).

(** The number of correct positions of a result list. *)
Definition correct_count (detailed : list DetailedResult.t) : Z :=
  Z.of_nat (List.length (filter DetailedResult.is_correct detailed)).

(** The score of the program: the quotient first, then times 100. *)
Definition score_of (correct total : Z) : float :=
  PrimFloat.mul (PrimFloat.div (float_of_int correct) (float_of_int total))
    (float_of_int 100).

(** The score in the specification's words, [100 * correctCount /
    totalQuestions] as a floating value. *)
Definition score_as_specified (correct total : Z) : float :=
  PrimFloat.div (float_of_int (100 * correct)) (float_of_int total).

(** Whether an outcome is an error of the program's own making. *)
Definition is_http_exception {A} (r : result A) : bool :=
  match r with
  | Raise (HTTPException _ _) => true
  | _ => false
  end.

(** ** The scenario of [test_submit_quiz] *)

Definition math_quiz_data : QuizData.t :=
  QuizData.mk (Some "Math Quiz") (Some "Simple Math") (Some "Math")
    (Some "Easy") (Some 60)
    (Some [QuestionData.mk (Some "1+1?") (Some ["1"; "2"; "3"; "4"]) (Some "B");
           QuestionData.mk (Some "2+2?") (Some ["3"; "4"; "5"; "6"]) (Some "B")])
    None.

(** The store after the test's [POST /create-quiz]. *)
Definition math_store : Store :=
  snd (create_quiz math_quiz_data "2024-01-01T00:00:00" initial_store).

Definition math_submission : QuizSubmission.t :=
  QuizSubmission.mk 1 "testuser"
    [Answer.mk 0 "B"; Answer.mk 0 "A"] 30.

(** A quiz of three questions, created through the endpoint, and a
    submission that gets the first of them right. *)
Definition thirds_quiz_data : QuizData.t :=
  QuizData.mk (Some "Thirds") (Some "Three questions") (Some "Math")
    (Some "Easy") (Some 60)
    (Some [QuestionData.mk (Some "q1") (Some ["x"; "y"]) (Some "A");
           QuestionData.mk (Some "q2") (Some ["x"; "y"]) (Some "A");
           QuestionData.mk (Some "q3") (Some ["x"; "y"]) (Some "A")])
    (Some "alice").

Definition thirds_store : Store :=
  snd (create_quiz thirds_quiz_data "2024-01-01T00:00:00" initial_store).

Definition thirds_submission : QuizSubmission.t :=
  QuizSubmission.mk 1 "testuser"
    [Answer.mk 0 "A"; Answer.mk 1 "B"; Answer.mk 2 "B"] 30.

(** A catalog that holds a quiz without questions; no endpoint builds one. *)
Definition empty_quiz_store : Store :=
  mkStore
    [Quiz.mk 7 "Empty" "No questions" "Math" "Easy" 60 [] "alice"
       "2024-01-01T00:00:00" None None] [] [] [].

Definition empty_submission : QuizSubmission.t :=
  QuizSubmission.mk 7 "testuser" [] 30.

(** ** Runs of the program *)

(** One request to one of the endpoints that write or could write the
    store, whatever its arguments and whatever its outcome. *)
Inductive step : Store -> Store -> Prop :=
| step_create (quiz_data : QuizData.t) (now : string) (st : Store) :
    step st (snd (create_quiz quiz_data now st))
| step_submit (submission : QuizSubmission.t) (now1 now2 : string)
    (st : Store) :
    step st (snd (submit_quiz submission now1 now2 st))
| step_invite (invitation : InviteRequest.t) (now : string) (st : Store) :
    step st (snd (invite_collaborator invitation now st))
| step_respond (response : RespondRequest.t) (now1 now2 : string)
    (st : Store) :
    step st (snd (respond_to_invitation response now1 now2 st))
| step_remove (quiz_id : Z) (username remover_username : string)
    (st : Store) :
    step st (snd (remove_collaborator quiz_id username remover_username st)).

(** Any sequence of requests. *)
Inductive steps : Store -> Store -> Prop :=
| steps_refl (st : Store) : steps st st
| steps_snoc (st1 st2 st3 : Store) :
    steps st1 st2 -> step st2 st3 -> steps st1 st3.

(** ** Predicates of the collaboration claims *)

(** The requester may remove collaborators of the quiz: the creator, or a
    user with a collaborator row of role admin. *)
Definition may_remove (st : Store) (quiz_id : Z) (creator requester : string)
    : Prop :=
  creator = requester
  \/ exists c : Collaborator.t,
       In c (quiz_collaborators st)
       /\ Collaborator.quiz_id c = quiz_id
       /\ Collaborator.username c = requester
       /\ Collaborator.role c = "admin".

(** The requester may invite to the quiz: the creator, or a user with a
    collaborator row of role admin or owner. *)
Definition may_invite (st : Store) (quiz_id : Z) (creator requester : string)
    : Prop :=
  creator = requester
  \/ exists c : Collaborator.t,
       In c (quiz_collaborators st)
       /\ Collaborator.quiz_id c = quiz_id
       /\ Collaborator.username c = requester
       /\ (Collaborator.role c = "admin" \/ Collaborator.role c = "owner").

(** The number of collaborator rows of a user on a quiz, and of the
    pending invitations to that user for that quiz. *)
Definition count_rows (quiz_id : Z) (username : string)
    (rows : list Collaborator.t) : nat :=
  List.length (filter (is_row_of quiz_id username) rows).

Definition count_pending (quiz_id : Z) (username : string)
    (invitations : list Invitation.t) : nat :=
  List.length (filter (is_pending_for quiz_id username) invitations).

(** The row was produced by accepting the invitation. *)
Definition accepted_as (c : Collaborator.t) (i : Invitation.t) : Prop :=
  Invitation.status i = "accepted"
  /\ Invitation.quiz_id i = Collaborator.quiz_id c
  /\ Invitation.invitee i = Collaborator.username c
  /\ Invitation.role i = Collaborator.role c.

(** What holds of the collaboration lists in every run that starts without
    rows and invitations. *)
Record collaboration_invariant (st : Store) : Prop := {
  one_seat :
    forall (quiz_id : Z) (username : string),
      (count_rows quiz_id username (quiz_collaborators st)
       + count_pending quiz_id username (collaboration_invitations st)
       <= 1)%nat;
  rows_active :
    Forall (fun c => Collaborator.status c = "active")
      (quiz_collaborators st);
  rows_invited :
    Forall (fun c =>
              exists i : Invitation.t,
                In i (collaboration_invitations st) /\ accepted_as c i)
      (quiz_collaborators st) }.


(** ** Collaboration scenarios *)

(** A catalog whose quiz dictionary carries the key ["creator"] that the
    collaboration endpoints read. *)
Definition owned_store : Store :=
  mkStore
    [Quiz.mk 1 "Math Quiz" "Simple Math" "Math" "Easy" 60
       [Question.mk "1+1?" ["1"; "2"; "3"; "4"] "B"]
       "alice" "2024-01-01T00:00:00" None (Some "alice")] [] [] [].

(** [alice] invites [bob] to quiz 1 as editor. *)
Definition invited_store : Store :=
  snd (invite_collaborator (InviteRequest.mk 1 "alice" "bob" None)
         "2024-01-02T00:00:00" owned_store).

Definition bob_invitation : Invitation.t :=
  Invitation.mk 1 1 "alice" "bob" "editor" "pending" "2024-01-02T00:00:00"
    "Math Quiz" None.

(** [alice], the creator, invites herself and accepts. *)
Definition self_invited_store : Store :=
  snd (respond_to_invitation (RespondRequest.mk 1 (Some "accept") "alice")
         "2024-01-03T00:00:00" "2024-01-03T00:00:01"
         (snd (invite_collaborator (InviteRequest.mk 1 "alice" "alice" None)
                 "2024-01-02T00:00:00" owned_store))).

(** ** The contract of the SQL engine *)

(** What every SQL engine does for the query, SQLite in each of its
    versions: a [sum] that is returned is the exact sum and fits 64 bits,
    and it is returned whenever the absolute values of the scores add up
    to less than 2^63 (no order of adding them then leaves the 64-bit
    range); an [avg] of scores whose absolute values add up to less than
    2^53 is the quotient of their exact sum by their number, as a
    binary64; and [ORDER BY sum(score) DESC] arranges the rows it is given
    in descending order of their sums. *)
Record engine_ok (E : Engine) : Prop := {
  sum_exact :
    forall (l : list Z) (s : Z),
      sql_sum E l = Some s -> s = sum_list l /\ in_int64 s = true;
  sum_small :
    forall l : list Z,
      sum_list (map Z.abs l) < 2 ^ 63 -> sql_sum E l = Some (sum_list l);
  avg_small :
    forall l : list Z,
      l <> [] ->
      sum_list (map Z.abs l) < 2 ^ 53 ->
      sql_avg E l
      = PrimFloat.div (float_of_int (sum_list l))
          (float_of_int (Z.of_nat (List.length l)));
  order_perm :
    forall rows : list (string * Z * Z * float),
      Permutation (order_by_sum_desc E rows) rows;
  order_sorted :
    forall rows : list (string * Z * Z * float),
      Sorted (fun a b => sum_of b <= sum_of a) (order_by_sum_desc E rows) }.

(** One engine that meets the contract, for the examples: it adds the
    scores of a group in row order and stops at the first sum that leaves
    the 64-bit range, and it orders by insertion. *)
Fixpoint checked_sum (acc : Z) (l : list Z) : option Z :=
  match l with
  | [] => Some acc
  | x :: rest =>
      if in_int64 (acc + x) then checked_sum (acc + x) rest else None
  end.

Fixpoint insert_desc (row : string * Z * Z * float)
    (sorted : list (string * Z * Z * float)) : list (string * Z * Z * float) :=
  match sorted with
  | [] => [row]
  | r :: rest =>
      if sum_of r <? sum_of row then row :: r :: rest
      else r :: insert_desc row rest
  end.

Definition insertion_engine : Engine :=
  mkEngine
    (checked_sum 0)
    (fun l =>
       PrimFloat.div (float_of_int (sum_list l))
         (float_of_int (Z.of_nat (List.length l))))
    (fold_right insert_desc []).

(** ** Leaderboard scenarios *)

(** The database before anyone registered or played. *)
Definition fresh_db : Db := mkDb [] [].

(** The body of a [POST /quiz-history]: 8 of 10 in half a minute. *)
Definition eighty : QuizResultData.t :=
  QuizResultData.mk (JsonInt 80) (JsonInt 10) (JsonInt 30) "{}".

(** The fresh database after that request: the result is stored for user
    1, and there is no user 1. *)
Definition orphan_db : Db :=
  mkDb [] [QuizResult.mk 1 1 1 80 10 (Some 30) "{}"].

(** Two registered users; [carol] has results 50 and 100, [dave] has 200. *)
Definition played_db : Db :=
  mkDb [User.mk 1 "carol" "carol@example.com" "pw" 0 0;
        User.mk 2 "dave" "dave@example.com" "pw" 0 0]
       [QuizResult.mk 1 1 1 50 10 (Some 30) "{}";
        QuizResult.mk 2 2 1 200 10 (Some 30) "{}";
        QuizResult.mk 3 1 1 100 10 (Some 30) "{}"].

(** The row of a group whose sum did not overflow. *)
Definition exact_aggregate (E : Engine) (rows : list (User.t * QuizResult.t))
    (username : string) : string * Z * Z * float :=
  let scores := scores_of username rows in
  (username, sum_list scores, Z.of_nat (List.length scores),
   sql_avg E scores).

(** The rows of a leaderboard are in descending order of [total_score]. *)
Definition by_total_desc (a b : LeaderboardRow.t) : Prop :=
  LeaderboardRow.total_score b <= LeaderboardRow.total_score a.

(** ** The catalog: [import_quiz] *)

(** [class QuizImport(BaseModel)]: the quiz dictionary, its optional
    ["export_date"], and the ["created_by"] of [import_options]. *)
Module QuizImport.
Record t := mk {
  quiz_data : QuizData.t;
  export_date : option string;
  created_by : option string }.
End QuizImport.

(** The body [import_quiz] returns. *)
Module ImportResponse.
Record t := mk { message : string; quiz_id : Z; quiz_title : string }.
End ImportResponse.

(** The loop [for i, question in enumerate(quiz_data["questions"])] of
    [import_quiz], started at index [i]: the three keys are looked for in
    the order question, options, correct, then the options are counted;
    the label is not looked at. *)
Fixpoint import_questions (i : Z) (qs : list QuestionData.t)
    : result (list Question.t) :=
  match qs with
  | [] => Ok []
  | q :: rest =>
      match QuestionData.question q with
      | None =>
          Raise (HTTPException 400
                   ("Question " ++ str (i + 1) ++ " missing field: question")%string)
      | Some text =>
          match QuestionData.options q with
          | None =>
              Raise (HTTPException 400
                       ("Question " ++ str (i + 1)
                        ++ " missing field: options")%string)
          | Some opts =>
              match QuestionData.correct q with
              | None =>
                  Raise (HTTPException 400
                           ("Question " ++ str (i + 1)
                            ++ " missing field: correct")%string)
              | Some label =>
                  if Z.of_nat (List.length opts) <? 2 then
                    Raise (HTTPException 400
                             ("Question " ++ str (i + 1)
                              ++ " must have at least 2 options")%string)
                  else
                    match import_questions (i + 1) rest with
                    | Ok stored => Ok (Question.mk text opts label :: stored)
                    | Raise e => Raise e
                    end
              end
          end
      end
  end.

(** The [try] block of [import_quiz]; [now] is
    [datetime.now().isoformat()]. *)
Definition import_quiz_body (import_data : QuizImport.t) (now : string)
    : App ImportResponse.t :=
  let quiz_data := QuizImport.quiz_data import_data in
  title <- required "title" (QuizData.title quiz_data) ;;
  description <- required "description" (QuizData.description quiz_data) ;;
  category <- required "category" (QuizData.category quiz_data) ;;
  difficulty <- required "difficulty" (QuizData.difficulty quiz_data) ;;
  time_limit <- required "time_limit" (QuizData.time_limit quiz_data) ;;
  questions <- required "questions" (QuizData.questions quiz_data) ;;
  raise_if (Z.of_nat (List.length questions) =? 0)
    (HTTPException 400 "Quiz must have at least one question") ;;;
  stored <- lift (import_questions 0 questions) ;;
  st <- get ;;
  let new_quiz :=
    Quiz.mk (Z.of_nat (List.length (quizzes st)) + 1) title description
      category difficulty time_limit stored
      (get_default (QuizImport.created_by import_data) "Imported") now
      None None in
  put (mkStore (quizzes st ++ [new_quiz]) (quiz_history st)
         (quiz_collaborators st) (collaboration_invitations st)) ;;;
  ret (ImportResponse.mk "Quiz imported successfully" (Quiz.id new_quiz)
         (Quiz.title new_quiz)).

(** [POST /import-quiz]: [except Exception as e] turns whatever the body
    raises, its own 400s included, into a 400 whose detail quotes [str(e)];
    how the framework prints an exception is the parameter
    [str_of_exception]. *)
Definition import_quiz (str_of_exception : exn -> string)
    (import_data : QuizImport.t) (now : string) : App ImportResponse.t :=
  fun st =>
    match import_quiz_body import_data now st with
    | (Ok r, st') => (Ok r, st')
    | (Raise e, st') =>
        (Raise (HTTPException 400
                  ("Import failed: " ++ str_of_exception e)%string), st')
    end.

(** ** Runs over every endpoint that writes *)

(** One request to any of the endpoints that assign to or append to a
    module-level list. *)
Inductive request : Store -> Store -> Prop :=
| request_step (st st' : Store) : step st st' -> request st st'
| request_import (str_of_exception : exn -> string)
    (import_data : QuizImport.t) (now : string) (st : Store) :
    request st (snd (import_quiz str_of_exception import_data now st)).

Inductive requests : Store -> Store -> Prop :=
| requests_refl (st : Store) : requests st st
| requests_snoc (st1 st2 st3 : Store) :
    requests st1 st2 -> request st2 st3 -> requests st1 st3.

(** ** Predicates of the catalog *)

(** The identifiers of the catalog are 1, 2, ... in the order of the list. *)
Definition ids_sequential (qs : list Quiz.t) : Prop :=
  map Quiz.id qs = map Z.of_nat (seq 1 (List.length qs)).

(** What both creation paths check of a stored quiz: at least one question,
    at least two options each. *)
Definition has_questions (quiz : Quiz.t) : Prop :=
  Quiz.questions quiz <> []
  /\ Forall (fun q => (2 <= List.length (Question.options q))%nat)
       (Quiz.questions quiz).

(** The request dictionary a stored question came from. *)
Definition question_data (q : Question.t) : QuestionData.t :=
  QuestionData.mk (Some (Question.question q)) (Some (Question.options q))
    (Some (Question.correct q)).

(** ** What a graded position says, the submitted answer aside *)

Definition verdict (d : DetailedResult.t)
    : string * string * bool * list string :=
  (DetailedResult.question d, DetailedResult.correct_answer d,
   DetailedResult.is_correct d, DetailedResult.options d).

(** ** More of the collaboration endpoints *)

(** The identifiers of the invitations are 1, 2, ... in list order. *)
Definition invitation_ids_sequential (invitations : list Invitation.t) : Prop :=
  map Invitation.id invitations
  = map Z.of_nat (seq 1 (List.length invitations)).

(** One element of ["collaborative_quizzes"]: the quiz dictionary with the
    keys ["collaboration_role"] and ["joined_at"] added. *)
Module CollaborativeQuiz.
Record t := mk {
  quiz : Quiz.t;
  collaboration_role : string;
  joined_at : string }.
End CollaborativeQuiz.

(** The loop of [get_user_collaborative_quizzes]: a row whose quiz is not
    in the catalog is passed over. *)
Fixpoint collaborative_quizzes (qs : list Quiz.t)
    (user_collaborations : list Collaborator.t)
    : list CollaborativeQuiz.t :=
  match user_collaborations with
  | [] => []
  | collab :: rest =>
      match find_quiz (Collaborator.quiz_id collab) qs with
      | Some quiz =>
          CollaborativeQuiz.mk quiz (Collaborator.role collab)
            (Collaborator.joined_at collab)
          :: collaborative_quizzes qs rest
      | None => collaborative_quizzes qs rest
      end
  end.

(** [GET /quiz-collaboration/user/{username}/quizzes]. *)
Definition get_user_collaborative_quizzes (username : string)
    : App (list CollaborativeQuiz.t) :=
  st <- get ;;
  let user_collaborations :=
    filter (fun c =>
              String.eqb (Collaborator.username c) username
              && String.eqb (Collaborator.status c) "active")
      (quiz_collaborators st) in
  ret (collaborative_quizzes (quizzes st) user_collaborations).

(** ** Per-quiz analytics *)

(** A JSON number: the program returns the integer [0] in some places and
    a float in others. *)
Inductive number : Type :=
| Int (z : Z)
| Float (f : float).

(** One element of ["question_analytics"]. *)
Module QuestionStat.
Record t := mk {
  question : string;
  correct_rate : number;
  total_attempts : Z }.
End QuestionStat.

(** The body [get_quiz_analytics] returns; the two distributions are the
    lists of [{"range", "count"}] and [{"date", "count"}] dictionaries. *)
Module QuizAnalytics.
Record t := mk {
  quiz : Quiz.t;
  total_attempts : Z;
  average_score : number;
  completion_rate : Z;
  score_distribution : list (string * Z);
  attempts_over_time : list (string * Z);
  question_analytics : list QuestionStat.t }.
End QuizAnalytics.

(** [d[key] += 1] on a dictionary of counters kept in insertion order: a
    key that is there keeps its place; a [defaultdict(int)] gives a missing
    key the value 0 first, at the end. *)
Fixpoint increment (key : string) (d : list (string * Z)) : list (string * Z) :=
  match d with
  | [] => [(key, 1)]
  | (k, v) :: rest =>
      if String.eqb k key then (k, v + 1) :: rest
      else (k, v) :: increment key rest
  end.

(** The key of [score_ranges] that the [if]/[elif] chain picks. *)
Definition range_of (score : float) : string :=
  if PrimFloat.leb score 25 then "0-25"
  else if PrimFloat.leb score 50 then "26-50"
  else if PrimFloat.leb score 75 then "51-75"
  else "76-100".

(** [score_ranges] after the loop over the attempts. *)
Definition score_ranges (attempts : list HistoryEntry.t) : list (string * Z) :=
  fold_left (fun d attempt => increment (range_of (HistoryEntry.score attempt)) d)
    attempts [("0-25", 0); ("26-50", 0); ("51-75", 0); ("76-100", 0)].

(** [attempts_by_date] after its loop; [date[:10]] is the first ten
    characters of the date (of a date in ASCII, as [isoformat] gives). *)
Definition attempts_by_date (attempts : list HistoryEntry.t)
    : list (string * Z) :=
  fold_left
    (fun d attempt => increment (substring 0 10 (HistoryEntry.date attempt)) d)
    attempts [].

(** [sorted(attempts_over_time, key=lambda x: x["date"])]: stable, by the
    order of the strings. *)
Fixpoint insert_by_date (x : string * Z) (sorted : list (string * Z))
    : list (string * Z) :=
  match sorted with
  | [] => [x]
  | y :: rest =>
      if String.leb (fst x) (fst y) then x :: y :: rest
      else y :: insert_by_date x rest
  end.

Definition sorted_by_date (l : list (string * Z)) : list (string * Z) :=
  fold_right insert_by_date [] l.

(** The inner loop over the attempts for the question at index [i]: the
    pair of [correct_count] and [total_count]. *)
Definition position_counts (i : nat) (attempts : list HistoryEntry.t)
    : Z * Z :=
  fold_left
    (fun counts attempt =>
       let '(correct_count, total_count) := counts in
       match nth_error (HistoryEntry.detailed_results attempt) i with
       | Some d =>
           (if DetailedResult.is_correct d then correct_count + 1
            else correct_count,
            total_count + 1)
       | None => (correct_count, total_count)
       end)
    attempts (0, 0).

(** The loop [for i, question in enumerate(quiz["questions"])], started at
    index [i]. *)
Fixpoint question_stats (i : nat) (questions : list Question.t)
    (attempts : list HistoryEntry.t) : list QuestionStat.t :=
  match questions with
  | [] => []
  | question :: rest =>
      let '(correct_count, total_count) := position_counts i attempts in
      QuestionStat.mk (Question.question question)
        (if 0 <? total_count then Float (score_of correct_count total_count)
         else Int 0)
        total_count
      :: question_stats (S i) rest attempts
  end.

(** [GET /quiz-analytics/{quiz_id}].  A history entry has no key
    ["quiz_id"], so [h.get("quiz_id") == quiz_id] is false and an entry
    belongs to the quiz by its title; every entry has the key
    ["detailed_results"].  [py_sum] is the built-in [sum] on the float
    scores, whose rounding depends on the interpreter's version. *)
Definition get_quiz_analytics (py_sum : list float -> float) (quiz_id : Z)
    : App QuizAnalytics.t :=
  st <- get ;;
  match find_quiz quiz_id (quizzes st) with
  | None => raise (HTTPException 404 "Quiz not found")
  | Some quiz =>
      let attempts :=
        filter (fun h => String.eqb (HistoryEntry.quiz_title h) (Quiz.title quiz))
          (quiz_history st) in
      match attempts with
      | [] => ret (QuizAnalytics.mk quiz 0 (Int 0) 0 [] [] [])
      | _ :: _ =>
          let total_attempts := Z.of_nat (List.length attempts) in
          let average_score :=
            PrimFloat.div (py_sum (map HistoryEntry.score attempts))
              (float_of_int total_attempts) in
          let attempts_over_time := attempts_by_date attempts in
          let question_analytics :=
            question_stats 0 (Quiz.questions quiz) attempts in
          ret (QuizAnalytics.mk quiz total_attempts
                 (Float (py_round1 average_score)) 100
                 (score_ranges attempts)
                 (sorted_by_date attempts_over_time)
                 question_analytics)
      end
  end.

(** A history with three attempts on the Math Quiz, as [submit_quiz] builds
    its entries. *)
Definition played_store : Store :=
  mkStore (quizzes math_store)
    [HistoryEntry.mk "bob" "Math Quiz" 50 "2024-01-03T10:00:00"
       [DetailedResult.mk "1+1?" (Answer.mk 0 "B") "B" true ["1"; "2"; "3"; "4"];
        DetailedResult.mk "2+2?" (Answer.mk 0 "A") "B" false ["3"; "4"; "5"; "6"]];
     HistoryEntry.mk "eve" "Other Quiz" 100 "2024-01-02T09:00:00" [];
     HistoryEntry.mk "carol" "Math Quiz" 100 "2024-01-02T08:00:00"
       [DetailedResult.mk "1+1?" (Answer.mk 0 "B") "B" true ["1"; "2"; "3"; "4"];
        DetailedResult.mk "2+2?" (Answer.mk 0 "B") "B" true ["3"; "4"; "5"; "6"]];
     HistoryEntry.mk "bob" "Math Quiz" 0 "2024-01-03T11:30:00"
       [DetailedResult.mk "1+1?" (Answer.mk 0 "A") "B" false ["1"; "2"; "3"; "4"]]]
    [] [].

(** The sum of the counts of a list of counters. *)
Definition count_total (d : list (string * Z)) : Z := sum_list (map snd d).

(** ** Registration and login *)

(** [class UserCreate(BaseModel)]. *)
Module UserCreate.
Record t := mk { username : string; email : string; password : string }.
End UserCreate.

(** [class Token(BaseModel)]. *)
Module Token.
Record t := mk { access_token : string; token_type : string }.
End Token.

(** The two fields of the login form that the endpoint reads. *)
Module LoginForm.
Record t := mk { username : string; password : string }.
End LoginForm.

(** The next value of the primary key of [users]. *)
Definition next_user_id (rows : list User.t) : Z :=
  match map User.id rows with
  | [] => 1
  | first :: others => py_max first others + 1
  end.

(** [db.query(User).filter(User.username == name).first()], and the same
    for the email. *)
Definition user_by_name (name : string) (db : Db) : option User.t :=
  find (fun u => String.eqb (User.username u) name) (users db).

Definition user_by_email (email : string) (db : Db) : option User.t :=
  find (fun u => String.eqb (User.email u) email) (users db).

(** [POST /register].  [create_access_token] stands for the function of
    that name: the signed token for a subject at the time [now]. *)
Definition register (create_access_token : string -> string -> string)
    (user : UserCreate.t) (now : string) (db : Db) : result Token.t * Db :=
  match user_by_name (UserCreate.username user) db with
  | Some _ => (Raise (HTTPException 400 "Username already exists"), db)
  | None =>
      match user_by_email (UserCreate.email user) db with
      | Some _ => (Raise (HTTPException 400 "Email already exists"), db)
      | None =>
          let db_user :=
            User.mk (next_user_id (users db)) (UserCreate.username user)
              (UserCreate.email user) (UserCreate.password user) 0 0 in
          let access_token :=
            create_access_token (User.username db_user) now in
          (Ok (Token.mk access_token "bearer"),
           mkDb (users db ++ [db_user]) (quiz_results db))
      end
  end.

(** [POST /token]; the database is only read. *)
Definition login_for_access_token
    (create_access_token : string -> string -> string)
    (form_data : LoginForm.t) (now : string) (db : Db) : result Token.t :=
  match user_by_name (LoginForm.username form_data) db with
  | None => Raise (HTTPException 401 "Incorrect username or password")
  | Some user =>
      if negb (String.eqb (User.password user) (LoginForm.password form_data))
      then Raise (HTTPException 401 "Incorrect username or password")
      else Ok (Token.mk (create_access_token (User.username user) now)
                 "bearer")
  end.

(** One request that writes the database, and any sequence of them. *)
Inductive db_request : Db -> Db -> Prop :=
| db_register (create_access_token : string -> string -> string)
    (user : UserCreate.t) (now : string) (db : Db) :
    db_request db (snd (register create_access_token user now db))
| db_submit_result (str_of_exception : QuizResultData.t -> string)
    (quiz_data : QuizResultData.t) (db : Db) :
    db_request db (snd (submit_quiz_result str_of_exception quiz_data db)).

Inductive db_requests : Db -> Db -> Prop :=
| db_requests_refl (db : Db) : db_requests db db
| db_requests_snoc (db1 db2 db3 : Db) :
    db_requests db1 db2 -> db_request db2 db3 -> db_requests db1 db3.

(** User names, emails and identifiers are each distinct. *)
Definition users_distinct (db : Db) : Prop :=
  NoDup (map User.username (users db))
  /\ NoDup (map User.email (users db))
  /\ NoDup (map User.id (users db)).

(** * Properties *)

(** ** Properties of the grading loop *)

Lemma grade_loop_overrun (questions : list Question.t) (answers : list Answer.t) :
  forall (i : nat) (c : Z) (d : list DetailedResult.t),
    (i <= List.length questions)%nat ->
    (List.length questions < i + List.length answers)%nat ->
    grade_loop questions i answers c d = Raise IndexError.
Proof.
  induction answers as [|answer rest IH]; intros i c d Hi Hlen; simpl in *.
  - lia.
  - destruct (nth_error questions i) as [question|] eqn:Hq; [|reflexivity].
    assert (i < List.length questions)%nat
      by (apply nth_error_Some; congruence).
    apply IH; lia.
Qed.

(** C10: a submission with more answers than the quiz has questions makes
    the loop index run past the question list; [submit_quiz] ends with the
    unhandled [IndexError] (no score, no [HTTPException]) and the store is
    as before. *)
Theorem submit_quiz_excess_answers_index_error
    (st : Store) (submission : QuizSubmission.t) (now1 now2 : string)
    (quiz : Quiz.t) :
  find_quiz (QuizSubmission.quiz_id submission) (quizzes st) = Some quiz ->
  (List.length (Quiz.questions quiz)
   < List.length (QuizSubmission.answers submission))%nat ->
  submit_quiz submission now1 now2 st = (Raise IndexError, st)
  /\ status_of (fst (submit_quiz submission now1 now2 st)) = 500.
Proof.
  intros Hfind Hlen.
  assert (Hrun : submit_quiz submission now1 now2 st = (Raise IndexError, st)).
  { unfold submit_quiz, bind, get, lift. rewrite Hfind.
    rewrite grade_loop_overrun by (simpl; lia). reflexivity. }
  split; [exact Hrun | rewrite Hrun; reflexivity].
Qed.

Example math_store_catalog :
  quizzes math_store =
  [Quiz.mk 1 "Math Quiz" "Simple Math" "Math" "Easy" 60
     [Question.mk "1+1?" ["1"; "2"; "3"; "4"] "B";
      Question.mk "2+2?" ["3"; "4"; "5"; "6"] "B"]
     "Anonymous" "2024-01-01T00:00:00" None None].
Proof. reflexivity. Qed.

Example math_submit :
  fst (submit_quiz math_submission "t1" "t2" math_store) =
  Ok (ScoreResult.mk 50%float 1 2
        [DetailedResult.mk "1+1?" (Answer.mk 0 "B") "B" true ["1"; "2"; "3"; "4"];
         DetailedResult.mk "2+2?" (Answer.mk 0 "A") "B" false ["3"; "4"; "5"; "6"]]).
Proof. reflexivity. Qed.

Lemma nth_error_skipn_cons {A} (l : list A) :
  forall (i : nat) (x : A),
    nth_error l i = Some x -> skipn i l = x :: skipn (S i) l.
Proof.
  induction l as [|y l IH]; intros [|i] x H; simpl in *; try discriminate.
  - congruence.
  - apply IH in H. rewrite H. reflexivity.
Qed.

Lemma correct_count_cons (d : DetailedResult.t) (l : list DetailedResult.t) :
  correct_count (d :: l) =
  (if DetailedResult.is_correct d then 1 else 0) + correct_count l.
Proof.
  unfold correct_count. simpl.
  destruct (DetailedResult.is_correct d); simpl List.length; lia.
Qed.

(** As long as every answer has a question at its index, the loop computes
    the positional pairing of the answers with the questions from [i] on. *)
Lemma grade_loop_positional (questions : list Question.t)
    (answers : list Answer.t) :
  forall (i : nat) (c : Z) (d : list DetailedResult.t),
    (i + List.length answers <= List.length questions)%nat ->
    grade_loop questions i answers c d =
    Ok (c + correct_count (map detail_of (combine answers (skipn i questions))),
        d ++ map detail_of (combine answers (skipn i questions))).
Proof.
  induction answers as [|answer rest IH]; intros i c d Hlen; simpl in *.
  - unfold correct_count. simpl. rewrite app_nil_r. f_equal. f_equal. lia.
  - destruct (nth_error questions i) as [question|] eqn:Hq.
    + rewrite (nth_error_skipn_cons _ _ _ Hq). simpl combine. simpl map.
      rewrite IH by lia. rewrite correct_count_cons. simpl.
      rewrite <- app_assoc. simpl. f_equal. f_equal.
      destruct (String.eqb (Answer.answer answer) (Question.correct question));
        lia.
    + apply nth_error_None in Hq. lia.
Qed.

(** [submit_quiz] never writes the store. *)
Lemma submit_quiz_store_unchanged (st : Store) (submission : QuizSubmission.t)
    (now1 now2 : string) :
  snd (submit_quiz submission now1 now2 st) = st.
Proof.
  unfold submit_quiz, bind, get, lift, ret, raise.
  destruct (find_quiz _ _) as [quiz|]; [|reflexivity].
  destruct (grade_loop _ _ _ _ _) as [[c d]|e]; [|reflexivity].
  destruct (true_div _ _); reflexivity.
Qed.

(** The outcome of a submission that fits the quiz it names. *)
Lemma submit_quiz_runs (st : Store) (submission : QuizSubmission.t)
    (now1 now2 : string) (quiz : Quiz.t) :
  find_quiz (QuizSubmission.quiz_id submission) (quizzes st) = Some quiz ->
  (1 <= List.length (Quiz.questions quiz))%nat ->
  (List.length (QuizSubmission.answers submission)
   <= List.length (Quiz.questions quiz))%nat ->
  let detailed :=
    map detail_of
      (combine (QuizSubmission.answers submission) (Quiz.questions quiz)) in
  let n := Z.of_nat (List.length (Quiz.questions quiz)) in
  submit_quiz submission now1 now2 st =
  (Ok (ScoreResult.mk (score_of (correct_count detailed) n)
         (correct_count detailed) n detailed), st).
Proof.
  intros Hfind Hn Hlen detailed n.
  unfold submit_quiz, bind, get, lift, ret. rewrite Hfind.
  rewrite grade_loop_positional by (simpl; lia). simpl skipn.
  unfold true_div. fold n.
  destruct (n =? 0) eqn:Hz; [apply Z.eqb_eq in Hz; subst n; lia|].
  reflexivity.
Qed.

(** C5 (amended): for a quiz of [n >= 1] questions and at most [n] answers,
    [submit_quiz] pairs answer [i] with question [i], marks the position
    correct exactly when the submitted label equals the question's label as
    a string, and returns [correct] = the number of correct positions,
    [total] = [n] and [score] = [(correct / n) * 100] in binary64, the
    quotient being rounded before it is multiplied; the Math Quiz
    submission gives 50.0, 1 and 2, with the first position correct and the
    second not. *)
Theorem submit_quiz_grades_by_position
    (st : Store) (submission : QuizSubmission.t) (now1 now2 : string)
    (quiz : Quiz.t) :
  find_quiz (QuizSubmission.quiz_id submission) (quizzes st) = Some quiz ->
  (1 <= List.length (Quiz.questions quiz))%nat ->
  (List.length (QuizSubmission.answers submission)
   <= List.length (Quiz.questions quiz))%nat ->
  exists r : ScoreResult.t,
    submit_quiz submission now1 now2 st = (Ok r, st)
    /\ ScoreResult.total r = Z.of_nat (List.length (Quiz.questions quiz))
    /\ ScoreResult.correct r = correct_count (ScoreResult.detailed_results r)
    /\ ScoreResult.score r =
       PrimFloat.mul
         (PrimFloat.div (float_of_int (ScoreResult.correct r))
            (float_of_int (ScoreResult.total r)))
         (float_of_int 100)
    /\ List.length (ScoreResult.detailed_results r) =
       List.length (QuizSubmission.answers submission)
    /\ (forall (i : nat) (answer : Answer.t),
          nth_error (QuizSubmission.answers submission) i = Some answer ->
          exists question : Question.t,
            nth_error (Quiz.questions quiz) i = Some question
            /\ nth_error (ScoreResult.detailed_results r) i =
               Some (DetailedResult.mk (Question.question question) answer
                       (Question.correct question)
                       (String.eqb (Answer.answer answer)
                          (Question.correct question))
                       (Question.options question))
            /\ (String.eqb (Answer.answer answer) (Question.correct question)
                = true
                <-> Answer.answer answer = Question.correct question))
    /\ submit_quiz math_submission now1 now2 math_store =
       (Ok (ScoreResult.mk 50%float 1 2
              [DetailedResult.mk "1+1?" (Answer.mk 0 "B") "B" true
                 ["1"; "2"; "3"; "4"];
               DetailedResult.mk "2+2?" (Answer.mk 0 "A") "B" false
                 ["3"; "4"; "5"; "6"]]),
        math_store).
Proof.
  intros Hfind Hn Hlen.
  eexists. split; [apply (submit_quiz_runs _ _ _ _ _ Hfind Hn Hlen)|].
  simpl ScoreResult.total. simpl ScoreResult.correct.
  simpl ScoreResult.score. simpl ScoreResult.detailed_results.
  split; [reflexivity|]. split; [reflexivity|]. split; [reflexivity|].
  split; [|split].
  - rewrite length_map, length_combine. lia.
  - intros i answer H.
    assert (Hi : (i < List.length (Quiz.questions quiz))%nat).
    { assert (i < List.length (QuizSubmission.answers submission))%nat
        by (apply nth_error_Some; congruence).
      lia. }
    apply nth_error_Some in Hi.
    destruct (nth_error (Quiz.questions quiz) i) as [question|] eqn:Hq;
      [|congruence].
    exists question. split; [reflexivity|]. split.
    + rewrite nth_error_map.
      assert (Hc : nth_error
                     (combine (QuizSubmission.answers submission)
                        (Quiz.questions quiz)) i = Some (answer, question)).
      { clear - H Hq. revert i H Hq.
        generalize (Quiz.questions quiz) as qs.
        induction (QuizSubmission.answers submission) as [|a l IH];
          intros [|q qs] [|i] Ha Hq; simpl in *; try discriminate.
        - congruence.
        - apply IH; assumption. }
      rewrite Hc. reflexivity.
    + apply String.eqb_eq.
  - reflexivity.
Qed.

(** The hypotheses of C5 at the quiz of three questions. *)
Lemma submit_quiz_grades_by_position_witness :
  exists r : ScoreResult.t,
    submit_quiz thirds_submission "t1" "t2" thirds_store = (Ok r, thirds_store)
    /\ ScoreResult.total r = 3
    /\ ScoreResult.correct r = 1.
Proof.
  destruct (submit_quiz_grades_by_position thirds_store thirds_submission
              "t1" "t2"
              (Quiz.mk 1 "Thirds" "Three questions" "Math" "Easy" 60
                 [Question.mk "q1" ["x"; "y"] "A";
                  Question.mk "q2" ["x"; "y"] "A";
                  Question.mk "q3" ["x"; "y"] "A"]
                 "alice" "2024-01-01T00:00:00" None None))
    as [r [Hrun [Htotal [Hcorrect _]]]].
  - reflexivity.
  - simpl. lia.
  - simpl. lia.
  - exists r. split; [exact Hrun|]. split; [exact Htotal|].
    rewrite Hcorrect.
    assert (Hr : Ok r = fst (submit_quiz thirds_submission "t1" "t2" thirds_store))
      by (rewrite Hrun; reflexivity).
    vm_compute in Hr. injection Hr as Hr. subst r. reflexivity.
Defined.

(** C5 as stated fails on the score: with one of three positions correct
    the program returns [(1 / 3) * 100 = 33.33333333333333], which is not
    the float [100 * 1 / 3 = 33.333333333333336]. *)
Lemma submit_quiz_score_not_as_specified :
  exists r : ScoreResult.t,
    submit_quiz thirds_submission "t1" "t2" thirds_store = (Ok r, thirds_store)
    /\ ScoreResult.correct r = 1
    /\ ScoreResult.total r = 3
    /\ ScoreResult.score r
       <> score_as_specified (ScoreResult.correct r) (ScoreResult.total r).
Proof.
  eexists. split; [vm_compute; reflexivity|].
  split; [reflexivity|]. split; [reflexivity|].
  simpl. intro H.
  apply (f_equal (fun x => PrimFloat.ltb x (score_as_specified 1 3))) in H.
  vm_compute in H. discriminate.
Qed.

(** The hypotheses of C10 at the Math Quiz, answered three times. *)
Lemma submit_quiz_excess_answers_index_error_witness :
  submit_quiz
    (QuizSubmission.mk 1 "testuser"
       [Answer.mk 0 "B"; Answer.mk 1 "B"; Answer.mk 2 "B"] 30)
    "t1" "t2" math_store
  = (Raise IndexError, math_store).
Proof.
  apply (submit_quiz_excess_answers_index_error math_store
           (QuizSubmission.mk 1 "testuser"
              [Answer.mk 0 "B"; Answer.mk 1 "B"; Answer.mk 2 "B"] 30)
           "t1" "t2"
           (Quiz.mk 1 "Math Quiz" "Simple Math" "Math" "Easy" 60
              [Question.mk "1+1?" ["1"; "2"; "3"; "4"] "B";
               Question.mk "2+2?" ["3"; "4"; "5"; "6"] "B"]
              "Anonymous" "2024-01-01T00:00:00" None None)).
  - reflexivity.
  - simpl. lia.
Defined.

(** ** The quiz without questions *)

(** [create_quiz] refuses an empty question list, so it never stores a quiz
    without questions. *)
Lemma create_quiz_rejects_no_questions (st : Store) (quiz_data : QuizData.t)
    (now : string) :
  QuizData.questions quiz_data = Some [] ->
  exists detail : string,
    create_quiz quiz_data now st = (Raise (HTTPException 400 detail), st).
Proof.
  intros Hq. unfold create_quiz, bind, get, required, raise_if, raise, ret.
  rewrite Hq.
  destruct (QuizData.title quiz_data); [|eexists; reflexivity].
  destruct (QuizData.description quiz_data); [|eexists; reflexivity].
  destruct (QuizData.category quiz_data); [|eexists; reflexivity].
  destruct (QuizData.difficulty quiz_data); [|eexists; reflexivity].
  destruct (QuizData.time_limit quiz_data); [|eexists; reflexivity].
  eexists; reflexivity.
Qed.

(** C4 (amended): grading a quiz whose question list is empty fails and
    leaves the store as it was, but with an exception outside the
    program's error taxonomy: [ZeroDivisionError] when the submission has
    no answers, [IndexError] when it has some; the response is a 500. *)
Theorem submit_quiz_empty_quiz_unhandled
    (st : Store) (submission : QuizSubmission.t) (now1 now2 : string)
    (quiz : Quiz.t) :
  find_quiz (QuizSubmission.quiz_id submission) (quizzes st) = Some quiz ->
  Quiz.questions quiz = [] ->
  submit_quiz submission now1 now2 st =
    (Raise (match QuizSubmission.answers submission with
            | [] => ZeroDivisionError
            | _ :: _ => IndexError
            end), st)
  /\ is_http_exception (fst (submit_quiz submission now1 now2 st)) = false
  /\ status_of (fst (submit_quiz submission now1 now2 st)) = 500.
Proof.
  intros Hfind Hempty.
  assert (Hrun : submit_quiz submission now1 now2 st =
                 (Raise (match QuizSubmission.answers submission with
                         | [] => ZeroDivisionError
                         | _ :: _ => IndexError
                         end), st)).
  { unfold submit_quiz, bind, get, lift. rewrite Hfind, Hempty.
    destruct (QuizSubmission.answers submission) as [|answer rest];
      reflexivity. }
  rewrite Hrun.
  destruct (QuizSubmission.answers submission); repeat split; reflexivity.
Qed.

(** The hypotheses of C4 at the catalog with the empty quiz. *)
Lemma submit_quiz_empty_quiz_unhandled_witness :
  submit_quiz empty_submission "t1" "t2" empty_quiz_store =
  (Raise ZeroDivisionError, empty_quiz_store).
Proof.
  apply (submit_quiz_empty_quiz_unhandled empty_quiz_store empty_submission
           "t1" "t2"
           (Quiz.mk 7 "Empty" "No questions" "Math" "Easy" 60 [] "alice"
              "2024-01-01T00:00:00" None None)).
  - reflexivity.
  - reflexivity.
Defined.

(** C4 as stated fails: on the quiz without questions the submission ends
    in [ZeroDivisionError], which is no [HTTPException] of any status. *)
Lemma submit_quiz_empty_quiz_not_classified :
  ~ (exists (code : Z) (detail : string),
       fst (submit_quiz empty_submission "t1" "t2" empty_quiz_store)
       = Raise (HTTPException code detail)).
Proof.
  intros [code [detail H]]. vm_compute in H. discriminate.
Qed.

(** ** The attempt history *)

(** C1 (the program departs from it): the Math Quiz submission succeeds, and
    afterwards the shared [quiz_history] is still empty and the history
    endpoint returns nothing for the user who submitted; the attempt went
    to a list local to [submit_quiz]. *)
Theorem submit_quiz_attempt_not_recorded :
  exists r : ScoreResult.t,
    submit_quiz math_submission "t1" "t2" math_store = (Ok r, math_store)
    /\ quiz_history (snd (submit_quiz math_submission "t1" "t2" math_store))
       = []
    /\ fst (get_quiz_history "testuser"
              (snd (submit_quiz math_submission "t1" "t2" math_store)))
       = Ok [].
Proof.
  eexists. split; [reflexivity|]. split; reflexivity.
Qed.

(** ** Permissions of [invite_collaborator] and [remove_collaborator] *)

Lemma is_manager_row_true (quiz_id : Z) (inviter : string) (c : Collaborator.t) :
  is_manager_row quiz_id inviter c = true <->
  Collaborator.quiz_id c = quiz_id
  /\ Collaborator.username c = inviter
  /\ (Collaborator.role c = "admin" \/ Collaborator.role c = "owner").
Proof.
  unfold is_manager_row. simpl existsb.
  rewrite !andb_true_iff, !orb_true_iff, Z.eqb_eq, !String.eqb_eq.
  intuition congruence.
Qed.

Lemma is_admin_row_true (quiz_id : Z) (remover : string) (c : Collaborator.t) :
  is_admin_row quiz_id remover c = true <->
  Collaborator.quiz_id c = quiz_id
  /\ Collaborator.username c = remover
  /\ Collaborator.role c = "admin".
Proof.
  unfold is_admin_row.
  rewrite !andb_true_iff, Z.eqb_eq, !String.eqb_eq. intuition.
Qed.

Lemma is_row_of_true (quiz_id : Z) (username : string) (c : Collaborator.t) :
  is_row_of quiz_id username c = true <->
  Collaborator.quiz_id c = quiz_id /\ Collaborator.username c = username.
Proof.
  unfold is_row_of. rewrite andb_true_iff, Z.eqb_eq, String.eqb_eq. intuition.
Qed.

Lemma is_pending_for_true (quiz_id : Z) (invitee : string) (i : Invitation.t) :
  is_pending_for quiz_id invitee i = true <->
  Invitation.quiz_id i = quiz_id
  /\ Invitation.invitee i = invitee
  /\ Invitation.status i = "pending".
Proof.
  unfold is_pending_for.
  rewrite !andb_true_iff, Z.eqb_eq, !String.eqb_eq. intuition.
Qed.

(** The search for an admin row finds one exactly when one is stored. *)
Lemma find_admin_row (st : Store) (quiz_id : Z) (creator requester : string) :
  creator <> requester ->
  (is_none (find (is_admin_row quiz_id requester) (quiz_collaborators st))
   = false
   <-> may_remove st quiz_id creator requester).
Proof.
  intros Hneq. unfold may_remove.
  destruct (find _ _) as [c|] eqn:Hfind; simpl.
  - apply find_some in Hfind. destruct Hfind as [Hin Hrow].
    apply is_admin_row_true in Hrow.
    split; [intros _; right; exists c; tauto | reflexivity].
  - split; [discriminate|]. intros [Heq | [c [Hin Hrow]]]; [contradiction|].
    assert (Hc := find_none _ _ Hfind c Hin).
    assert (is_admin_row quiz_id requester c = true)
      by (apply is_admin_row_true; exact Hrow).
    congruence.
Qed.

Lemma find_manager_row (st : Store) (quiz_id : Z) (creator requester : string) :
  creator <> requester ->
  (is_none (find (is_manager_row quiz_id requester) (quiz_collaborators st))
   = false
   <-> may_invite st quiz_id creator requester).
Proof.
  intros Hneq. unfold may_invite.
  destruct (find _ _) as [c|] eqn:Hfind; simpl.
  - apply find_some in Hfind. destruct Hfind as [Hin Hrow].
    apply is_manager_row_true in Hrow.
    split; [intros _; right; exists c; tauto | reflexivity].
  - split; [discriminate|]. intros [Heq | [c [Hin Hrow]]]; [contradiction|].
    assert (Hc := find_none _ _ Hfind c Hin).
    assert (is_manager_row quiz_id requester c = true)
      by (apply is_manager_row_true; exact Hrow).
    congruence.
Qed.

(** On a quiz dictionary with the key ["creator"], a caller who is neither
    the creator nor an admin or owner collaborator is refused by
    [invite_collaborator], and the store stays as it was. *)
Lemma invite_collaborator_permission_denied (st : Store)
    (invitation : InviteRequest.t) (now : string) (quiz : Quiz.t)
    (creator : string) :
  find_quiz (InviteRequest.quiz_id invitation) (quizzes st) = Some quiz ->
  Quiz.creator quiz = Some creator ->
  ~ may_invite st (InviteRequest.quiz_id invitation) creator
      (InviteRequest.inviter invitation) ->
  invite_collaborator invitation now st =
  (Raise (HTTPException 403 "Insufficient permissions"), st).
Proof.
  intros Hfind Hcreator Hdenied.
  unfold invite_collaborator, bind, get, subscript, ret, raise_if, raise.
  rewrite Hfind, Hcreator.
  destruct (String.eqb_spec creator (InviteRequest.inviter invitation))
    as [Heq | Hneq]; simpl.
  - exfalso. apply Hdenied. left. exact Heq.
  - destruct (is_none _) eqn:Hnone; [reflexivity|].
    exfalso. apply Hdenied.
    apply (find_manager_row st _ creator _ Hneq). exact Hnone.
Qed.

(** The same for [remove_collaborator], where only the role admin counts. *)
Lemma remove_collaborator_permission_denied (st : Store) (quiz_id : Z)
    (username requester : string) (quiz : Quiz.t) (creator : string) :
  find_quiz quiz_id (quizzes st) = Some quiz ->
  Quiz.creator quiz = Some creator ->
  ~ may_remove st quiz_id creator requester ->
  remove_collaborator quiz_id username requester st =
  (Raise (HTTPException 403 "Insufficient permissions"), st).
Proof.
  intros Hfind Hcreator Hdenied.
  unfold remove_collaborator, bind, get, subscript, ret, raise_if, raise.
  rewrite Hfind, Hcreator.
  destruct (String.eqb_spec creator requester) as [Heq | Hneq]; simpl.
  - exfalso. apply Hdenied. left. exact Heq.
  - destruct (is_none _) eqn:Hnone; [reflexivity|].
    exfalso. apply Hdenied.
    apply (find_admin_row st _ creator _ Hneq). exact Hnone.
Qed.

(** Without the key ["creator"] both endpoints stop at [quiz["creator"]]. *)
Lemma invite_collaborator_key_error (st : Store)
    (invitation : InviteRequest.t) (now : string) (quiz : Quiz.t) :
  find_quiz (InviteRequest.quiz_id invitation) (quizzes st) = Some quiz ->
  Quiz.creator quiz = None ->
  invite_collaborator invitation now st = (Raise (KeyError "creator"), st).
Proof.
  intros Hfind Hcreator.
  unfold invite_collaborator, bind, get, subscript, raise.
  rewrite Hfind, Hcreator. reflexivity.
Qed.

Lemma remove_collaborator_key_error (st : Store) (quiz_id : Z)
    (username requester : string) (quiz : Quiz.t) :
  find_quiz quiz_id (quizzes st) = Some quiz ->
  Quiz.creator quiz = None ->
  remove_collaborator quiz_id username requester st =
  (Raise (KeyError "creator"), st).
Proof.
  intros Hfind Hcreator.
  unfold remove_collaborator, bind, get, subscript, raise.
  rewrite Hfind, Hcreator. reflexivity.
Qed.

(** [create_quiz] stores dictionaries without the key ["creator"]. *)
Lemma create_quiz_writes_no_creator (st : Store) (quiz_data : QuizData.t)
    (now : string) :
  Forall (fun q => Quiz.creator q = None) (quizzes st) ->
  Forall (fun q => Quiz.creator q = None)
    (quizzes (snd (create_quiz quiz_data now st))).
Proof.
  intros Hall. unfold create_quiz, bind, get, required, raise_if, raise, ret,
    lift, put.
  destruct (QuizData.title quiz_data); [|exact Hall].
  destruct (QuizData.description quiz_data); [|exact Hall].
  destruct (QuizData.category quiz_data); [|exact Hall].
  destruct (QuizData.difficulty quiz_data); [|exact Hall].
  destruct (QuizData.time_limit quiz_data); [|exact Hall].
  destruct (QuizData.questions quiz_data) as [questions|]; [|exact Hall].
  destruct (Z.of_nat (List.length questions) <? 1); [exact Hall|].
  destruct (validate_questions 0 questions); [|exact Hall].
  simpl. apply Forall_app. split; [exact Hall|].
  constructor; [reflexivity | constructor].
Qed.

(** C2 (the program departs from it): on the quiz that [alice] created
    through [create_quiz], the invitation and the removal requested by
    [mallory], who is neither its creator nor a collaborator, end in the
    unhandled [KeyError] of [quiz["creator"]], a 500 and not the 403 of
    the permission check; the store stays as it was. *)
Theorem invite_remove_by_stranger_key_error :
  find_quiz 1 (quizzes thirds_store)
  = Some (Quiz.mk 1 "Thirds" "Three questions" "Math" "Easy" 60
            [Question.mk "q1" ["x"; "y"] "A";
             Question.mk "q2" ["x"; "y"] "A";
             Question.mk "q3" ["x"; "y"] "A"]
            "alice" "2024-01-01T00:00:00" None None)
  /\ quiz_collaborators thirds_store = []
  /\ invite_collaborator (InviteRequest.mk 1 "mallory" "bob" None)
       "2024-01-02T00:00:00" thirds_store
     = (Raise (KeyError "creator"), thirds_store)
  /\ remove_collaborator 1 "bob" "mallory" thirds_store
     = (Raise (KeyError "creator"), thirds_store)
  /\ status_of
       (fst (invite_collaborator (InviteRequest.mk 1 "mallory" "bob" None)
               "2024-01-02T00:00:00" thirds_store)) = 500
  /\ status_of (fst (remove_collaborator 1 "bob" "mallory" thirds_store))
     = 500.
Proof.
  repeat split; reflexivity.
Qed.

(** ** The owner cannot be removed *)

(** C3 (amended): on a quiz dictionary with the key ["creator"], removing
    the creator always fails and removes no row; the error is the 400
    "Cannot remove quiz owner" when the requester is the creator or an
    admin collaborator, and the 403 of the permission check, which comes
    first, for every other requester. *)
Theorem remove_creator_refused
    (st : Store) (quiz_id : Z) (requester : string) (quiz : Quiz.t)
    (creator : string) :
  find_quiz quiz_id (quizzes st) = Some quiz ->
  Quiz.creator quiz = Some creator ->
  (may_remove st quiz_id creator requester ->
   remove_collaborator quiz_id creator requester st =
   (Raise (HTTPException 400 "Cannot remove quiz owner"), st))
  /\ (~ may_remove st quiz_id creator requester ->
      remove_collaborator quiz_id creator requester st =
      (Raise (HTTPException 403 "Insufficient permissions"), st))
  /\ quiz_collaborators (snd (remove_collaborator quiz_id creator requester st))
     = quiz_collaborators st.
Proof.
  intros Hfind Hcreator.
  assert (Hallowed :
            may_remove st quiz_id creator requester ->
            remove_collaborator quiz_id creator requester st =
            (Raise (HTTPException 400 "Cannot remove quiz owner"), st)).
  { intros Hmay.
    unfold remove_collaborator, bind, get, subscript, ret, raise_if, raise.
    rewrite Hfind, Hcreator.
    destruct (String.eqb_spec creator requester) as [Heq | Hneq]; simpl.
    - rewrite String.eqb_refl. reflexivity.
    - apply (find_admin_row st _ creator _ Hneq) in Hmay. rewrite Hmay.
      rewrite String.eqb_refl. reflexivity. }
  assert (Hdenied :
            ~ may_remove st quiz_id creator requester ->
            remove_collaborator quiz_id creator requester st =
            (Raise (HTTPException 403 "Insufficient permissions"), st))
    by (apply remove_collaborator_permission_denied with (quiz := quiz);
        assumption).
  split; [exact Hallowed|]. split; [exact Hdenied|].
  destruct (String.eqb_spec creator requester) as [Heq | Hneq].
  - rewrite Hallowed by (left; exact Heq). reflexivity.
  - destruct (is_none (find (is_admin_row quiz_id requester)
                         (quiz_collaborators st))) eqn:Hnone.
    + rewrite Hdenied; [reflexivity|].
      intros Hmay. apply (find_admin_row st _ creator _ Hneq) in Hmay.
      congruence.
    + rewrite Hallowed; [reflexivity|].
      apply (find_admin_row st _ creator _ Hneq). exact Hnone.
Qed.

(** The hypotheses of C3 at the quiz owned by [alice]: she is refused with
    the 400 when she asks for her own removal. *)
Lemma remove_creator_refused_witness :
  remove_collaborator 1 "alice" "alice" owned_store =
  (Raise (HTTPException 400 "Cannot remove quiz owner"), owned_store).
Proof.
  apply (remove_creator_refused owned_store 1 "alice"
           (Quiz.mk 1 "Math Quiz" "Simple Math" "Math" "Easy" 60
              [Question.mk "1+1?" ["1"; "2"; "3"; "4"] "B"]
              "alice" "2024-01-01T00:00:00" None (Some "alice"))
           "alice").
  - reflexivity.
  - reflexivity.
  - left. reflexivity.
Defined.

(** C3 as stated fails: [mallory], who has no role on the quiz, asks for
    the removal of its creator [alice] and gets the 403 of the permission
    check, not the 400. *)
Lemma remove_creator_by_stranger_forbidden :
  remove_collaborator 1 "alice" "mallory" owned_store
  = (Raise (HTTPException 403 "Insufficient permissions"), owned_store)
  /\ fst (remove_collaborator 1 "alice" "mallory" owned_store)
     <> Raise (HTTPException 400 "Cannot remove quiz owner").
Proof.
  split; [reflexivity|]. vm_compute. discriminate.
Qed.

(** ** What each endpoint does to the store *)

Lemma create_quiz_store (quiz_data : QuizData.t) (now : string) (st : Store) :
  snd (create_quiz quiz_data now st) = st
  \/ exists quiz : Quiz.t,
       snd (create_quiz quiz_data now st) =
       mkStore (quizzes st ++ [quiz]) (quiz_history st)
         (quiz_collaborators st) (collaboration_invitations st).
Proof.
  unfold create_quiz, bind, get, required, raise_if, raise, ret, lift, put.
  destruct (QuizData.title quiz_data); [|left; reflexivity].
  destruct (QuizData.description quiz_data); [|left; reflexivity].
  destruct (QuizData.category quiz_data); [|left; reflexivity].
  destruct (QuizData.difficulty quiz_data); [|left; reflexivity].
  destruct (QuizData.time_limit quiz_data); [|left; reflexivity].
  destruct (QuizData.questions quiz_data) as [questions|]; [|left; reflexivity].
  destruct (Z.of_nat (List.length questions) <? 1); [left; reflexivity|].
  destruct (validate_questions 0 questions); [|left; reflexivity].
  right. eexists. reflexivity.
Qed.

Lemma invite_collaborator_store (invitation : InviteRequest.t) (now : string)
    (st : Store) :
  snd (invite_collaborator invitation now st) = st
  \/ (find (is_pending_for (InviteRequest.quiz_id invitation)
              (InviteRequest.invitee invitation))
        (collaboration_invitations st) = None
      /\ find (is_row_of (InviteRequest.quiz_id invitation)
                 (InviteRequest.invitee invitation))
           (quiz_collaborators st) = None
      /\ exists i : Invitation.t,
           Invitation.quiz_id i = InviteRequest.quiz_id invitation
           /\ Invitation.invitee i = InviteRequest.invitee invitation
           /\ Invitation.status i = "pending"
           /\ snd (invite_collaborator invitation now st) =
              mkStore (quizzes st) (quiz_history st) (quiz_collaborators st)
                (collaboration_invitations st ++ [i])).
Proof.
  unfold invite_collaborator, bind, get, subscript, raise_if, raise, ret, put.
  destruct (find_quiz _ _) as [quiz|]; [|left; reflexivity].
  destruct (Quiz.creator quiz) as [creator|]; [|left; reflexivity].
  destruct (negb (String.eqb creator (InviteRequest.inviter invitation))).
  - destruct (is_none (find (is_manager_row _ _) _)); [left; reflexivity|].
    simpl.
    destruct (find (is_pending_for _ _) _); simpl; [left; reflexivity|].
    destruct (find (is_row_of _ _) _); simpl; [left; reflexivity|].
    right. split; [reflexivity|]. split; [reflexivity|].
    eexists. repeat split; reflexivity.
  - simpl.
    destruct (find (is_pending_for _ _) _); simpl; [left; reflexivity|].
    destruct (find (is_row_of _ _) _); simpl; [left; reflexivity|].
    right. split; [reflexivity|]. split; [reflexivity|].
    eexists. repeat split; reflexivity.
Qed.

(** The outcome of an answer by the invitee to a pending invitation. *)
Lemma respond_to_invitation_answers (st : Store) (response : RespondRequest.t)
    (now1 now2 : string) (invitation : Invitation.t) :
  find (fun i => Invitation.id i =? RespondRequest.invitation_id response)
    (collaboration_invitations st) = Some invitation ->
  Invitation.invitee invitation = RespondRequest.username response ->
  Invitation.status invitation = "pending" ->
  respond_to_invitation response now1 now2 st =
  if is_accept (RespondRequest.action response) then
    let row :=
      Collaborator.mk (Invitation.quiz_id invitation)
        (RespondRequest.username response) (Invitation.role invitation)
        "active" (Invitation.inviter invitation)
        (Invitation.created_at invitation) now2 in
    (Ok (RespondResponse.mk "Invitation accepted" (Some row)),
     mkStore (quizzes st) (quiz_history st) (quiz_collaborators st ++ [row])
       (update_first
          (fun i => Invitation.id i =? RespondRequest.invitation_id response)
          (answered "accepted" now1) (collaboration_invitations st)))
  else
    (Ok (RespondResponse.mk "Invitation declined" None),
     mkStore (quizzes st) (quiz_history st) (quiz_collaborators st)
       (update_first
          (fun i => Invitation.id i =? RespondRequest.invitation_id response)
          (answered "declined" now1) (collaboration_invitations st))).
Proof.
  intros Hfind Hinvitee Hstatus.
  unfold respond_to_invitation, bind, get, raise_if, raise, ret, put.
  rewrite Hfind, Hinvitee, Hstatus, String.eqb_refl. simpl.
  destruct (is_accept (RespondRequest.action response)); reflexivity.
Qed.

(** Every other request to [respond_to_invitation] raises and leaves the
    store alone. *)
Lemma respond_to_invitation_store (response : RespondRequest.t)
    (now1 now2 : string) (st : Store) :
  snd (respond_to_invitation response now1 now2 st) = st
  \/ exists invitation : Invitation.t,
       find (fun i => Invitation.id i =? RespondRequest.invitation_id response)
         (collaboration_invitations st) = Some invitation
       /\ Invitation.invitee invitation = RespondRequest.username response
       /\ Invitation.status invitation = "pending".
Proof.
  unfold respond_to_invitation, bind, get, raise_if, raise, ret, put.
  destruct (find _ _) as [invitation|] eqn:Hfind; [|left; reflexivity].
  destruct (String.eqb_spec (Invitation.invitee invitation)
              (RespondRequest.username response)) as [Hinvitee|];
    [|left; reflexivity].
  destruct (String.eqb_spec (Invitation.status invitation) "pending")
    as [Hstatus|]; [|left; reflexivity].
  right. exists invitation. repeat split; assumption.
Qed.

Lemma remove_collaborator_store (quiz_id : Z) (username requester : string)
    (st : Store) :
  snd (remove_collaborator quiz_id username requester st) = st
  \/ exists c : Collaborator.t,
       snd (remove_collaborator quiz_id username requester st) =
       mkStore (quizzes st) (quiz_history st)
         (list_remove c (quiz_collaborators st))
         (collaboration_invitations st).
Proof.
  unfold remove_collaborator, bind, get, subscript, raise_if, raise, ret, put.
  destruct (find_quiz _ _) as [quiz|]; [|left; reflexivity].
  destruct (Quiz.creator quiz) as [creator|]; [|left; reflexivity].
  destruct (negb (String.eqb creator requester)).
  - destruct (is_none _); [left; reflexivity|]. simpl.
    destruct (String.eqb username creator); [left; reflexivity|]. simpl.
    destruct (find (is_row_of _ _) _) as [c|]; [|left; reflexivity].
    right. exists c. reflexivity.
  - simpl.
    destruct (String.eqb username creator); [left; reflexivity|]. simpl.
    destruct (find (is_row_of _ _) _) as [c|]; [|left; reflexivity].
    right. exists c. reflexivity.
Qed.

(** ** Updating the first match of a list *)

Lemma update_first_find {A} (p : A -> bool) (f : A -> A) (l : list A) (x : A) :
  find p l = Some x ->
  p (f x) = true ->
  find p (update_first p f l) = Some (f x).
Proof.
  induction l as [|y l IH]; simpl; intros Hfind Hp; [discriminate|].
  destruct (p y) eqn:Hy.
  - injection Hfind as ->. simpl. rewrite Hp. reflexivity.
  - simpl. rewrite Hy. apply IH; assumption.
Qed.

Lemma update_first_position {A} (p : A -> bool) (f : A -> A) (l : list A)
    (x : A) :
  find p l = Some x ->
  exists i : nat,
    nth_error l i = Some x
    /\ nth_error (update_first p f l) i = Some (f x).
Proof.
  induction l as [|y l IH]; simpl; intros Hfind; [discriminate|].
  destruct (p y) eqn:Hy.
  - injection Hfind as ->. exists 0%nat. split; reflexivity.
  - destruct (IH Hfind) as [i [H1 H2]]. exists (S i). split; assumption.
Qed.

(** An element that is not the one the search returns stays where it is. *)
Lemma update_first_elsewhere {A} (p : A -> bool) (f : A -> A) (l : list A) :
  forall (i : nat) (x : A),
    nth_error l i = Some x ->
    (forall y : A, find p l = Some y -> y <> x) ->
    nth_error (update_first p f l) i = Some x.
Proof.
  induction l as [|z l IH]; intros i x Hnth Hother; simpl in *.
  - destruct i; discriminate.
  - destruct (p z) eqn:Hz.
    + destruct i as [|i]; simpl in *; [|exact Hnth].
      injection Hnth as ->. exfalso. apply (Hother x); reflexivity.
    + destruct i as [|i]; simpl in *; [exact Hnth|].
      apply IH; assumption.
Qed.

Lemma update_first_length {A} (p : A -> bool) (f : A -> A) (l : list A) :
  List.length (update_first p f l) = List.length l.
Proof.
  induction l as [|y l IH]; simpl; [reflexivity|].
  destruct (p y); simpl; congruence.
Qed.


(** ** Answered invitations stay answered *)



(** ** The life of an invitation *)

Lemma is_accept_true (action : option string) :
  is_accept action = true <-> action = Some "accept".
Proof.
  destruct action as [a|]; simpl.
  - rewrite String.eqb_eq. split; congruence.
  - split; discriminate.
Qed.

Lemma is_accept_false (action : option string) :
  is_accept action = false <-> action <> Some "accept".
Proof.
  rewrite <- is_accept_true. destruct (is_accept action); split; congruence.
Qed.



(** The same invitation, declined: the answer, the stored invitation and
    the collaborators. *)
Example bob_declines :
  respond_to_invitation (RespondRequest.mk 1 (Some "decline") "bob")
    "2024-01-03T00:00:00" "2024-01-03T00:00:01" invited_store
  = (Ok (RespondResponse.mk "Invitation declined" None),
     mkStore (quizzes invited_store) (quiz_history invited_store) []
       [Invitation.mk 1 1 "alice" "bob" "editor" "declined"
          "2024-01-02T00:00:00" "Math Quiz"
          (Some "2024-01-03T00:00:00")]).
Proof. reflexivity. Qed.

(** C9: for a pending invitation answered by its invitee, every action
    other than the string "accept", a missing one included, is taken as a
    refusal: the answer is "Invitation declined", the invitation is marked
    declined, and no collaborator row is added. *)
Theorem respond_other_action_declines
    (st : Store) (response : RespondRequest.t) (now1 now2 : string)
    (invitation : Invitation.t) :
  find (fun i => Invitation.id i =? RespondRequest.invitation_id response)
    (collaboration_invitations st) = Some invitation ->
  Invitation.invitee invitation = RespondRequest.username response ->
  Invitation.status invitation = "pending" ->
  RespondRequest.action response <> Some "accept" ->
  respond_to_invitation response now1 now2 st =
    (Ok (RespondResponse.mk "Invitation declined" None),
     mkStore (quizzes st) (quiz_history st) (quiz_collaborators st)
       (update_first
          (fun i => Invitation.id i =? RespondRequest.invitation_id response)
          (answered "declined" now1) (collaboration_invitations st)))
  /\ find (fun i => Invitation.id i =? RespondRequest.invitation_id response)
       (collaboration_invitations
          (snd (respond_to_invitation response now1 now2 st)))
     = Some (answered "declined" now1 invitation)
  /\ Invitation.status (answered "declined" now1 invitation) = "declined".
Proof.
  intros Hfind Hinvitee Hpending Hother.
  apply is_accept_false in Hother.
  rewrite (respond_to_invitation_answers _ _ now1 now2 _
             Hfind Hinvitee Hpending), Hother.
  split; [reflexivity|]. split; [|reflexivity].
  simpl. apply update_first_find; [exact Hfind|].
  apply find_some in Hfind. destruct Hfind as [_ Hid]. exact Hid.
Qed.

(** The hypotheses of C9 at the invitation of [bob], who answers "maybe". *)
Lemma respond_other_action_declines_witness :
  fst (respond_to_invitation (RespondRequest.mk 1 (Some "maybe") "bob")
         "2024-01-03T00:00:00" "2024-01-03T00:00:01" invited_store)
  = Ok (RespondResponse.mk "Invitation declined" None).
Proof.
  rewrite (proj1 (respond_other_action_declines invited_store
                    (RespondRequest.mk 1 (Some "maybe") "bob")
                    "2024-01-03T00:00:00" "2024-01-03T00:00:01"
                    bob_invitation eq_refl eq_refl eq_refl
                    ltac:(discriminate))).
  reflexivity.
Defined.

(** ** One seat per user and quiz *)

Lemma find_none_filter {A} (p : A -> bool) (l : list A) :
  find p l = None -> filter p l = [].
Proof.
  induction l as [|x l IH]; simpl; [reflexivity|].
  destruct (p x); [discriminate | exact IH].
Qed.

Lemma count_rows_app (quiz_id : Z) (username : string)
    (rows : list Collaborator.t) (c : Collaborator.t) :
  count_rows quiz_id username (rows ++ [c]) =
  (count_rows quiz_id username rows
   + if is_row_of quiz_id username c then 1 else 0)%nat.
Proof.
  unfold count_rows. rewrite filter_app, length_app. simpl.
  destruct (is_row_of quiz_id username c); reflexivity.
Qed.

Lemma count_pending_app (quiz_id : Z) (username : string)
    (invitations : list Invitation.t) (i : Invitation.t) :
  count_pending quiz_id username (invitations ++ [i]) =
  (count_pending quiz_id username invitations
   + if is_pending_for quiz_id username i then 1 else 0)%nat.
Proof.
  unfold count_pending. rewrite filter_app, length_app. simpl.
  destruct (is_pending_for quiz_id username i); reflexivity.
Qed.

Lemma count_rows_remove (quiz_id : Z) (username : string) (c : Collaborator.t)
    (rows : list Collaborator.t) :
  (count_rows quiz_id username (list_remove c rows)
   <= count_rows quiz_id username rows)%nat.
Proof.
  unfold count_rows.
  induction rows as [|y rows IH]; simpl; [lia|].
  destruct (collaborator_eqb y c); simpl.
  - destruct (is_row_of quiz_id username y); simpl; lia.
  - destruct (is_row_of quiz_id username y); simpl; lia.
Qed.

Lemma list_remove_In (c x : Collaborator.t) (rows : list Collaborator.t) :
  In x (list_remove c rows) -> In x rows.
Proof.
  induction rows as [|y rows IH]; simpl; [tauto|].
  destruct (collaborator_eqb y c); simpl; tauto.
Qed.

Lemma list_remove_Forall (P : Collaborator.t -> Prop) (c : Collaborator.t)
    (rows : list Collaborator.t) :
  Forall P rows -> Forall P (list_remove c rows).
Proof.
  rewrite !Forall_forall. intros H x Hx. apply H.
  apply (list_remove_In c). exact Hx.
Qed.

(** Answering the invitation the search returns takes one pending
    invitation away from its user and quiz, and from no other. *)
Lemma count_pending_answered (quiz_id : Z) (username : string)
    (p : Invitation.t -> bool) (status now : string)
    (invitations : list Invitation.t) (x : Invitation.t) :
  find p invitations = Some x ->
  String.eqb status "pending" = false ->
  (count_pending quiz_id username
     (update_first p (answered status now) invitations)
   + (if is_pending_for quiz_id username x then 1 else 0)
   = count_pending quiz_id username invitations)%nat.
Proof.
  intros Hfind Hstatus. unfold count_pending.
  induction invitations as [|y l IH]; simpl in *; [discriminate|].
  destruct (p y) eqn:Hy.
  - injection Hfind as ->. simpl.
    assert (Hgone : is_pending_for quiz_id username (answered status now x)
                    = false).
    { unfold is_pending_for, answered. simpl. rewrite Hstatus.
      apply andb_false_r. }
    rewrite Hgone.
    destruct (is_pending_for quiz_id username x); simpl; lia.
  - simpl. specialize (IH Hfind).
    destruct (is_pending_for quiz_id username y); simpl; lia.
Qed.

(** The invariant holds before any invitation was made. *)
Lemma collaboration_invariant_start (st : Store) :
  quiz_collaborators st = [] ->
  collaboration_invitations st = [] ->
  collaboration_invariant st.
Proof.
  intros Hrows Hinvs. constructor; rewrite Hrows.
  - intros quiz_id username. rewrite Hinvs.
    unfold count_rows, count_pending. simpl. lia.
  - constructor.
  - constructor.
Qed.

(** Every request keeps it. *)
Lemma step_keeps_collaboration_invariant (st st' : Store) :
  step st st' ->
  collaboration_invariant st ->
  collaboration_invariant st'.
Proof.
  intros Hstep [Hseat Hactive Hinvited].
  destruct Hstep as [quiz_data now st | submission now1 now2 st
                    | invitation now st | response now1 now2 st
                    | quiz_id username requester st].
  - destruct (create_quiz_store quiz_data now st) as [-> | [quiz ->]];
      constructor; assumption.
  - rewrite submit_quiz_store_unchanged. constructor; assumption.
  - destruct (invite_collaborator_store invitation now st)
      as [-> | [Hnopending [Hnorow [new [Hquiz [Hinvitee [Hstatus ->]]]]]]];
      [constructor; assumption|].
    constructor; simpl.
    + intros quiz_id username. rewrite count_pending_app.
      destruct (is_pending_for quiz_id username new) eqn:Hnew.
      * apply is_pending_for_true in Hnew. destruct Hnew as [Hq [Hu _]].
        rewrite Hquiz in Hq. rewrite Hinvitee in Hu. subst quiz_id username.
        unfold count_rows, count_pending.
        rewrite (find_none_filter _ _ Hnopending).
        rewrite (find_none_filter _ _ Hnorow). simpl. lia.
      * specialize (Hseat quiz_id username). lia.
    + exact Hactive.
    + eapply Forall_impl; [|exact Hinvited].
      intros c [i [Hin Hacc]]. exists i. split; [|exact Hacc].
      apply in_or_app. left. exact Hin.
  - destruct (respond_to_invitation_store response now1 now2 st)
      as [-> | [invitation [Hfind [Hinvitee Hpending]]]];
      [constructor; assumption|].
    rewrite (respond_to_invitation_answers _ _ _ _ _ Hfind Hinvitee Hpending).
    assert (Hkept :
              forall (status : string) (c : Collaborator.t),
                String.eqb status "pending" = false ->
                (exists i, In i (collaboration_invitations st)
                           /\ accepted_as c i) ->
                exists i,
                  In i (update_first
                          (fun i => Invitation.id i
                                    =? RespondRequest.invitation_id response)
                          (answered status now1)
                          (collaboration_invitations st))
                  /\ accepted_as c i).
    { intros status c Hst [i [Hin Hacc]]. exists i. split; [|exact Hacc].
      apply In_nth_error in Hin. destruct Hin as [n Hn].
      apply (nth_error_In _ n). apply update_first_elsewhere; [exact Hn|].
      intros y Hy. rewrite Hfind in Hy. injection Hy as <-.
      destruct Hacc as [Hacc _]. congruence. }
    destruct (is_accept (RespondRequest.action response)); constructor; simpl.
    + intros quiz_id username. rewrite count_rows_app.
      assert (Hcount := count_pending_answered quiz_id username _
                          "accepted" now1 _ _ Hfind eq_refl).
      assert (Hsame :
                is_row_of quiz_id username
                  (Collaborator.mk (Invitation.quiz_id invitation)
                     (RespondRequest.username response)
                     (Invitation.role invitation) "active"
                     (Invitation.inviter invitation)
                     (Invitation.created_at invitation) now2)
                = is_pending_for quiz_id username invitation).
      { unfold is_row_of, is_pending_for. simpl.
        rewrite Hinvitee, Hpending. simpl. rewrite andb_true_r.
        reflexivity. }
      rewrite Hsame. specialize (Hseat quiz_id username). lia.
    + apply Forall_app. split; [exact Hactive|].
      constructor; [reflexivity | constructor].
    + apply Forall_app. split.
      * eapply Forall_impl; [|exact Hinvited].
        intros c Hc. apply Hkept; [reflexivity | exact Hc].
      * constructor; [|constructor].
        exists (answered "accepted" now1 invitation). split.
        -- destruct (update_first_position
                       (fun i => Invitation.id i
                                 =? RespondRequest.invitation_id response)
                       (answered "accepted" now1) _ _ Hfind)
             as [n [_ Hn]].
           apply (nth_error_In _ n). exact Hn.
        -- unfold accepted_as. simpl. repeat split. exact Hinvitee.
    + intros quiz_id username.
      assert (Hcount := count_pending_answered quiz_id username _
                          "declined" now1 _ _ Hfind eq_refl).
      specialize (Hseat quiz_id username). lia.
    + exact Hactive.
    + eapply Forall_impl; [|exact Hinvited].
      intros c Hc. apply Hkept; [reflexivity | exact Hc].
  - destruct (remove_collaborator_store quiz_id username requester st)
      as [-> | [c ->]]; [constructor; assumption|].
    constructor; simpl.
    + intros q u. specialize (Hseat q u).
      assert (Hle := count_rows_remove q u c (quiz_collaborators st)). lia.
    + apply list_remove_Forall. exact Hactive.
    + apply list_remove_Forall. exact Hinvited.
Qed.

Lemma steps_keep_collaboration_invariant (st st' : Store) :
  steps st st' ->
  collaboration_invariant st ->
  collaboration_invariant st'.
Proof.
  induction 1 as [st | st1 st2 st3 Hsteps IH Hstep]; intros Hinv.
  - exact Hinv.
  - apply (step_keeps_collaboration_invariant _ _ Hstep). apply IH. exact Hinv.
Qed.

(** X24: in every store reached by requests from one without rows and
    invitations, whatever its catalog (also one whose quizzes carry the key
    ["creator"]), a user has at most one collaborator row per quiz, and
    never a row together with a pending invitation; every row is active,
    and every row comes from an accepted invitation addressed to that user
    with that role. *)
Theorem collaborator_rows_unique (st0 st : Store) :
  quiz_collaborators st0 = [] ->
  collaboration_invitations st0 = [] ->
  steps st0 st ->
  (forall (quiz_id : Z) (username : string),
     (count_rows quiz_id username (quiz_collaborators st) <= 1)%nat)
  /\ (forall (quiz_id : Z) (username : string),
        (count_rows quiz_id username (quiz_collaborators st)
         + count_pending quiz_id username (collaboration_invitations st)
         <= 1)%nat)
  /\ Forall (fun c => Collaborator.status c = "active") (quiz_collaborators st)
  /\ Forall (fun c =>
               exists i : Invitation.t,
                 In i (collaboration_invitations st) /\ accepted_as c i)
       (quiz_collaborators st).
Proof.
  intros Hrows Hinvs Hsteps.
  destruct (steps_keep_collaboration_invariant _ _ Hsteps
              (collaboration_invariant_start _ Hrows Hinvs))
    as [Hseat Hactive Hinvited].
  split; [|split; [exact Hseat | split; assumption]].
  intros quiz_id username. specialize (Hseat quiz_id username). lia.
Qed.

(** The hypotheses of X24 at the run where [alice] invites [bob] and [bob]
    accepts. *)
Lemma collaborator_rows_unique_witness :
  (count_rows 1 "bob"
     (quiz_collaborators
        (snd (respond_to_invitation (RespondRequest.mk 1 (Some "accept") "bob")
                "2024-01-03T00:00:00" "2024-01-03T00:00:01" invited_store)))
   <= 1)%nat.
Proof.
  apply (collaborator_rows_unique owned_store
           (snd (respond_to_invitation
                   (RespondRequest.mk 1 (Some "accept") "bob")
                   "2024-01-03T00:00:00" "2024-01-03T00:00:01"
                   invited_store))).
  - reflexivity.
  - reflexivity.
  - apply steps_snoc with (st2 := invited_store).
    + apply steps_snoc with (st2 := owned_store).
      * apply steps_refl.
      * apply step_invite.
    + apply step_respond.
Defined.

(** On a catalog that carries the key ["creator"] the invitee is never
    compared with the creator: after [alice], who created quiz 1, invites
    herself and accepts, the collaborator list of the quiz names her
    twice, as the owner that is put in front and as the stored row. *)
Example creator_listed_twice :
  fst (get_quiz_collaborators 1 "2024-01-04T00:00:00" self_invited_store) =
  Ok [ListedOwner
        (OwnerEntry.mk 1 "alice" "owner" "active" "2024-01-04T00:00:00");
      ListedRow
        (Collaborator.mk 1 "alice" "editor" "active" "alice"
           "2024-01-02T00:00:00" "2024-01-03T00:00:01")].
Proof. reflexivity. Qed.

(** ** The leaderboard *)

Lemma group_keys_In (names : list string) (x : string) :
  In x (group_keys names) <-> In x names.
Proof.
  induction names as [|n names IH]; simpl; [tauto|].
  rewrite filter_In, IH, negb_true_iff, String.eqb_neq.
  destruct (String.eqb_spec x n) as [-> | Hneq]; intuition congruence.
Qed.

Lemma group_keys_NoDup (names : list string) : NoDup (group_keys names).
Proof.
  induction names as [|n names IH]; simpl; constructor.
  - rewrite filter_In, negb_true_iff, String.eqb_neq. tauto.
  - apply NoDup_filter. exact IH.
Qed.

Lemma sum_list_cons (x : Z) (l : list Z) :
  sum_list (x :: l) = x + sum_list l.
Proof. reflexivity. Qed.

Lemma sum_list_abs_nonneg (l : list Z) : 0 <= sum_list (map Z.abs l).
Proof.
  induction l as [|x l IH]; [unfold sum_list; simpl; lia|].
  cbn [map]. rewrite sum_list_cons. lia.
Qed.

Lemma in_int64_true (z : Z) :
  in_int64 z = true <-> - 9223372036854775808 <= z < 9223372036854775808.
Proof.
  unfold in_int64. change (2 ^ 63) with 9223372036854775808.
  rewrite andb_true_iff, Z.leb_le, Z.ltb_lt. tauto.
Qed.

(** The insertion engine meets the contract. *)
Lemma checked_sum_exact (l : list Z) :
  forall acc s : Z,
    in_int64 acc = true ->
    checked_sum acc l = Some s ->
    s = acc + sum_list l /\ in_int64 s = true.
Proof.
  induction l as [|x l IH]; intros acc s Hacc Hsum; simpl in Hsum.
  - injection Hsum as <-. split; [unfold sum_list; simpl; lia | exact Hacc].
  - destruct (in_int64 (acc + x)) eqn:Hin; [|discriminate].
    destruct (IH _ _ Hin Hsum) as [-> Hs].
    split; [rewrite sum_list_cons; lia | exact Hs].
Qed.

Lemma checked_sum_small (l : list Z) :
  forall acc : Z,
    Z.abs acc + sum_list (map Z.abs l) < 2 ^ 63 ->
    checked_sum acc l = Some (acc + sum_list l).
Proof.
  change (2 ^ 63) with 9223372036854775808.
  induction l as [|x l IH]; intros acc Hsmall; cbn [checked_sum].
  - f_equal. unfold sum_list. simpl. lia.
  - cbn [map] in Hsmall. rewrite sum_list_cons in Hsmall.
    assert (Hrest := sum_list_abs_nonneg l).
    assert (Hin : in_int64 (acc + x) = true) by (apply in_int64_true; lia).
    rewrite Hin, IH by lia. rewrite sum_list_cons. f_equal. lia.
Qed.

Lemma insert_desc_perm (row : string * Z * Z * float)
    (rows : list (string * Z * Z * float)) :
  Permutation (insert_desc row rows) (row :: rows).
Proof.
  induction rows as [|r rows IH]; simpl; [apply Permutation_refl|].
  destruct (sum_of r <? sum_of row); [apply Permutation_refl|].
  apply perm_trans with (r :: row :: rows);
    [apply perm_skip; exact IH | apply perm_swap].
Qed.

Lemma insert_desc_sorted (row : string * Z * Z * float)
    (rows : list (string * Z * Z * float)) :
  Sorted (fun a b => sum_of b <= sum_of a) rows ->
  Sorted (fun a b => sum_of b <= sum_of a) (insert_desc row rows).
Proof.
  induction rows as [|r rows IH]; simpl; intros Hsorted.
  - repeat constructor.
  - destruct (sum_of r <? sum_of row) eqn:Hlt.
    + apply Z.ltb_lt in Hlt. constructor; [exact Hsorted|].
      constructor. lia.
    + apply Z.ltb_ge in Hlt. inversion Hsorted as [|? ? Hrest Hhd]; subst.
      constructor; [apply IH; exact Hrest|].
      destruct rows as [|r' rows]; simpl.
      * constructor. exact Hlt.
      * destruct (sum_of r' <? sum_of row); constructor;
          [exact Hlt | inversion Hhd; assumption].
Qed.

Lemma insertion_engine_ok : engine_ok insertion_engine.
Proof.
  constructor; simpl.
  - intros l s Hsum.
    destruct (checked_sum_exact l 0 s eq_refl Hsum) as [-> Hs].
    split; [reflexivity | exact Hs].
  - intros l Hsmall. rewrite checked_sum_small by (simpl; exact Hsmall).
    reflexivity.
  - intros l _ _. reflexivity.
  - induction rows as [|r rows IH]; simpl; [apply perm_nil|].
    apply perm_trans with (r :: fold_right insert_desc [] rows);
      [apply insert_desc_perm | apply perm_skip; exact IH].
  - induction rows as [|r rows IH]; simpl;
      [constructor | apply insert_desc_sorted; exact IH].
Qed.

Example played_leaderboard_insertion :
  get_leaderboard insertion_engine played_db =
  Returned
    [LeaderboardRow.mk "dave" 200 1 200%float;
     LeaderboardRow.mk "carol" 150 2 75%float].
Proof. reflexivity. Qed.

Lemma leaderboard_rows_sorted (rows : list (string * Z * Z * float)) :
  Sorted (fun a b => sum_of b <= sum_of a) rows ->
  Sorted by_total_desc (map leaderboard_row rows).
Proof.
  induction 1 as [|r rows Hsorted IH Hhd]; simpl; constructor;
    [exact IH|].
  destruct Hhd as [|r' rows' Hle]; simpl; constructor.
  unfold by_total_desc. destruct r as [[[? ?] ?] ?], r' as [[[? ?] ?] ?].
  exact Hle.
Qed.

(** The rows of the groups, when no sum overflows, hold the exact sums. *)
Lemma aggregate_all_exact (E : Engine) (rows : list (User.t * QuizResult.t))
    (keys : list string) (groups : list (string * Z * Z * float)) :
  engine_ok E ->
  aggregate_all E rows keys = Some groups ->
  groups = map (exact_aggregate E rows) keys
  /\ Forall (fun g => in_int64 (sum_of g) = true) groups.
Proof.
  intros Hok. revert groups.
  induction keys as [|k keys IH]; intros groups Hall; simpl in Hall.
  - injection Hall as <-. split; [reflexivity | constructor].
  - destruct (aggregate E rows k) as [row|] eqn:Hrow; [|discriminate].
    destruct (aggregate_all E rows keys) as [others|]; [|discriminate].
    injection Hall as <-.
    destruct (IH others eq_refl) as [-> Hfits].
    unfold aggregate in Hrow.
    destruct (sql_sum E (scores_of k rows)) as [total|] eqn:Hsum;
      [|discriminate].
    injection Hrow as <-.
    destruct (sum_exact E Hok _ _ Hsum) as [-> Htotal].
    split; [reflexivity|]. constructor; [exact Htotal | exact Hfits].
Qed.

(** The query ends in one of two ways. *)
Lemma leaderboard_query_outcome (E : Engine) (db : Db) :
  (exists q, leaderboard_query E db = Returned q)
  \/ leaderboard_query E db = Unhandled (OperationalError "integer overflow").
Proof.
  unfold leaderboard_query.
  destruct (aggregate_all E (joined db) _); [left; eexists|right]; reflexivity.
Qed.

(** What the query returns, when it returns. *)
Lemma leaderboard_query_rows (E : Engine) (db : Db)
    (q : list (string * Z * Z * float)) :
  engine_ok E ->
  leaderboard_query E db = Returned q ->
  Permutation q
    (map (exact_aggregate E (joined db))
       (group_keys (map (fun ur => User.username (fst ur)) (joined db))))
  /\ Sorted (fun a b => sum_of b <= sum_of a) q
  /\ Forall (fun g => in_int64 (sum_of g) = true) q.
Proof.
  intros Hok Hq. unfold leaderboard_query in Hq.
  destruct (aggregate_all E (joined db) _) as [groups|] eqn:Hall;
    [|discriminate].
  injection Hq as <-.
  destruct (aggregate_all_exact E _ _ _ Hok Hall) as [Hgroups Hfits].
  split; [rewrite <- Hgroups; apply (order_perm E Hok)|].
  split; [apply (order_sorted E Hok)|].
  rewrite Forall_forall in *. intros g Hg. apply Hfits.
  apply (Permutation_in _ (order_perm E Hok groups)). exact Hg.
Qed.

(** The query has a row exactly when the join has one. *)
Lemma leaderboard_query_nil (E : Engine) (db : Db)
    (q : list (string * Z * Z * float)) :
  engine_ok E ->
  leaderboard_query E db = Returned q ->
  (q = [] <-> joined db = []).
Proof.
  intros Hok Hq.
  destruct (leaderboard_query_rows E db q Hok Hq) as [Hperm _].
  split.
  - intros ->. apply Permutation_nil in Hperm.
    apply map_eq_nil in Hperm.
    destruct (joined db) as [|ur rows]; [reflexivity|].
    simpl in Hperm. discriminate.
  - intros Hnil. rewrite Hnil in Hperm. simpl in Hperm.
    apply Permutation_sym, Permutation_nil in Hperm. exact Hperm.
Qed.

(** Without a joined row no sum is taken, and the query returns. *)
Lemma leaderboard_query_without_join (E : Engine) (db : Db) :
  engine_ok E ->
  joined db = [] ->
  leaderboard_query E db = Returned [].
Proof.
  intros Hok Hnil.
  assert (Hq : leaderboard_query E db
               = Returned (order_by_sum_desc E []))
    by (unfold leaderboard_query; rewrite Hnil; reflexivity).
  rewrite Hq. f_equal.
  apply Permutation_nil. apply Permutation_sym. apply (order_perm E Hok).
Qed.

Lemma get_leaderboard_without_join (E : Engine) (db : Db) :
  engine_ok E ->
  joined db = [] ->
  get_leaderboard E db = Returned sample_leaderboard.
Proof.
  intros Hok Hnil. unfold get_leaderboard.
  rewrite (leaderboard_query_without_join E db Hok Hnil). reflexivity.
Qed.

Lemma scores_of_member (name : string) (rows : list (User.t * QuizResult.t)) :
  In name (map (fun ur => User.username (fst ur)) rows) ->
  scores_of name rows <> [].
Proof.
  intros Hin. apply in_map_iff in Hin. destruct Hin as [ur [Hname Hur]].
  unfold scores_of. intros Hnil. apply map_eq_nil in Hnil.
  assert (Hf : In ur (filter
                        (fun ur => String.eqb (User.username (fst ur)) name)
                        rows)).
  { apply filter_In. split; [exact Hur|]. apply String.eqb_eq. exact Hname. }
  rewrite Hnil in Hf. exact Hf.
Qed.

(** The join is empty exactly when no result names a stored user. *)
Lemma joined_nil (db : Db) :
  joined db = [] <->
  forall (r : QuizResult.t) (u : User.t),
    In r (quiz_results db) -> In u (users db) ->
    User.id u <> QuizResult.user_id r.
Proof.
  unfold joined. split.
  - intros Hnil r u Hr Hu Hid.
    assert (Hin : In (u, r)
                    (flat_map
                       (fun r =>
                          map (fun u => (u, r))
                            (filter (fun u => User.id u =? QuizResult.user_id r)
                               (users db)))
                       (quiz_results db))).
    { apply in_flat_map. exists r. split; [exact Hr|].
      apply in_map_iff. exists u. split; [reflexivity|].
      apply filter_In. split; [exact Hu|].
      apply Z.eqb_eq. exact Hid. }
    rewrite Hnil in Hin. exact Hin.
  - intros Hnone.
    induction (quiz_results db) as [|r rest IH]; simpl; [reflexivity|].
    rewrite IH by (intros r' u Hr'; apply Hnone; right; exact Hr').
    rewrite app_nil_r.
    destruct (filter (fun u => User.id u =? QuizResult.user_id r) (users db))
      as [|u us] eqn:Hf; [reflexivity|].
    assert (Hu : In u (filter
                         (fun u => User.id u =? QuizResult.user_id r)
                         (users db)))
      by (rewrite Hf; left; reflexivity).
    apply filter_In in Hu. destruct Hu as [Hu Hid].
    apply Z.eqb_eq in Hid. exfalso.
    apply (Hnone r u); [left; reflexivity | exact Hu | exact Hid].
Qed.

(** What [get_leaderboard] returns when the join has rows and the query
    returns: one row per user name of the join. *)
Lemma get_leaderboard_computed (E : Engine) (db : Db)
    (rows : list LeaderboardRow.t) :
  engine_ok E ->
  joined db <> [] ->
  get_leaderboard E db = Returned rows ->
  Permutation rows
    (map (fun k => leaderboard_row (exact_aggregate E (joined db) k))
       (group_keys (map (fun ur => User.username (fst ur)) (joined db))))
  /\ Sorted by_total_desc rows
  /\ rows <> [].
Proof.
  intros Hok Hjoined Hrows. unfold get_leaderboard in Hrows.
  destruct (leaderboard_query E db) as [q|e] eqn:Hq; [|discriminate].
  injection Hrows as <-.
  destruct (leaderboard_query_rows E db q Hok Hq) as [Hperm [Hsorted _]].
  assert (Hne : q <> []).
  { intros Hnil. apply Hjoined.
    apply (leaderboard_query_nil E db q Hok Hq). exact Hnil. }
  destruct q as [|g q']; [congruence|].
  change (match map leaderboard_row (g :: q') with
          | [] => sample_leaderboard
          | _ :: _ => map leaderboard_row (g :: q')
          end) with (map leaderboard_row (g :: q')).
  split; [|split].
  - rewrite <- (map_map (exact_aggregate E (joined db)) leaderboard_row).
    apply Permutation_map. exact Hperm.
  - apply leaderboard_rows_sorted. exact Hsorted.
  - discriminate.
Qed.

(** [get_leaderboard] reads the database through the join only. *)
Lemma get_leaderboard_same_join (E : Engine) (db db' : Db) :
  joined db' = joined db -> get_leaderboard E db' = get_leaderboard E db.
Proof.
  intros H. unfold get_leaderboard, leaderboard_query. rewrite H.
  reflexivity.
Qed.

(** On the database with [carol] and [dave] the contract leaves the
    engine no choice. *)
Example played_leaderboard (E : Engine) :
  engine_ok E ->
  get_leaderboard E played_db =
  Returned
    [LeaderboardRow.mk "dave" 200 1 200%float;
     LeaderboardRow.mk "carol" 150 2 75%float].
Proof.
  intros Hok.
  assert (Hcarol : sql_sum E [50; 100] = Some 150)
    by (apply (sum_small E Hok [50; 100]); reflexivity).
  assert (Hdave : sql_sum E [200] = Some 200)
    by (apply (sum_small E Hok [200]); reflexivity).
  assert (Hacarol := avg_small E Hok [50; 100] ltac:(discriminate) eq_refl).
  assert (Hadave := avg_small E Hok [200] ltac:(discriminate) eq_refl).
  unfold get_leaderboard, leaderboard_query.
  assert (Hall : aggregate_all E (joined played_db)
                   (group_keys
                      (map (fun ur => User.username (fst ur))
                         (joined played_db)))
                 = Some [("carol", 150, 2, sql_avg E [50; 100]);
                         ("dave", 200, 1, sql_avg E [200])]).
  { cbn. unfold aggregate. cbn. rewrite Hcarol, Hdave. reflexivity. }
  rewrite Hall. clear Hall.
  rewrite Hacarol, Hadave.
  assert (Hperm := order_perm E Hok
                     [("carol", 150, 2,
                       PrimFloat.div (float_of_int (sum_list [50; 100]))
                         (float_of_int (Z.of_nat (List.length [50; 100]))));
                      ("dave", 200, 1,
                       PrimFloat.div (float_of_int (sum_list [200]))
                         (float_of_int (Z.of_nat (List.length [200]))))]).
  assert (Hsorted := order_sorted E Hok
                     [("carol", 150, 2,
                       PrimFloat.div (float_of_int (sum_list [50; 100]))
                         (float_of_int (Z.of_nat (List.length [50; 100]))));
                      ("dave", 200, 1,
                       PrimFloat.div (float_of_int (sum_list [200]))
                         (float_of_int (Z.of_nat (List.length [200]))))]).
  apply Permutation_sym in Hperm.
  apply Permutation_length_2_inv in Hperm.
  destruct Hperm as [Heq | Heq]; rewrite Heq in *.
  - exfalso. inversion Hsorted as [|? ? _ Hhd]; subst.
    inversion Hhd as [|? ? Hle]; subst. simpl in Hle. lia.
  - reflexivity.
Qed.

(** Three results of one user, 10, 10 and 11: the average 31/3 is shown
    with one decimal, as the float nearest to 10.3. *)
Example rounded_average (E : Engine) :
  engine_ok E ->
  get_leaderboard E
    (mkDb [User.mk 1 "erin" "erin@example.com" "pw" 0 0]
       [QuizResult.mk 1 1 1 10 10 (Some 30) "{}";
        QuizResult.mk 2 1 1 10 10 None "{}";
        QuizResult.mk 3 1 1 11 10 (Some 30) "{}"])
  = Returned [LeaderboardRow.mk "erin" 31 3 0x1.499999999999ap+3%float].
Proof.
  intros Hok.
  assert (Hsum : sql_sum E [10; 10; 11] = Some 31)
    by (apply (sum_small E Hok [10; 10; 11]); reflexivity).
  assert (Havg := avg_small E Hok [10; 10; 11] ltac:(discriminate) eq_refl).
  unfold get_leaderboard, leaderboard_query.
  assert (Hall : aggregate_all E
                   (joined
                      (mkDb [User.mk 1 "erin" "erin@example.com" "pw" 0 0]
                         [QuizResult.mk 1 1 1 10 10 (Some 30) "{}";
                          QuizResult.mk 2 1 1 10 10 None "{}";
                          QuizResult.mk 3 1 1 11 10 (Some 30) "{}"]))
                   ["erin"]
                 = Some [("erin", 31, 3, sql_avg E [10; 10; 11])]).
  { cbn. unfold aggregate. cbn. rewrite Hsum. reflexivity. }
  change (group_keys _) with ["erin"]. rewrite Hall, Havg.
  assert (Hperm := order_perm E Hok
                     [("erin", 31, 3,
                       PrimFloat.div (float_of_int (sum_list [10; 10; 11]))
                         (float_of_int
                            (Z.of_nat (List.length [10; 10; 11]))))]).
  apply Permutation_sym, Permutation_length_1_inv in Hperm.
  rewrite Hperm. reflexivity.
Qed.

(** Two results of 2^62 = 4611686018427387904 for one user: their sum
    does not fit 64 bits, so no engine returns it; the query stops, and the request is answered
    with the 500. *)
Example overflowing_leaderboard (E : Engine) :
  engine_ok E ->
  let db :=
    mkDb [User.mk 1 "carol" "carol@example.com" "pw" 0 0]
      [QuizResult.mk 1 1 1 4611686018427387904 10 (Some 30) "{}";
       QuizResult.mk 2 1 1 4611686018427387904 10 (Some 30) "{}"] in
  get_leaderboard E db = Unhandled (OperationalError "integer overflow")
  /\ db_status_of (get_leaderboard E db) = 500.
Proof.
  intros Hok db.
  assert (Hsum : sql_sum E [4611686018427387904; 4611686018427387904] = None).
  { destruct (sql_sum E [4611686018427387904; 4611686018427387904]) as [s|] eqn:Hs; [|reflexivity].
    destruct (sum_exact E Hok _ _ Hs) as [-> Hfits]. discriminate. }
  assert (Hrun : get_leaderboard E db
                 = Unhandled (OperationalError "integer overflow")).
  { unfold get_leaderboard, leaderboard_query.
    assert (Hall : aggregate_all E (joined db)
                     (group_keys
                        (map (fun ur => User.username (fst ur)) (joined db)))
                   = None).
    { cbn. unfold aggregate. cbn.
      change (Z.pow_pos 2 62) with 4611686018427387904. rewrite Hsum. reflexivity. }
    rewrite Hall. reflexivity. }
  rewrite Hrun. split; reflexivity.
Qed.

(** What [submit_quiz_result] does: it stores one row, or nothing. *)
Lemma submit_quiz_result_outcome
    (str_of_exception : QuizResultData.t -> string)
    (quiz_data : QuizResultData.t) (db : Db) :
  submit_quiz_result str_of_exception quiz_data db
  = (Raise
       (HTTPException 500
          ("Failed to submit quiz result: " ++ str_of_exception quiz_data)),
     db)
  \/ exists (score total_questions : Z) (time_taken : option Z),
       get_or_zero (QuizResultData.score quiz_data) = Some score
       /\ get_or_zero (QuizResultData.total_questions quiz_data)
          = Some total_questions
       /\ get_or_zero (QuizResultData.time_taken quiz_data) = time_taken
       /\ in_int64 score = true
       /\ in_int64 total_questions = true
       /\ binds time_taken = true
       /\ submit_quiz_result str_of_exception quiz_data db
          = (Ok (SubmitResultResponse.mk "Quiz result submitted successfully"
                   (next_result_id (quiz_results db))),
             mkDb (users db)
               (quiz_results db ++
                [QuizResult.mk (next_result_id (quiz_results db)) 1 1
                   score total_questions time_taken
                   (QuizResultData.answers quiz_data)])).
Proof.
  unfold submit_quiz_result.
  destruct (get_or_zero (QuizResultData.score quiz_data)) as [score|];
    destruct (get_or_zero (QuizResultData.total_questions quiz_data))
      as [total|];
    simpl;
    try (left;
         destruct (binds (get_or_zero (QuizResultData.time_taken quiz_data)));
         try destruct (in_int64 _); try destruct (in_int64 _); reflexivity).
  destruct (in_int64 score) eqn:Hs; [|left; reflexivity].
  destruct (in_int64 total) eqn:Ht; [|left; reflexivity].
  destruct (binds (get_or_zero (QuizResultData.time_taken quiz_data)))
    eqn:Hb; [|left; reflexivity].
  right. exists score, total, (get_or_zero (QuizResultData.time_taken quiz_data)).
  repeat split; solve [reflexivity | assumption].
Qed.

(** C8: the leaderboard shows the sample rows although an attempt is
    recorded.  On the fresh database [POST /quiz-history] with a score of
    80 succeeds and stores the result, for the user 1 that every result is
    stored for; no user is registered, so the join of the results with
    the users is empty, the query has no row, and [GET /leaderboard]
    returns the three sample rows, the same as before the attempt. *)
Theorem leaderboard_sample_after_recorded_attempt
    (E : Engine) (str_of_exception : QuizResultData.t -> string) :
  engine_ok E ->
  submit_quiz_result str_of_exception eighty fresh_db
  = (Ok (SubmitResultResponse.mk "Quiz result submitted successfully" 1),
     orphan_db)
  /\ quiz_results fresh_db = []
  /\ quiz_results orphan_db = [QuizResult.mk 1 1 1 80 10 (Some 30) "{}"]
  /\ get_leaderboard E fresh_db = Returned sample_leaderboard
  /\ get_leaderboard E orphan_db = Returned sample_leaderboard.
Proof.
  intros Hok.
  split; [reflexivity|]. split; [reflexivity|]. split; [reflexivity|].
  split; apply get_leaderboard_without_join; solve [exact Hok | reflexivity].
Qed.

(** The hypothesis of C8 at the insertion engine. *)
Lemma leaderboard_sample_after_recorded_attempt_witness :
  get_leaderboard insertion_engine
    (snd (submit_quiz_result (fun _ => "") eighty fresh_db))
  = Returned sample_leaderboard.
Proof.
  apply (leaderboard_sample_after_recorded_attempt insertion_engine
           (fun _ => "") insertion_engine_ok).
Defined.

(** ** The catalog endpoints *)

Lemma validate_questions_ok (qs : list QuestionData.t) :
  forall (i : Z) (stored : list Question.t),
    validate_questions i qs = Ok stored ->
    map question_data stored = qs
    /\ Forall (fun q =>
                 (2 <= List.length (Question.options q))%nat
                 /\ is_option_label (Question.correct q) = true) stored.
Proof.
  induction qs as [|q rest IH]; intros i stored H; simpl in H.
  - injection H as <-. split; constructor.
  - destruct q as [[text|] [opts|] [label|]]; simpl in H; try discriminate.
    destruct (Z.of_nat (List.length opts) <? 2) eqn:Hopts; [discriminate|].
    destruct (is_option_label label) eqn:Hlabel; simpl in H; [|discriminate].
    destruct (validate_questions (i + 1) rest) as [tail|] eqn:Hrest;
      [|discriminate].
    injection H as <-. destruct (IH _ _ Hrest) as [Hmap Hall].
    split; [simpl; rewrite Hmap; reflexivity|].
    constructor; [|exact Hall]. simpl. apply Z.ltb_ge in Hopts.
    split; [lia | exact Hlabel].
Qed.

Lemma validate_questions_raise (qs : list QuestionData.t) :
  forall (i : Z) (e : exn),
    validate_questions i qs = Raise e ->
    exists detail : string, e = HTTPException 400 detail.
Proof.
  induction qs as [|q rest IH]; intros i e H; simpl in H; [discriminate|].
  destruct q as [[text|] [opts|] [label|]]; simpl in H;
    try (injection H as <-; eexists; reflexivity).
  destruct (Z.of_nat (List.length opts) <? 2);
    [injection H as <-; eexists; reflexivity|].
  destruct (is_option_label label); simpl in H;
    [|injection H as <-; eexists; reflexivity].
  destruct (validate_questions (i + 1) rest) eqn:Hrest; [discriminate|].
  injection H as <-. apply (IH _ _ Hrest).
Qed.

Lemma import_questions_ok (qs : list QuestionData.t) :
  forall (i : Z) (stored : list Question.t),
    import_questions i qs = Ok stored ->
    map question_data stored = qs
    /\ Forall (fun q => (2 <= List.length (Question.options q))%nat) stored.
Proof.
  induction qs as [|q rest IH]; intros i stored H; simpl in H.
  - injection H as <-. split; constructor.
  - destruct q as [[text|] [opts|] [label|]]; simpl in H; try discriminate.
    destruct (Z.of_nat (List.length opts) <? 2) eqn:Hopts; [discriminate|].
    destruct (import_questions (i + 1) rest) as [tail|] eqn:Hrest;
      [|discriminate].
    injection H as <-. destruct (IH _ _ Hrest) as [Hmap Hall].
    split; [simpl; rewrite Hmap; reflexivity|].
    constructor; [|exact Hall]. simpl. apply Z.ltb_ge in Hopts. lia.
Qed.

(** The two ways [create_quiz] ends. *)
Lemma create_quiz_outcome (quiz_data : QuizData.t) (now : string) (st : Store) :
  (exists detail : string,
     create_quiz quiz_data now st = (Raise (HTTPException 400 detail), st))
  \/ exists (title description category difficulty : string) (time_limit : Z)
       (questions : list QuestionData.t) (stored : list Question.t),
       QuizData.title quiz_data = Some title
       /\ QuizData.description quiz_data = Some description
       /\ QuizData.category quiz_data = Some category
       /\ QuizData.difficulty quiz_data = Some difficulty
       /\ QuizData.time_limit quiz_data = Some time_limit
       /\ QuizData.questions quiz_data = Some questions
       /\ questions <> []
       /\ validate_questions 0 questions = Ok stored
       /\ create_quiz quiz_data now st =
          (Ok (CreateResponse.mk "Quiz created successfully"
                 (next_quiz_id (quizzes st))),
           mkStore
             (quizzes st ++
              [Quiz.mk (next_quiz_id (quizzes st)) title description category
                 difficulty time_limit stored
                 (get_default (QuizData.created_by quiz_data) "Anonymous")
                 now None None])
             (quiz_history st) (quiz_collaborators st)
             (collaboration_invitations st)).
Proof.
  unfold create_quiz, bind, get, required, raise_if, raise, ret, lift, put.
  destruct (QuizData.title quiz_data) as [title|];
    [|left; eexists; reflexivity].
  destruct (QuizData.description quiz_data) as [description|];
    [|left; eexists; reflexivity].
  destruct (QuizData.category quiz_data) as [category|];
    [|left; eexists; reflexivity].
  destruct (QuizData.difficulty quiz_data) as [difficulty|];
    [|left; eexists; reflexivity].
  destruct (QuizData.time_limit quiz_data) as [time_limit|];
    [|left; eexists; reflexivity].
  destruct (QuizData.questions quiz_data) as [questions|];
    [|left; eexists; reflexivity].
  destruct (Z.of_nat (List.length questions) <? 1) eqn:Hlen;
    [left; eexists; reflexivity|].
  destruct (validate_questions 0 questions) as [stored|e] eqn:Hvalid.
  - right. exists title, description, category, difficulty, time_limit,
      questions, stored.
    repeat (split; [reflexivity|]).
    split; [|split; [exact Hvalid | reflexivity]].
    intros ->. simpl in Hlen. discriminate.
  - left. destruct (validate_questions_raise _ _ _ Hvalid) as [detail ->].
    exists detail. reflexivity.
Qed.

Lemma import_questions_raise (qs : list QuestionData.t) :
  forall (i : Z) (e : exn),
    import_questions i qs = Raise e ->
    exists detail : string, e = HTTPException 400 detail.
Proof.
  induction qs as [|q rest IH]; intros i e H; simpl in H; [discriminate|].
  destruct q as [[text|] [opts|] [label|]]; simpl in H;
    try (injection H as <-; eexists; reflexivity).
  destruct (Z.of_nat (List.length opts) <? 2);
    [injection H as <-; eexists; reflexivity|].
  destruct (import_questions (i + 1) rest) eqn:Hrest; [discriminate|].
  injection H as <-. apply (IH _ _ Hrest).
Qed.

(** The two ways [import_quiz] ends. *)
Lemma import_quiz_outcome (str_of_exception : exn -> string)
    (import_data : QuizImport.t) (now : string) (st : Store) :
  (exists detail : string,
     import_quiz str_of_exception import_data now st =
     (Raise (HTTPException 400 ("Import failed: " ++ detail)%string), st))
  \/ exists (title description category difficulty : string) (time_limit : Z)
       (questions : list QuestionData.t) (stored : list Question.t),
       QuizData.title (QuizImport.quiz_data import_data) = Some title
       /\ QuizData.questions (QuizImport.quiz_data import_data)
          = Some questions
       /\ questions <> []
       /\ import_questions 0 questions = Ok stored
       /\ import_quiz str_of_exception import_data now st =
          (Ok (ImportResponse.mk "Quiz imported successfully"
                 (Z.of_nat (List.length (quizzes st)) + 1) title),
           mkStore
             (quizzes st ++
              [Quiz.mk (Z.of_nat (List.length (quizzes st)) + 1) title
                 description category difficulty time_limit stored
                 (get_default (QuizImport.created_by import_data) "Imported")
                 now None None])
             (quiz_history st) (quiz_collaborators st)
             (collaboration_invitations st)).
Proof.
  unfold import_quiz, import_quiz_body, bind, get, required, raise_if, raise,
    ret, lift, put.
  destruct (QuizData.title _) as [title|]; [|left; eexists; reflexivity].
  destruct (QuizData.description _) as [description|];
    [|left; eexists; reflexivity].
  destruct (QuizData.category _) as [category|];
    [|left; eexists; reflexivity].
  destruct (QuizData.difficulty _) as [difficulty|];
    [|left; eexists; reflexivity].
  destruct (QuizData.time_limit _) as [time_limit|];
    [|left; eexists; reflexivity].
  destruct (QuizData.questions _) as [questions|];
    [|left; eexists; reflexivity].
  destruct (Z.of_nat (List.length questions) =? 0) eqn:Hlen;
    [left; eexists; reflexivity|].
  destruct (import_questions 0 questions) as [stored|e] eqn:Hvalid.
  - right. exists title, description, category, difficulty, time_limit,
      questions, stored.
    split; [reflexivity|]. split; [reflexivity|].
    split; [|split; [exact Hvalid | reflexivity]].
    intros ->. simpl in Hlen. discriminate.
  - left. eexists. reflexivity.
Qed.

Lemma fold_max_ge_init (l : list Z) :
  forall init : Z, init <= fold_left Z.max l init.
Proof.
  induction l as [|x l IH]; intros init; simpl; [lia|].
  specialize (IH (Z.max init x)). lia.
Qed.

Lemma fold_max_ge_elem (l : list Z) :
  forall (init x : Z), In x l -> x <= fold_left Z.max l init.
Proof.
  induction l as [|y l IH]; intros init x Hin; simpl in *; [contradiction|].
  destruct Hin as [-> | Hin]; [|apply IH; exact Hin].
  assert (H := fold_max_ge_init l (Z.max init x)). lia.
Qed.

(** The identifier [create_quiz] picks is above every identifier in use. *)
Lemma next_quiz_id_above (qs : list Quiz.t) (q : Quiz.t) :
  In q qs -> Quiz.id q < next_quiz_id qs.
Proof.
  intros Hin. unfold next_quiz_id, py_max.
  apply (in_map Quiz.id) in Hin.
  destruct (map Quiz.id qs) as [|first others]; [contradiction|].
  destruct Hin as [<- | Hin].
  - assert (H := fold_max_ge_init others first). lia.
  - assert (H := fold_max_ge_elem others first _ Hin). lia.
Qed.

Lemma find_quiz_none (quiz_id : Z) (qs : list Quiz.t) :
  (forall q, In q qs -> Quiz.id q <> quiz_id) -> find_quiz quiz_id qs = None.
Proof.
  intros Hall. unfold find_quiz.
  destruct (find _ qs) as [q|] eqn:Hfind; [|reflexivity].
  apply find_some in Hfind. destruct Hfind as [Hin Hid].
  apply Z.eqb_eq in Hid. exfalso. apply (Hall q Hin Hid).
Qed.

Lemma find_quiz_app (quiz_id : Z) (qs : list Quiz.t) (q : Quiz.t) :
  find_quiz quiz_id (qs ++ [q]) =
  match find_quiz quiz_id qs with
  | Some found => Some found
  | None => if Quiz.id q =? quiz_id then Some q else None
  end.
Proof.
  unfold find_quiz. induction qs as [|x qs IH]; simpl; [reflexivity|].
  destruct (Quiz.id x =? quiz_id); [reflexivity | exact IH].
Qed.

(** X1: when [create_quiz] succeeds, the identifier it returns is above
    every identifier of the catalog and was not in use; looked up
    afterwards, it gives a quiz with the submitted title, description,
    category, difficulty, time limit and questions, in the submitted order,
    and the creator name (or "Anonymous"); every other lookup answers as
    before. *)
Theorem create_quiz_then_find
    (quiz_data : QuizData.t) (now : string) (st st' : Store)
    (r : CreateResponse.t) :
  create_quiz quiz_data now st = (Ok r, st') ->
  (forall q : Quiz.t,
     In q (quizzes st) -> Quiz.id q < CreateResponse.quiz_id r)
  /\ find_quiz (CreateResponse.quiz_id r) (quizzes st) = None
  /\ (exists quiz : Quiz.t,
        find_quiz (CreateResponse.quiz_id r) (quizzes st') = Some quiz
        /\ QuizData.title quiz_data = Some (Quiz.title quiz)
        /\ QuizData.description quiz_data = Some (Quiz.description quiz)
        /\ QuizData.category quiz_data = Some (Quiz.category quiz)
        /\ QuizData.difficulty quiz_data = Some (Quiz.difficulty quiz)
        /\ QuizData.time_limit quiz_data = Some (Quiz.time_limit quiz)
        /\ QuizData.questions quiz_data
           = Some (map question_data (Quiz.questions quiz))
        /\ Quiz.created_by quiz
           = get_default (QuizData.created_by quiz_data) "Anonymous")
  /\ (forall quiz_id : Z,
        quiz_id <> CreateResponse.quiz_id r ->
        find_quiz quiz_id (quizzes st') = find_quiz quiz_id (quizzes st)).
Proof.
  intros Hrun.
  destruct (create_quiz_outcome quiz_data now st)
    as [[detail Hfail]
       | [title [description [category [difficulty [time_limit [questions
           [stored [Ht [Hd [Hc [Hdi [Htl [Hq [_ [Hvalid Hok]]]]]]]]]]]]]]]].
  { rewrite Hfail in Hrun. discriminate. }
  rewrite Hok in Hrun. injection Hrun as <- <-. simpl.
  assert (Hfresh : find_quiz (next_quiz_id (quizzes st)) (quizzes st) = None).
  { apply find_quiz_none. intros q Hin.
    assert (H := next_quiz_id_above _ _ Hin). lia. }
  split; [intros q Hin; apply next_quiz_id_above; exact Hin|].
  split; [exact Hfresh|]. split.
  - eexists. split.
    + rewrite find_quiz_app, Hfresh. simpl. rewrite Z.eqb_refl. reflexivity.
    + simpl. repeat (split; [assumption|]).
      split; [|reflexivity].
      rewrite (proj1 (validate_questions_ok _ _ _ Hvalid)). exact Hq.
  - intros quiz_id Hother. rewrite find_quiz_app. simpl.
    destruct (find_quiz quiz_id (quizzes st)); [reflexivity|].
    destruct (Z.eqb_spec (next_quiz_id (quizzes st)) quiz_id);
      [congruence | reflexivity].
Qed.

(** The hypothesis of X1 at the creation of the Math Quiz. *)
Lemma create_quiz_then_find_witness :
  find_quiz 1 (quizzes initial_store) = None.
Proof.
  apply (create_quiz_then_find math_quiz_data "2024-01-01T00:00:00"
           initial_store math_store
           (CreateResponse.mk "Quiz created successfully" 1)).
  reflexivity.
Defined.

(** X2: whatever [import_quiz] is sent, it answers with its body or with a
    400 whose detail starts with "Import failed: ", and a refused import
    leaves the store as it was; an accepted one appends one quiz, numbered
    one more than the catalog had entries, with the questions of the
    request in their order, whatever their labels. *)
Theorem import_quiz_answers
    (str_of_exception : exn -> string) (import_data : QuizImport.t)
    (now : string) (st : Store) :
  (exists detail : string,
     import_quiz str_of_exception import_data now st =
     (Raise (HTTPException 400 ("Import failed: " ++ detail)%string), st))
  \/ exists quiz : Quiz.t,
       import_quiz str_of_exception import_data now st =
       (Ok (ImportResponse.mk "Quiz imported successfully" (Quiz.id quiz)
              (Quiz.title quiz)),
        mkStore (quizzes st ++ [quiz]) (quiz_history st)
          (quiz_collaborators st) (collaboration_invitations st))
       /\ Quiz.id quiz = Z.of_nat (List.length (quizzes st)) + 1
       /\ QuizData.questions (QuizImport.quiz_data import_data)
          = Some (map question_data (Quiz.questions quiz))
       /\ has_questions quiz.
Proof.
  destruct (import_quiz_outcome str_of_exception import_data now st)
    as [Hfail
       | [title [description [category [difficulty [time_limit [questions
           [stored [Ht [Hq [Hne [Hvalid Hok]]]]]]]]]]]];
    [left; exact Hfail|].
  right.
  exists (Quiz.mk (Z.of_nat (List.length (quizzes st)) + 1) title description
            category difficulty time_limit stored
            (get_default (QuizImport.created_by import_data) "Imported")
            now None None).
  split; [exact Hok|]. simpl.
  destruct (import_questions_ok _ _ _ Hvalid) as [Hmap Hall].
  split; [reflexivity|]. split; [rewrite Hmap; exact Hq|].
  unfold has_questions. simpl. split; [|exact Hall].
  intros Hnil. rewrite Hnil in Hmap. simpl in Hmap. congruence.
Qed.

(** ** What a request can do to the catalog and the history *)

Lemma request_effect (before after : Store) :
  request before after ->
  quiz_history after = quiz_history before
  /\ (quizzes after = quizzes before
      \/ exists quiz : Quiz.t,
           quizzes after = quizzes before ++ [quiz]
           /\ (Quiz.id quiz = next_quiz_id (quizzes before)
               \/ Quiz.id quiz = Z.of_nat (List.length (quizzes before)) + 1)
           /\ has_questions quiz
           /\ Quiz.creator quiz = None).
Proof.
  intros [st0 st0' Hstep | str_of_exception import_data now st0].
  - destruct Hstep as [quiz_data now st | submission now1 now2 st
                      | invitation now st | response now1 now2 st
                      | quiz_id username requester st].
    + destruct (create_quiz_outcome quiz_data now st)
        as [[detail Hfail]
           | [title [description [category [difficulty [time_limit [questions
               [stored [_ [_ [_ [_ [_ [Hq [Hne [Hvalid Hok]]]]]]]]]]]]]]]].
      * rewrite Hfail. simpl. split; [reflexivity | left; reflexivity].
      * rewrite Hok. simpl. split; [reflexivity|]. right.
        eexists. split; [reflexivity|]. simpl.
        split; [left; reflexivity|]. split; [|reflexivity].
        destruct (validate_questions_ok _ _ _ Hvalid) as [Hmap Hall].
        unfold has_questions. simpl. split.
        -- intros Hnil. rewrite Hnil in Hmap. simpl in Hmap. congruence.
        -- eapply Forall_impl; [|exact Hall]. intros q [Hopts _]. exact Hopts.
    + rewrite submit_quiz_store_unchanged.
      split; [reflexivity | left; reflexivity].
    + destruct (invite_collaborator_store invitation now st)
        as [-> | [_ [_ [new [_ [_ [_ ->]]]]]]];
        (split; [reflexivity | left; reflexivity]).
    + destruct (respond_to_invitation_store response now1 now2 st)
        as [-> | [invitation [Hfind [Hinvitee Hpending]]]];
        [split; [reflexivity | left; reflexivity]|].
      rewrite (respond_to_invitation_answers _ _ _ _ _ Hfind Hinvitee Hpending).
      destruct (is_accept _); simpl;
        (split; [reflexivity | left; reflexivity]).
    + destruct (remove_collaborator_store quiz_id username requester st)
        as [-> | [c ->]]; (split; [reflexivity | left; reflexivity]).
  - destruct (import_quiz_outcome str_of_exception import_data now st0)
      as [[detail Hfail]
         | [title [description [category [difficulty [time_limit [questions
             [stored [_ [Hq [Hne [Hvalid Hok]]]]]]]]]]]].
    + rewrite Hfail. simpl. split; [reflexivity | left; reflexivity].
    + rewrite Hok. simpl. split; [reflexivity|]. right.
      eexists. split; [reflexivity|]. simpl.
      split; [right; reflexivity|]. split; [|reflexivity].
      destruct (import_questions_ok _ _ _ Hvalid) as [Hmap Hall].
      unfold has_questions. simpl. split; [|exact Hall].
      intros Hnil. rewrite Hnil in Hmap. simpl in Hmap. congruence.
Qed.

(** ** Invariants of the catalog *)

Lemma fold_max_seq (k : nat) :
  forall a : nat,
    fold_left Z.max (map Z.of_nat (seq (S a) k)) (Z.of_nat a)
    = Z.of_nat (a + k).
Proof.
  induction k as [|k IH]; intros a; cbn [seq map fold_left].
  - f_equal. lia.
  - replace (Z.max (Z.of_nat a) (Z.of_nat (S a))) with (Z.of_nat (S a))
      by lia.
    rewrite IH. f_equal. lia.
Qed.

(** On a catalog numbered 1, 2, ..., [create_quiz] and [import_quiz] pick
    the same next identifier. *)
Lemma next_quiz_id_sequential (qs : list Quiz.t) :
  ids_sequential qs ->
  next_quiz_id qs = Z.of_nat (List.length qs) + 1.
Proof.
  unfold ids_sequential, next_quiz_id, py_max. intros ->.
  destruct (List.length qs) as [|n]; [reflexivity|].
  cbn [seq map]. change 1 with (Z.of_nat 1) at 1.
  rewrite (fold_max_seq n 1). lia.
Qed.

Lemma ids_sequential_app (qs : list Quiz.t) (q : Quiz.t) :
  ids_sequential qs ->
  Quiz.id q = Z.of_nat (List.length qs) + 1 ->
  ids_sequential (qs ++ [q]).
Proof.
  unfold ids_sequential. intros Hseq Hid.
  rewrite map_app, length_app, Hseq. simpl List.length.
  rewrite Nat.add_1_r, seq_S, map_app. simpl. rewrite Hid.
  f_equal. f_equal. lia.
Qed.

Lemma find_by_position (qs : list Quiz.t) :
  forall (a n i : nat) (quiz : Quiz.t),
    map Quiz.id qs = map Z.of_nat (seq a n) ->
    nth_error qs i = Some quiz ->
    find_quiz (Z.of_nat (a + i)) qs = Some quiz.
Proof.
  unfold find_quiz.
  induction qs as [|x qs IH]; intros a n i quiz Hids Hnth.
  - destruct i; discriminate.
  - destruct n as [|n]; [discriminate|]. simpl in Hids.
    injection Hids as Hx Hrest. simpl.
    destruct i as [|i]; simpl in Hnth.
    + injection Hnth as <-. rewrite Hx, Nat.add_0_r, Z.eqb_refl. reflexivity.
    + destruct (Z.eqb_spec (Quiz.id x) (Z.of_nat (a + S i))) as [Heq|_];
        [lia|].
      replace (a + S i)%nat with (S a + i)%nat by lia.
      apply (IH (S a) n); assumption.
Qed.

Lemma NoDup_map_of_nat (l : list nat) : NoDup l -> NoDup (map Z.of_nat l).
Proof.
  induction 1 as [|x l Hx Hl IH]; simpl; constructor; [|exact IH].
  intros Hin. apply in_map_iff in Hin. destruct Hin as [y [Hy Hin]].
  apply Nat2Z.inj in Hy. subst y. contradiction.
Qed.

Lemma request_keeps_ids_sequential (st st' : Store) :
  request st st' ->
  ids_sequential (quizzes st) ->
  ids_sequential (quizzes st').
Proof.
  intros Hreq Hseq.
  destruct (request_effect _ _ Hreq) as [_ [-> | [quiz [-> [Hid _]]]]];
    [exact Hseq|].
  apply ids_sequential_app; [exact Hseq|].
  destruct Hid as [Hid | Hid]; [|exact Hid].
  rewrite Hid. apply next_quiz_id_sequential. exact Hseq.
Qed.

(** X3: in every store reached by requests from a catalog numbered 1, 2,
    ... in list order (the empty one to begin with), the catalog is still
    numbered so: identifiers are never shared, although [create_quiz]
    counts from the largest identifier and [import_quiz] from the length,
    and the quiz at position [i] is the one that lookup of [i + 1] finds. *)
Theorem catalog_ids_stay_sequential (st0 st : Store) :
  ids_sequential (quizzes st0) ->
  requests st0 st ->
  ids_sequential (quizzes st)
  /\ NoDup (map Quiz.id (quizzes st))
  /\ (forall (i : nat) (quiz : Quiz.t),
        nth_error (quizzes st) i = Some quiz ->
        find_quiz (Z.of_nat (S i)) (quizzes st) = Some quiz).
Proof.
  intros Hstart Hrun.
  assert (Hseq : ids_sequential (quizzes st)).
  { induction Hrun as [st | st1 st2 st3 Hrun IH Hreq]; [exact Hstart|].
    apply (request_keeps_ids_sequential _ _ Hreq). apply IH. exact Hstart. }
  split; [exact Hseq|]. split.
  - rewrite Hseq. apply NoDup_map_of_nat. apply seq_NoDup.
  - intros i quiz Hnth.
    apply (find_by_position _ 1 (List.length (quizzes st)) i quiz Hseq Hnth).
Qed.

(** The hypotheses of X3 at the creation of the Math Quiz. *)
Lemma catalog_ids_stay_sequential_witness :
  ids_sequential (quizzes math_store).
Proof.
  apply (catalog_ids_stay_sequential initial_store math_store).
  - reflexivity.
  - apply requests_snoc with (st2 := initial_store);
      [apply requests_refl|].
    apply request_step.
    apply (step_create math_quiz_data "2024-01-01T00:00:00" initial_store).
Defined.

Lemma request_keeps_questions (st st' : Store) :
  request st st' ->
  Forall has_questions (quizzes st) ->
  Forall has_questions (quizzes st').
Proof.
  intros Hreq Hall.
  destruct (request_effect _ _ Hreq) as [_ [-> | [quiz [-> [_ [Hwf _]]]]]];
    [exact Hall|].
  apply Forall_app. split; [exact Hall|]. constructor; [exact Hwf|constructor].
Qed.

(** X4: in every store reached by requests from a catalog whose quizzes
    have questions (the empty catalog to begin with), every quiz has a
    question, so [submit_quiz] never divides by zero there: it answers 404
    when no quiz has the identifier, stops with [IndexError] when there are
    more answers than questions, and returns a score otherwise. *)
Theorem submit_quiz_on_reachable_catalog
    (st0 st : Store) (submission : QuizSubmission.t) (now1 now2 : string) :
  Forall has_questions (quizzes st0) ->
  requests st0 st ->
  Forall has_questions (quizzes st)
  /\ fst (submit_quiz submission now1 now2 st) <> Raise ZeroDivisionError
  /\ (find_quiz (QuizSubmission.quiz_id submission) (quizzes st) = None ->
      submit_quiz submission now1 now2 st =
      (Raise (HTTPException 404 "Quiz not found"), st))
  /\ (forall quiz : Quiz.t,
        find_quiz (QuizSubmission.quiz_id submission) (quizzes st)
        = Some quiz ->
        ((List.length (Quiz.questions quiz)
          < List.length (QuizSubmission.answers submission))%nat ->
         submit_quiz submission now1 now2 st = (Raise IndexError, st))
        /\ ((List.length (QuizSubmission.answers submission)
             <= List.length (Quiz.questions quiz))%nat ->
            exists r : ScoreResult.t,
              submit_quiz submission now1 now2 st = (Ok r, st))).
Proof.
  intros Hstart Hrun.
  assert (Hall : Forall has_questions (quizzes st)).
  { induction Hrun as [st | st1 st2 st3 Hrun IH Hreq]; [exact Hstart|].
    apply (request_keeps_questions _ _ Hreq). apply IH. exact Hstart. }
  assert (Hmissing :
            find_quiz (QuizSubmission.quiz_id submission) (quizzes st) = None ->
            submit_quiz submission now1 now2 st =
            (Raise (HTTPException 404 "Quiz not found"), st)).
  { intros Hnone. unfold submit_quiz, bind, get, raise. rewrite Hnone.
    reflexivity. }
  assert (Hfound :
            forall quiz : Quiz.t,
              find_quiz (QuizSubmission.quiz_id submission) (quizzes st)
              = Some quiz ->
              ((List.length (Quiz.questions quiz)
                < List.length (QuizSubmission.answers submission))%nat ->
               submit_quiz submission now1 now2 st = (Raise IndexError, st))
              /\ ((List.length (QuizSubmission.answers submission)
                   <= List.length (Quiz.questions quiz))%nat ->
                  exists r : ScoreResult.t,
                    submit_quiz submission now1 now2 st = (Ok r, st))).
  { intros quiz Hfind. split.
    - intros Hlen. unfold submit_quiz, bind, get, lift. rewrite Hfind.
      rewrite grade_loop_overrun by (simpl; lia). reflexivity.
    - intros Hlen.
      assert (Hq : (1 <= List.length (Quiz.questions quiz))%nat).
      { assert (Hin : In quiz (quizzes st))
          by (apply (find_some _ _ Hfind)).
        rewrite Forall_forall in Hall. destruct (Hall quiz Hin) as [Hne _].
        destruct (Quiz.questions quiz); [contradiction | simpl; lia]. }
      eexists. apply (submit_quiz_runs _ _ _ _ _ Hfind Hq Hlen). }
  split; [exact Hall|]. split; [|split; [exact Hmissing | exact Hfound]].
  destruct (find_quiz (QuizSubmission.quiz_id submission) (quizzes st))
    as [quiz|] eqn:Hfind.
  - destruct (Hfound quiz eq_refl) as [Hover Hfit].
    destruct (Nat.lt_ge_cases (List.length (Quiz.questions quiz))
                (List.length (QuizSubmission.answers submission)))
      as [Hlt | Hge].
    + rewrite (Hover Hlt). simpl. discriminate.
    + destruct (Hfit Hge) as [r ->]. simpl. discriminate.
  - rewrite (Hmissing eq_refl). simpl. discriminate.
Qed.

(** The hypotheses of X4 at the Math Quiz, submitted to without answers. *)
Lemma submit_quiz_on_reachable_catalog_witness :
  fst (submit_quiz (QuizSubmission.mk 1 "testuser" [] 30) "t1" "t2" math_store)
  <> Raise ZeroDivisionError.
Proof.
  apply (submit_quiz_on_reachable_catalog initial_store math_store
           (QuizSubmission.mk 1 "testuser" [] 30) "t1" "t2").
  - constructor.
  - apply requests_snoc with (st2 := initial_store);
      [apply requests_refl|].
    apply request_step.
    apply (step_create math_quiz_data "2024-01-01T00:00:00" initial_store).
Defined.

(** X5: no endpoint writes the shared [quiz_history]: after any sequence of
    requests it is the list it was, so the history endpoint gives every
    user the answer it gave before, and nothing at all when the run began
    with an empty history. *)
Theorem quiz_history_never_written (st0 st : Store) (username : string) :
  requests st0 st ->
  quiz_history st = quiz_history st0
  /\ fst (get_quiz_history username st) = fst (get_quiz_history username st0)
  /\ (quiz_history st0 = [] -> fst (get_quiz_history username st) = Ok []).
Proof.
  intros Hrun.
  assert (Hsame : quiz_history st = quiz_history st0).
  { induction Hrun as [st | st1 st2 st3 Hrun IH Hreq]; [reflexivity|].
    rewrite (proj1 (request_effect _ _ Hreq)). exact IH. }
  split; [exact Hsame|].
  unfold get_quiz_history, bind, get, ret. simpl. rewrite Hsame.
  split; [reflexivity|]. intros ->. reflexivity.
Qed.

(** The hypothesis of X5 at the run that creates the Math Quiz and submits
    to it. *)
Lemma quiz_history_never_written_witness :
  fst (get_quiz_history "testuser"
         (snd (submit_quiz math_submission "t1" "t2" math_store)))
  = Ok [].
Proof.
  apply (quiz_history_never_written initial_store
           (snd (submit_quiz math_submission "t1" "t2" math_store))
           "testuser").
  - apply requests_snoc with (st2 := math_store).
    + apply requests_snoc with (st2 := initial_store);
        [apply requests_refl|].
      apply request_step.
      apply (step_create math_quiz_data "2024-01-01T00:00:00" initial_store).
    + apply request_step. apply step_submit.
  - reflexivity.
Defined.

(** ** Collaboration on the quizzes the endpoints create *)

(** On a catalog without the key ["creator"] an invitation is answered
    with the 404 or stops at [quiz["creator"]]. *)
Lemma invite_collaborator_without_creators (st : Store)
    (invitation : InviteRequest.t) (now : string) :
  Forall (fun q => Quiz.creator q = None) (quizzes st) ->
  invite_collaborator invitation now st =
  (Raise (HTTPException 404 "Quiz not found"), st)
  \/ invite_collaborator invitation now st = (Raise (KeyError "creator"), st).
Proof.
  intros Hall.
  destruct (find_quiz (InviteRequest.quiz_id invitation) (quizzes st))
    as [quiz|] eqn:Hfind.
  - right. apply (invite_collaborator_key_error _ _ _ quiz Hfind).
    rewrite Forall_forall in Hall. apply Hall.
    apply (find_some _ _ Hfind).
  - left. unfold invite_collaborator, bind, get, raise. rewrite Hfind.
    reflexivity.
Qed.

Lemma request_keeps_no_collaboration (st st' : Store) :
  request st st' ->
  Forall (fun q => Quiz.creator q = None) (quizzes st) ->
  quiz_collaborators st = [] ->
  collaboration_invitations st = [] ->
  Forall (fun q => Quiz.creator q = None) (quizzes st')
  /\ quiz_collaborators st' = []
  /\ collaboration_invitations st' = [].
Proof.
  intros Hreq Hall Hrows Hinvs.
  split.
  { destruct (request_effect _ _ Hreq)
      as [_ [-> | [quiz [-> [_ [_ Hnone]]]]]]; [exact Hall|].
    apply Forall_app. split; [exact Hall|].
    constructor; [exact Hnone | constructor]. }
  destruct Hreq as [st0 st0' Hstep | str_of_exception import_data now st0].
  - destruct Hstep as [quiz_data now st | submission now1 now2 st
                      | invitation now st | response now1 now2 st
                      | quiz_id username requester st].
    + destruct (create_quiz_store quiz_data now st) as [-> | [quiz ->]];
        split; assumption.
    + rewrite submit_quiz_store_unchanged. split; assumption.
    + destruct (invite_collaborator_without_creators st invitation now Hall)
        as [-> | ->]; split; assumption.
    + destruct (respond_to_invitation_store response now1 now2 st)
        as [-> | [invitation [Hfind _]]]; [split; assumption|].
      rewrite Hinvs in Hfind. discriminate.
    + destruct (remove_collaborator_store quiz_id username requester st)
        as [-> | [c ->]]; [split; assumption|].
      simpl. rewrite Hrows. split; [reflexivity | exact Hinvs].
  - destruct (import_quiz_outcome str_of_exception import_data now st0)
      as [[detail ->]
         | [title [description [category [difficulty [time_limit [questions
             [stored [_ [_ [_ [_ ->]]]]]]]]]]]]; split; assumption.
Qed.

(** X6: in every store reached by requests from one whose quiz
    dictionaries lack the key ["creator"] and that has no rows and no
    invitations (the state at start-up to begin with), no quiz has that
    key, so every invitation request ends in the 404 or in the [KeyError],
    and there is still no invitation and no collaborator row. *)
Theorem collaboration_never_starts (st0 st : Store)
    (invitation : InviteRequest.t) (now : string) :
  Forall (fun q => Quiz.creator q = None) (quizzes st0) ->
  quiz_collaborators st0 = [] ->
  collaboration_invitations st0 = [] ->
  requests st0 st ->
  Forall (fun q => Quiz.creator q = None) (quizzes st)
  /\ quiz_collaborators st = []
  /\ collaboration_invitations st = []
  /\ (invite_collaborator invitation now st =
      (Raise (HTTPException 404 "Quiz not found"), st)
      \/ invite_collaborator invitation now st =
         (Raise (KeyError "creator"), st)).
Proof.
  intros Hall Hrows Hinvs Hrun.
  assert (Hinv : Forall (fun q => Quiz.creator q = None) (quizzes st)
                 /\ quiz_collaborators st = []
                 /\ collaboration_invitations st = []).
  { induction Hrun as [st | st1 st2 st3 Hrun IH Hreq];
      [split; [|split]; assumption|].
    destruct (IH Hall Hrows Hinvs) as [H1 [H2 H3]].
    apply (request_keeps_no_collaboration _ _ Hreq); assumption. }
  destruct Hinv as [H1 [H2 H3]].
  split; [exact H1|]. split; [exact H2|]. split; [exact H3|].
  apply invite_collaborator_without_creators. exact H1.
Qed.

(** The hypotheses of X6 at the store with the Math Quiz. *)
Lemma collaboration_never_starts_witness :
  invite_collaborator (InviteRequest.mk 1 "Anonymous" "bob" None) "t"
    math_store
  = (Raise (KeyError "creator"), math_store).
Proof.
  destruct (collaboration_never_starts initial_store math_store
              (InviteRequest.mk 1 "Anonymous" "bob" None) "t")
    as [_ [_ [_ [H | H]]]].
  - constructor.
  - reflexivity.
  - reflexivity.
  - apply requests_snoc with (st2 := initial_store);
      [apply requests_refl|].
    apply request_step.
    apply (step_create math_quiz_data "2024-01-01T00:00:00" initial_store).
  - vm_compute in H. discriminate.
  - exact H.
Defined.

(** ** Collaborator rows in the states the program reaches *)



(** ** More on scoring *)

(** Two answer lists with the same labels are graded alike. *)
Lemma grade_loop_labels (questions : list Question.t) (a1 : list Answer.t) :
  forall (a2 : list Answer.t) (i : nat) (c : Z)
         (d1 d2 : list DetailedResult.t),
    map Answer.answer a1 = map Answer.answer a2 ->
    map verdict d1 = map verdict d2 ->
    match grade_loop questions i a1 c d1, grade_loop questions i a2 c d2 with
    | Ok (c1, r1), Ok (c2, r2) => c1 = c2 /\ map verdict r1 = map verdict r2
    | Raise e1, Raise e2 => e1 = e2
    | _, _ => False
    end.
Proof.
  induction a1 as [|x a1 IH]; intros [|y a2] i c d1 d2 Hlabels Hd;
    simpl in Hlabels; try discriminate; simpl.
  - split; [reflexivity | exact Hd].
  - injection Hlabels as Hxy Hrest.
    destruct (nth_error questions i) as [question|]; [|reflexivity].
    rewrite Hxy. apply IH; [exact Hrest|].
    rewrite !map_app, Hd. reflexivity.
Qed.

(** X7: the ["question_id"] an answer carries is never read: two
    submissions to the same quiz whose answers have the same labels in the
    same order end alike, with the same exception or with the same score,
    counts and verdict at every position, whatever identifiers, user names
    and times they carry. *)
Theorem submit_quiz_ignores_question_id
    (st : Store) (s1 s2 : QuizSubmission.t) (t1 t2 t3 t4 : string) :
  QuizSubmission.quiz_id s1 = QuizSubmission.quiz_id s2 ->
  map Answer.answer (QuizSubmission.answers s1)
  = map Answer.answer (QuizSubmission.answers s2) ->
  match fst (submit_quiz s1 t1 t2 st), fst (submit_quiz s2 t3 t4 st) with
  | Ok r1, Ok r2 =>
      ScoreResult.score r1 = ScoreResult.score r2
      /\ ScoreResult.correct r1 = ScoreResult.correct r2
      /\ ScoreResult.total r1 = ScoreResult.total r2
      /\ map verdict (ScoreResult.detailed_results r1)
         = map verdict (ScoreResult.detailed_results r2)
  | Raise e1, Raise e2 => e1 = e2
  | _, _ => False
  end.
Proof.
  intros Hid Hlabels. unfold submit_quiz, bind, get, lift, ret, raise.
  rewrite <- Hid.
  destruct (find_quiz (QuizSubmission.quiz_id s1) (quizzes st)) as [quiz|];
    [|reflexivity].
  assert (H := grade_loop_labels (Quiz.questions quiz) _ _ 0%nat 0 [] []
                 Hlabels eq_refl).
  destruct (grade_loop (Quiz.questions quiz) 0 (QuizSubmission.answers s1) 0 [])
    as [[c1 r1]|e1];
    destruct (grade_loop (Quiz.questions quiz) 0 (QuizSubmission.answers s2)
                0 []) as [[c2 r2]|e2]; try contradiction.
  - destruct H as [<- Hv].
    destruct (true_div c1 _) as [quotient|e]; simpl; [|reflexivity].
    repeat split. exact Hv.
  - simpl. exact H.
Qed.

(** The hypotheses of X7 at the Math Quiz, answered with other identifiers
    by another user. *)
Lemma submit_quiz_ignores_question_id_witness :
  match
    fst (submit_quiz math_submission "t1" "t2" math_store),
    fst (submit_quiz
           (QuizSubmission.mk 1 "other" [Answer.mk 7 "B"; Answer.mk 9 "A"] 5)
           "t3" "t4" math_store)
  with
  | Ok r1, Ok r2 =>
      ScoreResult.score r1 = ScoreResult.score r2
      /\ ScoreResult.correct r1 = ScoreResult.correct r2
      /\ ScoreResult.total r1 = ScoreResult.total r2
      /\ map verdict (ScoreResult.detailed_results r1)
         = map verdict (ScoreResult.detailed_results r2)
  | Raise e1, Raise e2 => e1 = e2
  | _, _ => False
  end.
Proof.
  apply (submit_quiz_ignores_question_id math_store math_submission
           (QuizSubmission.mk 1 "other"
              [Answer.mk 7 "B"; Answer.mk 9 "A"] 5)
           "t1" "t2" "t3" "t4").
  - reflexivity.
  - reflexivity.
Defined.

Lemma correct_count_bound (detailed : list DetailedResult.t) :
  0 <= correct_count detailed <= Z.of_nat (List.length detailed).
Proof.
  unfold correct_count.
  assert (H := filter_length_le DetailedResult.is_correct detailed). lia.
Qed.

Lemma correct_count_full (detailed : list DetailedResult.t) :
  correct_count detailed = Z.of_nat (List.length detailed) <->
  Forall (fun d => DetailedResult.is_correct d = true) detailed.
Proof.
  induction detailed as [|d l IH].
  - split; [constructor | reflexivity].
  - rewrite correct_count_cons. simpl List.length.
    assert (Hb := correct_count_bound l).
    destruct (DetailedResult.is_correct d) eqn:Hd.
    + split.
      * intros H. constructor; [exact Hd|]. apply IH. lia.
      * intros H. inversion H as [|? ? _ Hl]; subst.
        apply IH in Hl. lia.
    + split; [lia|]. intros H. inversion H; congruence.
Qed.

(** What a successful submission was run on. *)
Lemma submit_quiz_ok_inv (st st' : Store) (submission : QuizSubmission.t)
    (now1 now2 : string) (r : ScoreResult.t) :
  submit_quiz submission now1 now2 st = (Ok r, st') ->
  exists quiz : Quiz.t,
    find_quiz (QuizSubmission.quiz_id submission) (quizzes st) = Some quiz
    /\ (1 <= List.length (Quiz.questions quiz))%nat
    /\ (List.length (QuizSubmission.answers submission)
        <= List.length (Quiz.questions quiz))%nat.
Proof.
  intros Hrun.
  destruct (find_quiz (QuizSubmission.quiz_id submission) (quizzes st))
    as [quiz|] eqn:Hfind.
  - exists quiz. split; [reflexivity|].
    destruct (Nat.lt_ge_cases (List.length (Quiz.questions quiz))
                (List.length (QuizSubmission.answers submission)))
      as [Hlt | Hge].
    + exfalso. unfold submit_quiz, bind, get, lift in Hrun.
      rewrite Hfind in Hrun.
      rewrite grade_loop_overrun in Hrun by (simpl; lia). discriminate.
    + split; [|exact Hge].
      destruct (Quiz.questions quiz) as [|q qs] eqn:Hq; [|simpl; lia].
      exfalso. unfold submit_quiz, bind, get, lift in Hrun.
      rewrite Hfind, Hq in Hrun.
      destruct (QuizSubmission.answers submission); simpl in *;
        [discriminate | lia].
  - unfold submit_quiz, bind, get, raise in Hrun. rewrite Hfind in Hrun.
    discriminate.
Qed.

(** X8: a submission that is scored leaves the store as it was; it was
    run on the quiz its [quiz_id] finds in the catalog, and it has at most
    as many answers as that quiz has questions; its [total] is the number
    of questions of that quiz, its [correct] lies between 0 and the number
    of answers, it has one detailed result per answer, and [correct]
    reaches the number of answers exactly when every graded position is
    correct; questions left without an answer are not graded and count
    against the score. *)
Theorem submit_quiz_counts
    (st st' : Store) (submission : QuizSubmission.t) (now1 now2 : string)
    (r : ScoreResult.t) :
  submit_quiz submission now1 now2 st = (Ok r, st') ->
  st' = st
  /\ (exists quiz : Quiz.t,
        find_quiz (QuizSubmission.quiz_id submission) (quizzes st)
        = Some quiz
        /\ ScoreResult.total r = Z.of_nat (List.length (Quiz.questions quiz))
        /\ (List.length (QuizSubmission.answers submission)
            <= List.length (Quiz.questions quiz))%nat
        /\ (1 <= List.length (Quiz.questions quiz))%nat
        /\ ScoreResult.correct r
           <= Z.of_nat (List.length (Quiz.questions quiz)))
  /\ 0 <= ScoreResult.correct r
  /\ ScoreResult.correct r
     <= Z.of_nat (List.length (QuizSubmission.answers submission))
  /\ Z.of_nat (List.length (QuizSubmission.answers submission))
     <= ScoreResult.total r
  /\ 1 <= ScoreResult.total r
  /\ List.length (ScoreResult.detailed_results r)
     = List.length (QuizSubmission.answers submission)
  /\ (ScoreResult.correct r
      = Z.of_nat (List.length (QuizSubmission.answers submission))
      <-> Forall (fun d => DetailedResult.is_correct d = true)
            (ScoreResult.detailed_results r)).
Proof.
  intros Hrun.
  destruct (submit_quiz_ok_inv _ _ _ _ _ _ Hrun) as [quiz [Hfind [Hq Hlen]]].
  rewrite (submit_quiz_runs _ _ now1 now2 _ Hfind Hq Hlen) in Hrun.
  injection Hrun as <- <-. simpl.
  set (detailed := map detail_of
                     (combine (QuizSubmission.answers submission)
                        (Quiz.questions quiz))).
  assert (Hd : List.length detailed
               = List.length (QuizSubmission.answers submission)).
  { unfold detailed. rewrite length_map, length_combine. lia. }
  assert (Hb := correct_count_bound detailed).
  split; [reflexivity|].
  split.
  { exists quiz. split; [exact Hfind|]. split; [reflexivity|].
    split; [exact Hlen|]. split; [exact Hq|]. lia. }
  split; [lia|]. split; [lia|]. split; [lia|].
  split; [lia|]. split; [exact Hd|].
  rewrite <- Hd. apply correct_count_full.
Qed.

(** The hypothesis of X8 at the Math Quiz submission. *)
Lemma submit_quiz_counts_witness :
  snd (submit_quiz math_submission "t1" "t2" math_store) = math_store.
Proof.
  symmetry.
  apply (submit_quiz_counts math_store
           (snd (submit_quiz math_submission "t1" "t2" math_store))
           math_submission "t1" "t2"
           (ScoreResult.mk 50%float 1 2
              [DetailedResult.mk "1+1?" (Answer.mk 0 "B") "B" true
                 ["1"; "2"; "3"; "4"];
               DetailedResult.mk "2+2?" (Answer.mk 0 "A") "B" false
                 ["3"; "4"; "5"; "6"]])).
  reflexivity.
Defined.
(** The quiz [create_quiz] stored is the one its identifier finds. *)
Lemma create_quiz_lookup (quiz_data : QuizData.t) (now : string)
    (st st' : Store) (r : CreateResponse.t) :
  create_quiz quiz_data now st = (Ok r, st') ->
  exists quiz : Quiz.t,
    find_quiz (CreateResponse.quiz_id r) (quizzes st') = Some quiz
    /\ QuizData.questions quiz_data
       = Some (map question_data (Quiz.questions quiz))
    /\ Quiz.questions quiz <> [].
Proof.
  intros Hrun.
  destruct (create_quiz_outcome quiz_data now st)
    as [[detail Hfail]
       | [title [description [category [difficulty [time_limit [questions
           [stored [_ [_ [_ [_ [_ [Hq [Hne [Hvalid Hok]]]]]]]]]]]]]]]].
  { rewrite Hfail in Hrun. discriminate. }
  rewrite Hok in Hrun. injection Hrun as <- <-. simpl.
  eexists. split.
  - rewrite find_quiz_app.
    rewrite find_quiz_none.
    + simpl. rewrite Z.eqb_refl. reflexivity.
    + intros q Hin. assert (H := next_quiz_id_above _ _ Hin). lia.
  - simpl. destruct (validate_questions_ok _ _ _ Hvalid) as [Hmap _].
    rewrite Hmap. split; [exact Hq|].
    intros Hnil. rewrite Hnil in Hmap. simpl in Hmap. congruence.
Qed.

Lemma right_labels_all_correct (answers : list Answer.t) :
  forall stored : list Question.t,
    map (fun a => Some (Answer.answer a)) answers
    = map QuestionData.correct (map question_data stored) ->
    List.length answers = List.length stored
    /\ Forall (fun d => DetailedResult.is_correct d = true)
         (map detail_of (combine answers stored)).
Proof.
  induction answers as [|a answers IH]; intros [|q stored] H; simpl in H;
    try discriminate.
  - split; [reflexivity | constructor].
  - injection H as Ha Hrest. destruct (IH _ Hrest) as [Hlen Hall].
    split; [simpl; congruence|].
    simpl. constructor; [|exact Hall].
    simpl. rewrite Ha. apply String.eqb_refl.
Qed.

(** X9: after [create_quiz] has accepted a quiz, a submission to the
    identifier it returned that gives, question by question, the label the
    request marked correct is scored with every position correct:
    [correct] and [total] both equal the number of questions. *)
Theorem create_then_submit_right_answers
    (quiz_data : QuizData.t) (now : string) (st st' : Store)
    (r : CreateResponse.t) (questions : list QuestionData.t)
    (submission : QuizSubmission.t) (now1 now2 : string) :
  create_quiz quiz_data now st = (Ok r, st') ->
  QuizData.questions quiz_data = Some questions ->
  QuizSubmission.quiz_id submission = CreateResponse.quiz_id r ->
  map (fun a => Some (Answer.answer a)) (QuizSubmission.answers submission)
  = map QuestionData.correct questions ->
  exists res : ScoreResult.t,
    submit_quiz submission now1 now2 st' = (Ok res, st')
    /\ ScoreResult.total res = Z.of_nat (List.length questions)
    /\ ScoreResult.correct res = ScoreResult.total res
    /\ Forall (fun d => DetailedResult.is_correct d = true)
         (ScoreResult.detailed_results res).
Proof.
  intros Hcreate Hq Hid Hlabels.
  destruct (create_quiz_lookup _ _ _ _ _ Hcreate)
    as [quiz [Hfind [Hstored Hne]]].
  rewrite Hq in Hstored. injection Hstored as ->.
  destruct (right_labels_all_correct _ _ Hlabels) as [Hlen Hall].
  rewrite <- Hid in Hfind.
  assert (Hn : (1 <= List.length (Quiz.questions quiz))%nat)
    by (destruct (Quiz.questions quiz); [contradiction | simpl; lia]).
  eexists. split.
  - apply (submit_quiz_runs _ _ now1 now2 _ Hfind Hn). lia.
  - simpl. rewrite length_map. split; [reflexivity|]. split; [|exact Hall].
    apply correct_count_full in Hall. rewrite Hall.
    rewrite length_map, length_combine. f_equal. lia.
Qed.

(** The hypotheses of X9 at the Math Quiz, answered B and B. *)
Lemma create_then_submit_right_answers_witness :
  exists res : ScoreResult.t,
    submit_quiz
      (QuizSubmission.mk 1 "testuser" [Answer.mk 0 "B"; Answer.mk 1 "B"] 30)
      "t1" "t2" math_store = (Ok res, math_store)
    /\ ScoreResult.total res = 2
    /\ ScoreResult.correct res = ScoreResult.total res.
Proof.
  destruct (create_then_submit_right_answers math_quiz_data
              "2024-01-01T00:00:00" initial_store math_store
              (CreateResponse.mk "Quiz created successfully" 1)
              [QuestionData.mk (Some "1+1?") (Some ["1"; "2"; "3"; "4"])
                 (Some "B");
               QuestionData.mk (Some "2+2?") (Some ["3"; "4"; "5"; "6"])
                 (Some "B")]
              (QuizSubmission.mk 1 "testuser"
                 [Answer.mk 0 "B"; Answer.mk 1 "B"] 30)
              "t1" "t2")
    as [res [Hrun [Htotal [Hcorrect _]]]].
  - reflexivity.
  - reflexivity.
  - reflexivity.
  - reflexivity.
  - exists res. split; [exact Hrun|]. split; [exact Htotal | exact Hcorrect].
Defined.

(** ** More on invitations *)

Lemma update_first_ids (p : Invitation.t -> bool) (status now : string)
    (l : list Invitation.t) :
  map Invitation.id (update_first p (answered status now) l)
  = map Invitation.id l.
Proof.
  induction l as [|x l IH]; simpl; [reflexivity|].
  destruct (p x); simpl; [reflexivity | rewrite IH; reflexivity].
Qed.

(** The two ways [invite_collaborator] ends. *)
Lemma invite_collaborator_outcome (invitation : InviteRequest.t)
    (now : string) (st : Store) :
  (exists e : exn, invite_collaborator invitation now st = (Raise e, st))
  \/ exists (quiz : Quiz.t) (creator : string),
       find_quiz (InviteRequest.quiz_id invitation) (quizzes st) = Some quiz
       /\ Quiz.creator quiz = Some creator
       /\ may_invite st (InviteRequest.quiz_id invitation) creator
            (InviteRequest.inviter invitation)
       /\ find (is_pending_for (InviteRequest.quiz_id invitation)
                  (InviteRequest.invitee invitation))
            (collaboration_invitations st) = None
       /\ find (is_row_of (InviteRequest.quiz_id invitation)
                  (InviteRequest.invitee invitation))
            (quiz_collaborators st) = None
       /\ invite_collaborator invitation now st =
          (Ok (InviteResponse.mk "Invitation sent successfully"
                 (Z.of_nat (List.length (collaboration_invitations st)) + 1)),
           mkStore (quizzes st) (quiz_history st) (quiz_collaborators st)
             (collaboration_invitations st ++
              [Invitation.mk
                 (Z.of_nat (List.length (collaboration_invitations st)) + 1)
                 (InviteRequest.quiz_id invitation)
                 (InviteRequest.inviter invitation)
                 (InviteRequest.invitee invitation)
                 (get_default (InviteRequest.role invitation) "editor")
                 "pending" now (Quiz.title quiz) None])).
Proof.
  destruct (find_quiz (InviteRequest.quiz_id invitation) (quizzes st))
    as [quiz|] eqn:Hfind.
  2:{ left. eexists. unfold invite_collaborator, bind, get, raise.
      rewrite Hfind. reflexivity. }
  destruct (Quiz.creator quiz) as [creator|] eqn:Hcreator.
  2:{ left. eexists.
      apply (invite_collaborator_key_error _ _ _ quiz Hfind Hcreator). }
  assert (Hperm :
            may_invite st (InviteRequest.quiz_id invitation) creator
              (InviteRequest.inviter invitation)
            \/ ~ may_invite st (InviteRequest.quiz_id invitation) creator
                   (InviteRequest.inviter invitation)).
  { destruct (String.eqb_spec creator (InviteRequest.inviter invitation))
      as [Heq | Hneq]; [left; left; exact Heq|].
    destruct (is_none (find (is_manager_row
                               (InviteRequest.quiz_id invitation)
                               (InviteRequest.inviter invitation))
                         (quiz_collaborators st))) eqn:Hnone.
    - right. intros Hmay.
      apply (find_manager_row st _ creator _ Hneq) in Hmay. congruence.
    - left. apply (find_manager_row st _ creator _ Hneq). exact Hnone. }
  destruct Hperm as [Hmay | Hdenied].
  2:{ left. eexists.
      apply (invite_collaborator_permission_denied _ _ _ quiz creator
               Hfind Hcreator Hdenied). }
  unfold invite_collaborator, bind, get, subscript, raise_if, raise, ret, put.
  rewrite Hfind, Hcreator.
  destruct (String.eqb_spec creator (InviteRequest.inviter invitation))
    as [Heq | Hneq]; simpl.
  - destruct (find (is_pending_for _ _) _) eqn:Hpending; simpl;
      [left; eexists; reflexivity|].
    destruct (find (is_row_of _ _) _) eqn:Hrow; simpl;
      [left; eexists; reflexivity|].
    right. exists quiz, creator.
    repeat split; solve [reflexivity | assumption].
  - apply (find_manager_row st _ creator _ Hneq) in Hmay as Hsome.
    rewrite Hsome. simpl.
    destruct (find (is_pending_for _ _) _) eqn:Hpending; simpl;
      [left; eexists; reflexivity|].
    destruct (find (is_row_of _ _) _) eqn:Hrow; simpl;
      [left; eexists; reflexivity|].
    right. exists quiz, creator.
    repeat split; solve [reflexivity | assumption].
Qed.
Lemma find_by_id_position {A} (id : A -> Z) (l : list A) :
  forall (a n i : nat) (x : A),
    map id l = map Z.of_nat (seq a n) ->
    nth_error l i = Some x ->
    find (fun y => id y =? Z.of_nat (a + i)) l = Some x.
Proof.
  induction l as [|y l IH]; intros a n i x Hids Hnth.
  - destruct i; discriminate.
  - destruct n as [|n]; [discriminate|]. simpl in Hids.
    injection Hids as Hy Hrest. simpl.
    destruct i as [|i]; simpl in Hnth.
    + injection Hnth as <-. rewrite Hy, Nat.add_0_r, Z.eqb_refl. reflexivity.
    + destruct (Z.eqb_spec (id y) (Z.of_nat (a + S i))) as [Heq|_]; [lia|].
      replace (a + S i)%nat with (S a + i)%nat by lia.
      apply (IH (S a) n); assumption.
Qed.

Lemma request_keeps_invitation_ids (st st' : Store) :
  request st st' ->
  invitation_ids_sequential (collaboration_invitations st) ->
  invitation_ids_sequential (collaboration_invitations st').
Proof.
  intros Hreq Hseq.
  destruct Hreq as [st0 st0' Hstep | str_of_exception import_data now st0].
  - destruct Hstep as [quiz_data now st | submission now1 now2 st
                      | invitation now st | response now1 now2 st
                      | quiz_id username requester st].
    + destruct (create_quiz_store quiz_data now st) as [-> | [quiz ->]];
        exact Hseq.
    + rewrite submit_quiz_store_unchanged. exact Hseq.
    + destruct (invite_collaborator_outcome invitation now st)
        as [[e ->] | [quiz [creator [_ [_ [_ [_ [_ ->]]]]]]]]; [exact Hseq|].
      simpl. unfold invitation_ids_sequential in *.
      rewrite map_app, length_app, Hseq. simpl List.length.
      rewrite Nat.add_1_r, seq_S, map_app. simpl.
      f_equal. f_equal. lia.
    + destruct (respond_to_invitation_store response now1 now2 st)
        as [-> | [invitation [Hfind [Hinvitee Hpending]]]]; [exact Hseq|].
      rewrite (respond_to_invitation_answers _ _ _ _ _ Hfind Hinvitee Hpending).
      unfold invitation_ids_sequential in *.
      destruct (is_accept _); simpl;
        rewrite update_first_ids, update_first_length; exact Hseq.
    + destruct (remove_collaborator_store quiz_id username requester st)
        as [-> | [c ->]]; exact Hseq.
  - destruct (import_quiz_outcome str_of_exception import_data now st0)
      as [[detail ->]
         | [title [description [category [difficulty [time_limit [questions
             [stored [_ [_ [_ [_ ->]]]]]]]]]]]]; exact Hseq.
Qed.

(** X10: in every store reached by requests from one whose invitations are
    numbered 1, 2, ... in list order (none at start-up), they are still
    numbered so: no two invitations share an identifier, and the
    invitation at position [i] is the one that the lookup of
    [respond_to_invitation] finds for the identifier [i + 1]. *)
Theorem invitation_ids_stay_sequential (st0 st : Store) :
  invitation_ids_sequential (collaboration_invitations st0) ->
  requests st0 st ->
  invitation_ids_sequential (collaboration_invitations st)
  /\ NoDup (map Invitation.id (collaboration_invitations st))
  /\ (forall (i : nat) (invitation : Invitation.t),
        nth_error (collaboration_invitations st) i = Some invitation ->
        find (fun x => Invitation.id x =? Z.of_nat (S i))
          (collaboration_invitations st) = Some invitation).
Proof.
  intros Hstart Hrun.
  assert (Hseq : invitation_ids_sequential (collaboration_invitations st)).
  { induction Hrun as [st | st1 st2 st3 Hrun IH Hreq]; [exact Hstart|].
    apply (request_keeps_invitation_ids _ _ Hreq). apply IH. exact Hstart. }
  split; [exact Hseq|]. split.
  - rewrite Hseq. apply NoDup_map_of_nat. apply seq_NoDup.
  - intros i invitation Hnth.
    apply (find_by_id_position Invitation.id _ 1
             (List.length (collaboration_invitations st)) i invitation
             Hseq Hnth).
Qed.

(** The hypotheses of X10 at the invitation of [bob]. *)
Lemma invitation_ids_stay_sequential_witness :
  find (fun x => Invitation.id x =? 1) (collaboration_invitations invited_store)
  = Some bob_invitation.
Proof.
  destruct (invitation_ids_stay_sequential owned_store invited_store)
    as [_ [_ H]].
  - reflexivity.
  - apply requests_snoc with (st2 := owned_store); [apply requests_refl|].
    apply request_step.
    apply (step_invite (InviteRequest.mk 1 "alice" "bob" None)
             "2024-01-02T00:00:00" owned_store).
  - exact (H 0%nat bob_invitation eq_refl).
Defined.

Lemma may_invite_dec (st : Store) (quiz_id : Z) (creator requester : string) :
  may_invite st quiz_id creator requester
  \/ ~ may_invite st quiz_id creator requester.
Proof.
  destruct (String.eqb_spec creator requester) as [Heq | Hneq];
    [left; left; exact Heq|].
  destruct (is_none (find (is_manager_row quiz_id requester)
                       (quiz_collaborators st))) eqn:Hnone.
  - right. intros Hmay.
    apply (find_manager_row st _ creator _ Hneq) in Hmay. congruence.
  - left. apply (find_manager_row st _ creator _ Hneq). exact Hnone.
Qed.

(** A permitted invitation of a user who has a pending one for the quiz. *)
Lemma invite_collaborator_already_invited (st : Store)
    (invitation : InviteRequest.t) (now : string) (quiz : Quiz.t)
    (creator : string) (pending : Invitation.t) :
  find_quiz (InviteRequest.quiz_id invitation) (quizzes st) = Some quiz ->
  Quiz.creator quiz = Some creator ->
  may_invite st (InviteRequest.quiz_id invitation) creator
    (InviteRequest.inviter invitation) ->
  find (is_pending_for (InviteRequest.quiz_id invitation)
          (InviteRequest.invitee invitation))
    (collaboration_invitations st) = Some pending ->
  invite_collaborator invitation now st =
  (Raise (HTTPException 400 "User already invited"), st).
Proof.
  intros Hfind Hcreator Hmay Hpending.
  unfold invite_collaborator, bind, get, subscript, raise_if, raise, ret, put.
  rewrite Hfind, Hcreator.
  destruct (String.eqb_spec creator (InviteRequest.inviter invitation))
    as [Heq | Hneq]; simpl.
  - rewrite Hpending. reflexivity.
  - apply (find_manager_row st _ creator _ Hneq) in Hmay.
    rewrite Hmay. simpl. rewrite Hpending. reflexivity.
Qed.

Lemma find_app_last {A} (p : A -> bool) (l : list A) (x : A) :
  p x = true -> exists y : A, find p (l ++ [x]) = Some y.
Proof.
  intros Hx. induction l as [|z l IH]; simpl.
  - rewrite Hx. eexists. reflexivity.
  - destruct (p z); [eexists; reflexivity | exact IH].
Qed.

(** X11: once [invite_collaborator] has accepted an invitation, inviting
    the same user to the same quiz again is refused and changes nothing.
    The quiz is in the catalog with its creator; the repeated call answers
    the 400 "User already invited" when its inviter is permitted (the
    creator, or a user with an active owner or admin row on the quiz), and
    the 403 "Insufficient permissions" when the inviter is not.  The first
    inviter is permitted, so repeating the call as it was answers the
    400. *)
Theorem invite_twice_refused
    (st st' : Store) (invitation again : InviteRequest.t) (now now' : string)
    (r : InviteResponse.t) :
  invite_collaborator invitation now st = (Ok r, st') ->
  InviteRequest.quiz_id again = InviteRequest.quiz_id invitation ->
  InviteRequest.invitee again = InviteRequest.invitee invitation ->
  (exists (quiz : Quiz.t) (creator : string),
      find_quiz (InviteRequest.quiz_id again) (quizzes st') = Some quiz
      /\ Quiz.creator quiz = Some creator
      /\ (may_invite st' (InviteRequest.quiz_id again) creator
            (InviteRequest.inviter again) ->
          invite_collaborator again now' st' =
          (Raise (HTTPException 400 "User already invited"), st'))
      /\ (~ may_invite st' (InviteRequest.quiz_id again) creator
              (InviteRequest.inviter again) ->
          invite_collaborator again now' st' =
          (Raise (HTTPException 403 "Insufficient permissions"), st'))
      /\ may_invite st' (InviteRequest.quiz_id invitation) creator
           (InviteRequest.inviter invitation))
  /\ (invite_collaborator again now' st' =
      (Raise (HTTPException 400 "User already invited"), st')
      \/ invite_collaborator again now' st' =
         (Raise (HTTPException 403 "Insufficient permissions"), st'))
  /\ (InviteRequest.inviter again = InviteRequest.inviter invitation ->
      invite_collaborator again now' st' =
      (Raise (HTTPException 400 "User already invited"), st')).
Proof.
  intros Hrun Hquiz Hinvitee.
  destruct (invite_collaborator_outcome invitation now st)
    as [[e Hfail] | [quiz [creator [Hfind [Hcreator [Hmay [_ [_ Hok]]]]]]]].
  { rewrite Hfail in Hrun. discriminate. }
  rewrite Hok in Hrun. injection Hrun as _ <-.
  set (st' := mkStore (quizzes st) (quiz_history st) (quiz_collaborators st)
                (collaboration_invitations st ++
                 [Invitation.mk
                    (Z.of_nat (List.length (collaboration_invitations st)) + 1)
                    (InviteRequest.quiz_id invitation)
                    (InviteRequest.inviter invitation)
                    (InviteRequest.invitee invitation)
                    (get_default (InviteRequest.role invitation) "editor")
                    "pending" now (Quiz.title quiz) None])).
  assert (Hfind' : find_quiz (InviteRequest.quiz_id again) (quizzes st')
                   = Some quiz) by (rewrite Hquiz; exact Hfind).
  assert (Hpending :
            exists pending : Invitation.t,
              find (is_pending_for (InviteRequest.quiz_id again)
                      (InviteRequest.invitee again))
                (collaboration_invitations st') = Some pending).
  { apply find_app_last. apply is_pending_for_true. simpl.
    repeat split; congruence. }
  destruct Hpending as [pending Hpending].
  assert (Hgranted :
            may_invite st' (InviteRequest.quiz_id again) creator
              (InviteRequest.inviter again) ->
            invite_collaborator again now' st' =
            (Raise (HTTPException 400 "User already invited"), st')).
  { intros Hmay'.
    apply (invite_collaborator_already_invited _ _ _ quiz creator pending
             Hfind' Hcreator Hmay' Hpending). }
  assert (Hrefused :
            ~ may_invite st' (InviteRequest.quiz_id again) creator
                (InviteRequest.inviter again) ->
            invite_collaborator again now' st' =
            (Raise (HTTPException 403 "Insufficient permissions"), st')).
  { intros Hdenied.
    apply (invite_collaborator_permission_denied _ _ _ quiz creator
             Hfind' Hcreator Hdenied). }
  split.
  { exists quiz, creator.
    split; [exact Hfind'|]. split; [exact Hcreator|].
    split; [exact Hgranted|]. split; [exact Hrefused|]. exact Hmay. }
  split.
  - destruct (may_invite_dec st' (InviteRequest.quiz_id again) creator
                (InviteRequest.inviter again)) as [Hmay' | Hdenied].
    + left. apply Hgranted. exact Hmay'.
    + right. apply Hrefused. exact Hdenied.
  - intros Hsame. apply Hgranted. rewrite Hquiz, Hsame. exact Hmay.
Qed.

(** The hypotheses of X11 at the invitation of [bob], repeated by [alice]. *)
Lemma invite_twice_refused_witness :
  invite_collaborator (InviteRequest.mk 1 "alice" "bob" (Some "viewer"))
    "2024-01-05T00:00:00" invited_store =
  (Raise (HTTPException 400 "User already invited"), invited_store).
Proof.
  apply (invite_twice_refused owned_store invited_store
           (InviteRequest.mk 1 "alice" "bob" None)
           (InviteRequest.mk 1 "alice" "bob" (Some "viewer"))
           "2024-01-02T00:00:00" "2024-01-05T00:00:00"
           (InviteResponse.mk "Invitation sent successfully" 1)
           eq_refl eq_refl eq_refl).
  reflexivity.
Defined.
(** ** Collaborators after an answer and after a removal *)

Lemma filter_none {A} (p : A -> bool) (l : list A) :
  (forall x : A, In x l -> p x = false) -> filter p l = [].
Proof.
  induction l as [|y l IH]; intros H; simpl; [reflexivity|].
  rewrite (H y (or_introl eq_refl)). apply IH.
  intros x Hx. apply H. right. exact Hx.
Qed.

(** Under the invariant, the invitee of a pending invitation has no row on
    that quiz yet. *)
Lemma pending_invitee_has_no_row (st : Store) (invitation : Invitation.t) :
  collaboration_invariant st ->
  In invitation (collaboration_invitations st) ->
  Invitation.status invitation = "pending" ->
  filter (is_row_of (Invitation.quiz_id invitation)
            (Invitation.invitee invitation))
    (quiz_collaborators st) = [].
Proof.
  intros [Hseat _ _] Hin Hpending.
  specialize (Hseat (Invitation.quiz_id invitation)
                (Invitation.invitee invitation)).
  assert (Hone : (1 <= count_pending (Invitation.quiz_id invitation)
                        (Invitation.invitee invitation)
                        (collaboration_invitations st))%nat).
  { unfold count_pending.
    assert (Hf : In invitation
                   (filter (is_pending_for (Invitation.quiz_id invitation)
                              (Invitation.invitee invitation))
                      (collaboration_invitations st))).
    { apply filter_In. split; [exact Hin|].
      apply is_pending_for_true. repeat split. exact Hpending. }
    destruct (filter _ _); [contradiction | simpl; lia]. }
  apply length_zero_iff_nil. unfold count_rows in Hseat. lia.
Qed.

(** X12: in a store that satisfies the collaboration invariant, once the
    invitee has accepted a pending invitation to a quiz that carries its
    creator, the collaborator list of that quiz shows the owner first and
    then the stored rows, and among those rows exactly one is the
    invitee's: active, with the invited role. *)
Theorem accepted_collaborator_listed_once
    (st : Store) (response : RespondRequest.t) (now1 now2 now : string)
    (invitation : Invitation.t) (quiz : Quiz.t) (creator : string) :
  collaboration_invariant st ->
  find (fun i => Invitation.id i =? RespondRequest.invitation_id response)
    (collaboration_invitations st) = Some invitation ->
  Invitation.invitee invitation = RespondRequest.username response ->
  Invitation.status invitation = "pending" ->
  RespondRequest.action response = Some "accept" ->
  find_quiz (Invitation.quiz_id invitation) (quizzes st) = Some quiz ->
  Quiz.creator quiz = Some creator ->
  exists rows : list Collaborator.t,
    fst (get_quiz_collaborators (Invitation.quiz_id invitation) now
           (snd (respond_to_invitation response now1 now2 st)))
    = Ok (ListedOwner
            (OwnerEntry.mk (Invitation.quiz_id invitation) creator "owner"
               "active" (get_default (Quiz.created_at quiz) now))
          :: map ListedRow rows)
    /\ filter (fun c =>
                 String.eqb (Collaborator.username c)
                   (RespondRequest.username response)) rows
       = [Collaborator.mk (Invitation.quiz_id invitation)
            (RespondRequest.username response) (Invitation.role invitation)
            "active" (Invitation.inviter invitation)
            (Invitation.created_at invitation) now2].
Proof.
  intros Hinv Hfind Hinvitee Hpending Haccept Hquiz Hcreator.
  rewrite (respond_to_invitation_answers _ _ now1 now2 _
             Hfind Hinvitee Hpending).
  apply is_accept_true in Haccept. rewrite Haccept. simpl.
  unfold get_quiz_collaborators, bind, get, subscript, ret. simpl.
  rewrite Hquiz, Hcreator. simpl.
  eexists. split; [reflexivity|].
  rewrite filter_app, filter_app. simpl.
  rewrite Z.eqb_refl. simpl. rewrite String.eqb_refl.
  replace (filter _ (filter _ (quiz_collaborators st))) with
    (@nil Collaborator.t); [reflexivity|].
  symmetry. apply filter_none. intros c Hc.
  apply filter_In in Hc. destruct Hc as [Hin Hc].
  apply andb_true_iff in Hc. destruct Hc as [Hq _].
  destruct (String.eqb_spec (Collaborator.username c)
              (RespondRequest.username response)) as [Hu|]; [|reflexivity].
  exfalso.
  assert (Hnone := pending_invitee_has_no_row st invitation Hinv
                     (proj1 (find_some _ _ Hfind)) Hpending).
  assert (Hrow : In c (filter (is_row_of (Invitation.quiz_id invitation)
                                 (Invitation.invitee invitation))
                         (quiz_collaborators st))).
  { apply filter_In. split; [exact Hin|].
    apply is_row_of_true. apply Z.eqb_eq in Hq. split; congruence. }
  rewrite Hnone in Hrow. exact Hrow.
Qed.

Lemma invited_store_invariant : collaboration_invariant invited_store.
Proof.
  apply (step_keeps_collaboration_invariant owned_store).
  - apply (step_invite (InviteRequest.mk 1 "alice" "bob" None)
             "2024-01-02T00:00:00" owned_store).
  - apply collaboration_invariant_start; reflexivity.
Qed.

(** The hypotheses of X12 at the invitation of [bob], who accepts. *)
Lemma accepted_collaborator_listed_once_witness :
  exists rows : list Collaborator.t,
    fst (get_quiz_collaborators 1 "2024-01-04T00:00:00"
           (snd (respond_to_invitation
                   (RespondRequest.mk 1 (Some "accept") "bob")
                   "2024-01-03T00:00:00" "2024-01-03T00:00:01"
                   invited_store)))
    = Ok (ListedOwner
            (OwnerEntry.mk 1 "alice" "owner" "active" "2024-01-04T00:00:00")
          :: map ListedRow rows)
    /\ filter (fun c => String.eqb (Collaborator.username c) "bob") rows
       = [Collaborator.mk 1 "bob" "editor" "active" "alice"
            "2024-01-02T00:00:00" "2024-01-03T00:00:01"].
Proof.
  apply (accepted_collaborator_listed_once invited_store
           (RespondRequest.mk 1 (Some "accept") "bob")
           "2024-01-03T00:00:00" "2024-01-03T00:00:01" "2024-01-04T00:00:00"
           bob_invitation
           (Quiz.mk 1 "Math Quiz" "Simple Math" "Math" "Easy" 60
              [Question.mk "1+1?" ["1"; "2"; "3"; "4"] "B"]
              "alice" "2024-01-01T00:00:00" None (Some "alice"))
           "alice").
  - exact invited_store_invariant.
  - reflexivity.
  - reflexivity.
  - reflexivity.
  - reflexivity.
  - reflexivity.
  - reflexivity.
Defined.

Lemma collaborative_quizzes_app (qs : list Quiz.t)
    (l1 l2 : list Collaborator.t) :
  collaborative_quizzes qs (l1 ++ l2)
  = collaborative_quizzes qs l1 ++ collaborative_quizzes qs l2.
Proof.
  induction l1 as [|c l1 IH]; simpl; [reflexivity|].
  destruct (find_quiz (Collaborator.quiz_id c) qs); simpl; rewrite IH;
    reflexivity.
Qed.

(** X13: when the invitee accepts a pending invitation, the list of
    quizzes he or she collaborates on grows at its end by that quiz, with
    the invited role and the joining time, if the quiz is in the catalog,
    and stays as it was if it is not. *)
Theorem accepted_quiz_listed_for_invitee
    (st : Store) (response : RespondRequest.t) (now1 now2 : string)
    (invitation : Invitation.t) :
  find (fun i => Invitation.id i =? RespondRequest.invitation_id response)
    (collaboration_invitations st) = Some invitation ->
  Invitation.invitee invitation = RespondRequest.username response ->
  Invitation.status invitation = "pending" ->
  RespondRequest.action response = Some "accept" ->
  exists before : list CollaborativeQuiz.t,
    fst (get_user_collaborative_quizzes (RespondRequest.username response) st)
    = Ok before
    /\ fst (get_user_collaborative_quizzes (RespondRequest.username response)
              (snd (respond_to_invitation response now1 now2 st)))
       = Ok (before ++
             match find_quiz (Invitation.quiz_id invitation) (quizzes st) with
             | Some quiz =>
                 [CollaborativeQuiz.mk quiz (Invitation.role invitation) now2]
             | None => []
             end).
Proof.
  intros Hfind Hinvitee Hpending Haccept.
  rewrite (respond_to_invitation_answers _ _ now1 now2 _
             Hfind Hinvitee Hpending).
  apply is_accept_true in Haccept. rewrite Haccept. simpl.
  unfold get_user_collaborative_quizzes, bind, get, ret. simpl.
  eexists. split; [reflexivity|].
  rewrite filter_app, collaborative_quizzes_app. simpl.
  rewrite String.eqb_refl. simpl.
  destruct (find_quiz (Invitation.quiz_id invitation) (quizzes st));
    reflexivity.
Qed.

(** The hypotheses of X13 at the invitation of [bob], who accepts. *)
Lemma accepted_quiz_listed_for_invitee_witness :
  exists before : list CollaborativeQuiz.t,
    fst (get_user_collaborative_quizzes "bob" invited_store) = Ok before
    /\ fst (get_user_collaborative_quizzes "bob"
              (snd (respond_to_invitation
                      (RespondRequest.mk 1 (Some "accept") "bob")
                      "2024-01-03T00:00:00" "2024-01-03T00:00:01"
                      invited_store)))
       = Ok (before ++
             [CollaborativeQuiz.mk
                (Quiz.mk 1 "Math Quiz" "Simple Math" "Math" "Easy" 60
                   [Question.mk "1+1?" ["1"; "2"; "3"; "4"] "B"]
                   "alice" "2024-01-01T00:00:00" None (Some "alice"))
                "editor" "2024-01-03T00:00:01"]).
Proof.
  apply (accepted_quiz_listed_for_invitee invited_store
           (RespondRequest.mk 1 (Some "accept") "bob")
           "2024-01-03T00:00:00" "2024-01-03T00:00:01" bob_invitation).
  - reflexivity.
  - reflexivity.
  - reflexivity.
  - reflexivity.
Defined.
Lemma collaborator_eqb_eq (a b : Collaborator.t) :
  collaborator_eqb a b = true <-> a = b.
Proof.
  unfold collaborator_eqb. destruct a, b; simpl.
  rewrite !andb_true_iff, Z.eqb_eq, !String.eqb_eq.
  split; [intros [[[[[[-> ->] ->] ->] ->] ->] ->]; reflexivity|].
  intros H. injection H as -> -> -> -> -> -> ->. repeat split.
Qed.

Lemma list_remove_length (c : Collaborator.t) (rows : list Collaborator.t) :
  In c rows ->
  (List.length (list_remove c rows) + 1 = List.length rows)%nat.
Proof.
  induction rows as [|y rows IH]; simpl; [contradiction|]. intros Hin.
  destruct (collaborator_eqb y c) eqn:Heq; [lia|].
  destruct Hin as [-> | Hin].
  - assert (collaborator_eqb c c = true) by (apply collaborator_eqb_eq;
                                            reflexivity).
    congruence.
  - simpl. specialize (IH Hin). lia.
Qed.

Lemma list_remove_filter (p : Collaborator.t -> bool) (c : Collaborator.t)
    (rows : list Collaborator.t) :
  In c rows ->
  if p c
  then (List.length (filter p (list_remove c rows)) + 1
        = List.length (filter p rows))%nat
  else filter p (list_remove c rows) = filter p rows.
Proof.
  induction rows as [|y rows IH]; simpl; [contradiction|]. intros Hin.
  destruct (collaborator_eqb y c) eqn:Heq.
  - apply collaborator_eqb_eq in Heq. subst y.
    destruct (p c); simpl; [lia | reflexivity].
  - destruct Hin as [-> | Hin].
    + assert (collaborator_eqb c c = true) by (apply collaborator_eqb_eq;
                                              reflexivity).
      congruence.
    + specialize (IH Hin). simpl.
      destruct (p c); destruct (p y); simpl; try lia; congruence.
Qed.

(** What a successful removal was run on. *)
Lemma remove_collaborator_ok_inv (quiz_id : Z) (username requester : string)
    (st st' : Store) (message : string) :
  remove_collaborator quiz_id username requester st = (Ok message, st') ->
  exists (quiz : Quiz.t) (creator : string) (c : Collaborator.t),
    find_quiz quiz_id (quizzes st) = Some quiz
    /\ Quiz.creator quiz = Some creator
    /\ username <> creator
    /\ find (is_row_of quiz_id username) (quiz_collaborators st) = Some c
    /\ st' = mkStore (quizzes st) (quiz_history st)
               (list_remove c (quiz_collaborators st))
               (collaboration_invitations st).
Proof.
  unfold remove_collaborator, bind, get, subscript, raise_if, raise, ret, put.
  destruct (find_quiz quiz_id (quizzes st)) as [quiz|] eqn:Hquiz;
    [|discriminate].
  destruct (Quiz.creator quiz) as [creator|] eqn:Hcreator; [|discriminate].
  intros Hrun.
  assert (Hrest :
            match
              (if String.eqb username creator
               then (@Raise unit (HTTPException 400 "Cannot remove quiz owner"),
                     st)
               else (Ok tt, st))
            with
            | (Ok _, st1) =>
                match find (is_row_of quiz_id username) (quiz_collaborators st)
                with
                | Some collaborator =>
                    (Ok "Collaborator removed successfully",
                     mkStore (quizzes st) (quiz_history st)
                       (list_remove collaborator (quiz_collaborators st))
                       (collaboration_invitations st))
                | None =>
                    (Raise (HTTPException 404 "Collaborator not found"), st1)
                end
            | (Raise e, st1) => (Raise e, st1)
            end = (Ok message, st')).
  { destruct (negb (String.eqb creator requester)); simpl in Hrun.
    - destruct (is_none _); simpl in Hrun; [discriminate|].
      destruct (String.eqb username creator); simpl in *; [discriminate|].
      destruct (find (is_row_of quiz_id username) (quiz_collaborators st));
        exact Hrun.
    - destruct (String.eqb username creator); simpl in *; [discriminate|].
      destruct (find (is_row_of quiz_id username) (quiz_collaborators st));
        exact Hrun. }
  clear Hrun.
  destruct (String.eqb_spec username creator) as [|Hneq]; [discriminate|].
  destruct (find (is_row_of quiz_id username) (quiz_collaborators st))
    as [c|] eqn:Hfind; [|discriminate].
  injection Hrest as _ <-.
  exists quiz, creator, c. repeat split; try reflexivity; assumption.
Qed.

(** X14: a removal that succeeds takes away exactly one row, a row of the
    named user on the named quiz; the rows of every other user or quiz,
    the invitations, the catalog and the history stay as they were.  The
    quiz is in the catalog, it carries its creator, and the removed user
    is not that creator.  In a store that satisfies the collaboration
    invariant the user then has no row left on that quiz, and an
    invitation of that user to that quiz by the creator of the quiz is
    accepted again: it is appended as pending under the next
    identifier. *)
Theorem remove_collaborator_removes_one
    (quiz_id : Z) (username requester : string) (st st' : Store)
    (message : string) :
  remove_collaborator quiz_id username requester st = (Ok message, st') ->
  (List.length (quiz_collaborators st') + 1
   = List.length (quiz_collaborators st))%nat
  /\ (count_rows quiz_id username (quiz_collaborators st') + 1
      = count_rows quiz_id username (quiz_collaborators st))%nat
  /\ (forall (q : Z) (u : string),
        q <> quiz_id \/ u <> username ->
        filter (is_row_of q u) (quiz_collaborators st')
        = filter (is_row_of q u) (quiz_collaborators st))
  /\ collaboration_invitations st' = collaboration_invitations st
  /\ quizzes st' = quizzes st
  /\ quiz_history st' = quiz_history st
  /\ exists (quiz : Quiz.t) (creator : string),
       find_quiz quiz_id (quizzes st') = Some quiz
       /\ Quiz.creator quiz = Some creator
       /\ creator <> username
       /\ (collaboration_invariant st ->
           count_rows quiz_id username (quiz_collaborators st') = 0%nat
           /\ forall (role : option string) (now : string),
                invite_collaborator
                  (InviteRequest.mk quiz_id creator username role) now st'
                = (Ok (InviteResponse.mk "Invitation sent successfully"
                         (Z.of_nat
                            (List.length (collaboration_invitations st'))
                          + 1)),
                   mkStore (quizzes st') (quiz_history st')
                     (quiz_collaborators st')
                     (collaboration_invitations st' ++
                      [Invitation.mk
                         (Z.of_nat
                            (List.length (collaboration_invitations st'))
                          + 1)
                         quiz_id creator username
                         (get_default role "editor") "pending" now
                         (Quiz.title quiz) None]))).
Proof.
  intros Hrun.
  destruct (remove_collaborator_ok_inv _ _ _ _ _ _ Hrun)
    as [quiz [creator [c [Hquiz [Hcreator [Hneq [Hfind ->]]]]]]].
  simpl. apply find_some in Hfind as Hc. destruct Hc as [Hin Hrow].
  assert (Hcount := list_remove_filter (is_row_of quiz_id username) c
                      (quiz_collaborators st) Hin).
  rewrite Hrow in Hcount.
  split; [apply list_remove_length; exact Hin|].
  split; [exact Hcount|]. split.
  { intros q u Hother.
    assert (Hf := list_remove_filter (is_row_of q u) c
                    (quiz_collaborators st) Hin).
    destruct (is_row_of q u c) eqn:Hq; [|exact Hf].
    exfalso. apply is_row_of_true in Hq. apply is_row_of_true in Hrow.
    destruct Hq as [Hq1 Hq2], Hrow as [Hr1 Hr2].
    destruct Hother as [Hother | Hother]; apply Hother; congruence. }
  split; [reflexivity|]. split; [reflexivity|]. split; [reflexivity|].
  exists quiz, creator.
  split; [exact Hquiz|]. split; [exact Hcreator|].
  split; [intros Heq; apply Hneq; congruence|].
  intros [Hseat _ _]. specialize (Hseat quiz_id username).
  unfold count_rows in *.
  assert (Hzero : List.length
                    (filter (is_row_of quiz_id username)
                       (list_remove c (quiz_collaborators st))) = 0%nat)
    by lia.
  split; [exact Hzero|].
  intros role now.
  unfold invite_collaborator, bind, get, subscript, raise_if, raise, ret, put.
  simpl. rewrite Hquiz, Hcreator. rewrite String.eqb_refl. simpl.
  assert (Hnopending :
            find (is_pending_for quiz_id username)
              (collaboration_invitations st) = None).
  { destruct (find (is_pending_for quiz_id username)
                (collaboration_invitations st)) as [p|] eqn:Hp;
      [|reflexivity].
    exfalso. apply find_some in Hp.
    assert (Hf : In p (filter (is_pending_for quiz_id username)
                         (collaboration_invitations st)))
      by (apply filter_In; exact Hp).
    unfold count_pending in Hseat.
    destruct (filter (is_pending_for quiz_id username)
                (collaboration_invitations st)); [contradiction|].
    simpl in Hseat. lia. }
  rewrite Hnopending. simpl.
  assert (Hnorow :
            find (is_row_of quiz_id username)
              (list_remove c (quiz_collaborators st)) = None).
  { destruct (find (is_row_of quiz_id username)
                (list_remove c (quiz_collaborators st))) as [x|] eqn:Hx;
      [|reflexivity].
    exfalso. apply find_some in Hx.
    assert (Hf : In x (filter (is_row_of quiz_id username)
                         (list_remove c (quiz_collaborators st))))
      by (apply filter_In; exact Hx).
    apply length_zero_iff_nil in Hzero. rewrite Hzero in Hf. exact Hf. }
  rewrite Hnorow. simpl. reflexivity.
Qed.

(** The hypothesis of X14 at the removal of [bob] by [alice] after he
    accepted. *)
Lemma remove_collaborator_removes_one_witness :
  let accepted :=
    snd (respond_to_invitation (RespondRequest.mk 1 (Some "accept") "bob")
           "2024-01-03T00:00:00" "2024-01-03T00:00:01" invited_store) in
  (List.length
     (quiz_collaborators (snd (remove_collaborator 1 "bob" "alice" accepted)))
   + 1
   = List.length (quiz_collaborators accepted))%nat.
Proof.
  intros accepted.
  apply (remove_collaborator_removes_one 1 "bob" "alice" accepted
           (snd (remove_collaborator 1 "bob" "alice" accepted))
           "Collaborator removed successfully").
  reflexivity.
Defined.
(** ** The pending invitations of a user *)

Lemma filter_update_first_incl {A} (P p : A -> bool) (f : A -> A)
    (l : list A) (x : A) :
  find p l = Some x ->
  P (f x) = false ->
  forall y : A, In y (filter P (update_first p f l)) -> In y (filter P l).
Proof.
  induction l as [|z l IH]; simpl; intros Hfind Hfx y Hy; [discriminate|].
  destruct (p z) eqn:Hz.
  - injection Hfind as ->. simpl in Hy. rewrite Hfx in Hy.
    destruct (P x); [right; exact Hy | exact Hy].
  - simpl in Hy. destruct (P z).
    + destruct Hy as [-> | Hy]; [left; reflexivity|].
      right. apply IH; assumption.
    + apply IH; assumption.
Qed.

Lemma filter_update_first_length {A} (P p : A -> bool) (f : A -> A)
    (l : list A) (x : A) :
  find p l = Some x ->
  P x = true ->
  P (f x) = false ->
  (List.length (filter P (update_first p f l)) + 1
   = List.length (filter P l))%nat.
Proof.
  induction l as [|z l IH]; simpl; intros Hfind Hx Hfx; [discriminate|].
  destruct (p z) eqn:Hz.
  - injection Hfind as ->. simpl. rewrite Hfx, Hx. simpl. lia.
  - simpl. specialize (IH Hfind Hx Hfx). destruct (P z); simpl; lia.
Qed.

(** With distinct identifiers, the answered invitation is the only
    element of the updated list that has its identifier. *)
Lemma update_first_only_one (k : Z) (f : Invitation.t -> Invitation.t)
    (l : list Invitation.t) (x : Invitation.t) :
  NoDup (map Invitation.id l) ->
  find (fun i => Invitation.id i =? k) l = Some x ->
  forall y : Invitation.t,
    In y (update_first (fun i => Invitation.id i =? k) f l) ->
    Invitation.id y = k ->
    y = f x.
Proof.
  induction l as [|z l IH]; simpl; intros Hnodup Hfind y Hy Hid;
    [discriminate|].
  apply NoDup_cons_iff in Hnodup. destruct Hnodup as [Hz Hl].
  destruct (Z.eqb_spec (Invitation.id z) k) as [Hzk | Hzk].
  - injection Hfind as ->. destruct Hy as [<- | Hy]; [reflexivity|].
    exfalso. apply Hz. apply in_map_iff. exists y. split; [congruence|exact Hy].
  - destruct Hy as [<- | Hy]; [contradiction|].
    apply IH; assumption.
Qed.

(** X15: when the invitee answers a pending invitation, whatever the
    action, the list of his or her pending invitations loses one entry and
    gains none; the invitation was on the list before, and, where the
    identifiers are distinct, no invitation with its identifier is on the
    list afterwards. *)
Theorem answered_invitation_leaves_pending_list
    (st : Store) (response : RespondRequest.t) (now1 now2 : string)
    (invitation : Invitation.t) :
  find (fun i => Invitation.id i =? RespondRequest.invitation_id response)
    (collaboration_invitations st) = Some invitation ->
  Invitation.invitee invitation = RespondRequest.username response ->
  Invitation.status invitation = "pending" ->
  exists before after : list Invitation.t,
    fst (get_user_invitations (RespondRequest.username response) st)
    = Ok before
    /\ fst (get_user_invitations (RespondRequest.username response)
              (snd (respond_to_invitation response now1 now2 st)))
       = Ok after
    /\ In invitation before
    /\ (List.length after + 1 = List.length before)%nat
    /\ (forall x : Invitation.t, In x after -> In x before)
    /\ (NoDup (map Invitation.id (collaboration_invitations st)) ->
        forall x : Invitation.t,
          In x after ->
          Invitation.id x <> RespondRequest.invitation_id response).
Proof.
  intros Hfind Hinvitee Hpending.
  set (listed := fun inv =>
                   String.eqb (Invitation.invitee inv)
                     (RespondRequest.username response)
                   && String.eqb (Invitation.status inv) "pending").
  set (status := if is_accept (RespondRequest.action response)
                 then "accepted" else "declined").
  assert (Hstore :
            collaboration_invitations
              (snd (respond_to_invitation response now1 now2 st))
            = update_first
                (fun i => Invitation.id i
                          =? RespondRequest.invitation_id response)
                (answered status now1) (collaboration_invitations st)).
  { rewrite (respond_to_invitation_answers _ _ now1 now2 _
               Hfind Hinvitee Hpending).
    unfold status. destruct (is_accept _); reflexivity. }
  assert (Hwas : listed invitation = true).
  { unfold listed. rewrite Hinvitee, Hpending, !String.eqb_refl.
    reflexivity. }
  assert (Hgone : listed (answered status now1 invitation) = false).
  { unfold listed, answered, status. simpl.
    destruct (is_accept _); simpl; apply andb_false_r. }
  exists (filter listed (collaboration_invitations st)).
  exists (filter listed
            (collaboration_invitations
               (snd (respond_to_invitation response now1 now2 st)))).
  split; [reflexivity|]. split; [reflexivity|].
  rewrite Hstore. split.
  { apply filter_In. split; [apply (find_some _ _ Hfind) | exact Hwas]. }
  split; [apply (filter_update_first_length _ _ _ _ _ Hfind Hwas Hgone)|].
  split; [apply (filter_update_first_incl _ _ _ _ _ Hfind Hgone)|].
  intros Hnodup x Hx Hid.
  apply filter_In in Hx. destruct Hx as [Hin Hlisted].
  rewrite (update_first_only_one _ _ _ _ Hnodup Hfind x Hin Hid) in Hlisted.
  congruence.
Qed.

(** The hypotheses of X15 at the invitation of [bob], who declines. *)
Lemma answered_invitation_leaves_pending_list_witness :
  exists before after : list Invitation.t,
    fst (get_user_invitations "bob" invited_store) = Ok before
    /\ fst (get_user_invitations "bob"
              (snd (respond_to_invitation
                      (RespondRequest.mk 1 (Some "decline") "bob")
                      "2024-01-03T00:00:00" "2024-01-03T00:00:01"
                      invited_store)))
       = Ok after
    /\ In bob_invitation before
    /\ (List.length after + 1 = List.length before)%nat.
Proof.
  destruct (answered_invitation_leaves_pending_list invited_store
              (RespondRequest.mk 1 (Some "decline") "bob")
              "2024-01-03T00:00:00" "2024-01-03T00:00:01" bob_invitation
              eq_refl eq_refl eq_refl)
    as [before [after [H1 [H2 [H3 [H4 _]]]]]].
  exists before, after. repeat split; assumption.
Defined.
(** ** More on the leaderboard *)

Lemma sum_list_app (l1 l2 : list Z) :
  sum_list (l1 ++ l2) = sum_list l1 + sum_list l2.
Proof.
  unfold sum_list. induction l1 as [|x l1 IH]; simpl; [reflexivity|].
  rewrite IH. lia.
Qed.

Lemma sum_list_perm (l1 l2 : list Z) :
  Permutation l1 l2 -> sum_list l1 = sum_list l2.
Proof.
  unfold sum_list.
  induction 1 as [|x l1 l2 Hp IH|x y l|l1 l2 l3 H1 IH1 H2 IH2]; simpl; lia.
Qed.

Lemma sum_list_map_add {A} (a b : A -> Z) (l : list A) :
  sum_list (map (fun k => a k + b k) l)
  = sum_list (map a l) + sum_list (map b l).
Proof.
  unfold sum_list. induction l as [|x l IH]; simpl; [reflexivity|].
  rewrite IH. lia.
Qed.

(** Among distinct keys, exactly one is the given one. *)
Lemma indicator_sum (n : string) (v : Z) (keys : list string) :
  NoDup keys ->
  In n keys ->
  sum_list (map (fun k => if String.eqb n k then v else 0) keys) = v.
Proof.
  unfold sum_list.
  induction keys as [|k keys IH]; intros Hnodup Hin; [contradiction|].
  apply NoDup_cons_iff in Hnodup. destruct Hnodup as [Hk Hkeys]. simpl.
  destruct (String.eqb_spec n k) as [Heq | Hneq].
  - subst k.
    assert (Hzero : fold_right Z.add 0
                      (map (fun k => if String.eqb n k then v else 0) keys)
                    = 0).
    { clear IH Hkeys Hin. induction keys as [|k keys IHk]; [reflexivity|].
      simpl. destruct (String.eqb_spec n k) as [-> | _].
      - exfalso. apply Hk. left. reflexivity.
      - rewrite IHk; [reflexivity|]. intros H. apply Hk. right. exact H. }
    rewrite Hzero. lia.
  - destruct Hin as [Hin | Hin]; [congruence|].
    rewrite (IH Hkeys Hin). lia.
Qed.

(** The sum, over distinct group keys, of the weights of the rows of each
    group is the sum of the weights of all rows, when every row's key is
    among the keys. *)
Lemma group_sums (w : User.t * QuizResult.t -> Z)
    (rows : list (User.t * QuizResult.t)) (keys : list string) :
  NoDup keys ->
  (forall ur, In ur rows -> In (User.username (fst ur)) keys) ->
  sum_list
    (map (fun k =>
            sum_list
              (map w (filter
                        (fun ur => String.eqb (User.username (fst ur)) k)
                        rows)))
       keys)
  = sum_list (map w rows).
Proof.
  intros Hnodup. induction rows as [|r rows IH]; intros Hcover.
  - simpl. clear Hnodup Hcover. unfold sum_list.
    induction keys as [|k keys IHk]; simpl; [reflexivity|].
    rewrite IHk. reflexivity.
  - rewrite (map_ext
               (fun k =>
                  sum_list
                    (map w (filter
                              (fun ur => String.eqb (User.username (fst ur)) k)
                              (r :: rows))))
               (fun k =>
                  (if String.eqb (User.username (fst r)) k then w r else 0)
                  + sum_list
                      (map w (filter
                                (fun ur =>
                                   String.eqb (User.username (fst ur)) k)
                                rows)))).
    + rewrite sum_list_map_add.
      rewrite indicator_sum;
        [|exact Hnodup | apply Hcover; left; reflexivity].
      rewrite IH by (intros ur Hur; apply Hcover; right; exact Hur).
      reflexivity.
    + intros k. simpl.
      destruct (String.eqb (User.username (fst r)) k); reflexivity.
Qed.

Lemma length_as_sum {A} (l : list A) :
  Z.of_nat (List.length l) = sum_list (map (fun _ => 1) l).
Proof.
  unfold sum_list. induction l as [|x l IH]; [reflexivity|].
  cbn [List.length map fold_right]. rewrite Nat2Z.inj_succ, IH. lia.
Qed.

Lemma leaderboard_total_of_aggregate (E : Engine)
    (rows : list (User.t * QuizResult.t)) (k : string) :
  LeaderboardRow.total_score (leaderboard_row (exact_aggregate E rows k))
  = sum_list
      (map (fun ur => QuizResult.score (snd ur))
         (filter (fun ur => String.eqb (User.username (fst ur)) k) rows)).
Proof. reflexivity. Qed.

Lemma leaderboard_taken_of_aggregate (E : Engine)
    (rows : list (User.t * QuizResult.t)) (k : string) :
  LeaderboardRow.quizzes_taken (leaderboard_row (exact_aggregate E rows k))
  = sum_list
      (map (fun _ => 1)
         (filter (fun ur => String.eqb (User.username (fst ur)) k) rows)).
Proof.
  simpl. unfold scores_of. rewrite length_map. apply length_as_sum.
Qed.

(** The scores of a group weigh no more than the scores of all rows. *)
Lemma scores_of_abs_le (k : string) (rows : list (User.t * QuizResult.t)) :
  sum_list (map Z.abs (scores_of k rows))
  <= sum_list (map Z.abs (map (fun ur => QuizResult.score (snd ur)) rows)).
Proof.
  unfold scores_of. induction rows as [|r rows IH]; [apply Z.le_refl|].
  cbn [filter map]. rewrite sum_list_cons.
  destruct (String.eqb (User.username (fst r)) k);
    cbn [map]; [rewrite sum_list_cons|]; lia.
Qed.

(** While the scores are small, no group overflows. *)
Lemma aggregate_all_small (E : Engine) (rows : list (User.t * QuizResult.t))
    (keys : list string) :
  engine_ok E ->
  sum_list (map Z.abs (map (fun ur => QuizResult.score (snd ur)) rows))
  < 2 ^ 63 ->
  aggregate_all E rows keys = Some (map (exact_aggregate E rows) keys).
Proof.
  intros Hok Hsmall. induction keys as [|k keys IH]; [reflexivity|].
  cbn [aggregate_all map]. rewrite IH. unfold aggregate.
  rewrite (sum_small E Hok)
    by (assert (H := scores_of_abs_le k rows); lia).
  reflexivity.
Qed.

(** X16: while the absolute values of the scores of the results that
    belong to a stored user add up to less than 2^63, the query does not
    overflow and [get_leaderboard] returns rows; and whenever it returns
    rows computed from results, nothing is lost and nothing is counted
    twice: the [total_score]s of the rows add up to the sum of the scores
    of all results that belong to a stored user, and the [quizzes_taken]
    add up to their number.  The only other outcome is the "integer
    overflow" of the query. *)
Theorem leaderboard_conserves_scores (E : Engine) (db : Db) :
  engine_ok E ->
  joined db <> [] ->
  (sum_list
     (map Z.abs (map (fun ur => QuizResult.score (snd ur)) (joined db)))
   < 2 ^ 63 ->
   exists rows : list LeaderboardRow.t,
     get_leaderboard E db = Returned rows)
  /\ (forall rows : list LeaderboardRow.t,
        get_leaderboard E db = Returned rows ->
        sum_list (map LeaderboardRow.total_score rows)
        = sum_list (map (fun ur => QuizResult.score (snd ur)) (joined db))
        /\ sum_list (map LeaderboardRow.quizzes_taken rows)
           = Z.of_nat (List.length (joined db)))
  /\ ((exists rows : list LeaderboardRow.t,
         get_leaderboard E db = Returned rows)
      \/ get_leaderboard E db
         = Unhandled (OperationalError "integer overflow")).
Proof.
  intros Hok Hjoined. split; [|split].
  - intros Hsmall. unfold get_leaderboard, leaderboard_query.
    rewrite (aggregate_all_small E _ _ Hok Hsmall). eexists. reflexivity.
  - intros rows Hrows.
    destruct (get_leaderboard_computed E db rows Hok Hjoined Hrows)
      as [Hperm _].
    set (joined_rows := joined db) in *.
    set (keys := group_keys
                   (map (fun ur => User.username (fst ur)) joined_rows)) in *.
    assert (Hnodup : NoDup keys) by apply group_keys_NoDup.
    assert (Hcover : forall ur,
               In ur joined_rows -> In (User.username (fst ur)) keys).
    { intros ur Hur. apply group_keys_In.
      apply in_map_iff. exists ur. split; [reflexivity | exact Hur]. }
    split.
    + rewrite (sum_list_perm _ _
                 (Permutation_map LeaderboardRow.total_score Hperm)).
      rewrite map_map.
      rewrite (map_ext _ _ (leaderboard_total_of_aggregate E joined_rows)).
      apply group_sums; assumption.
    + rewrite (sum_list_perm _ _
                 (Permutation_map LeaderboardRow.quizzes_taken Hperm)).
      rewrite map_map.
      rewrite (map_ext _ _ (leaderboard_taken_of_aggregate E joined_rows)).
      rewrite (group_sums (fun _ => 1) joined_rows keys Hnodup Hcover).
      symmetry. apply length_as_sum.
  - unfold get_leaderboard.
    destruct (leaderboard_query_outcome E db) as [[q ->] | ->];
      [left; eexists | right]; reflexivity.
Qed.

(** The hypotheses of X16 at the database with [carol] and [dave]. *)
Lemma leaderboard_conserves_scores_witness :
  exists rows : list LeaderboardRow.t,
    get_leaderboard insertion_engine played_db = Returned rows
    /\ sum_list (map LeaderboardRow.total_score rows) = 350.
Proof.
  destruct (leaderboard_conserves_scores insertion_engine played_db
              insertion_engine_ok ltac:(discriminate))
    as [Hreturns [Hsum _]].
  destruct (Hreturns ltac:(vm_compute; reflexivity)) as [rows Hrows].
  exists rows. split; [exact Hrows|].
  destruct (Hsum rows Hrows) as [Htotal _]. rewrite Htotal. reflexivity.
Defined.

(** X17: what one [POST /quiz-history] does to the leaderboard.  A
    request that is refused, with the 500, stores nothing.  While no
    stored user has the identifier 1, for which every result is stored,
    the leaderboard is what it was before, whether the request stored a
    result or not.  Once a user has that identifier and the request
    stored its result, a leaderboard that the query returns has a row for
    that user's name, with at least one quiz taken. *)
Theorem submit_quiz_result_on_leaderboard
    (E : Engine) (str_of_exception : QuizResultData.t -> string)
    (quiz_data : QuizResultData.t) (db : Db) :
  engine_ok E ->
  let posted := submit_quiz_result str_of_exception quiz_data db in
  (forall e : exn,
     fst posted = Raise e ->
     snd posted = db
     /\ e = HTTPException 500
              ("Failed to submit quiz result: " ++ str_of_exception quiz_data))
  /\ (forall r : SubmitResultResponse.t,
        fst posted = Ok r ->
        r = SubmitResultResponse.mk "Quiz result submitted successfully"
              (next_result_id (quiz_results db))
        /\ users (snd posted) = users db
        /\ exists stored : QuizResult.t,
             quiz_results (snd posted) = quiz_results db ++ [stored]
             /\ QuizResult.id stored = next_result_id (quiz_results db)
             /\ QuizResult.user_id stored = 1
             /\ QuizResult.quiz_id stored = 1
             /\ get_or_zero (QuizResultData.score quiz_data)
                = Some (QuizResult.score stored)
             /\ in_int64 (QuizResult.score stored) = true)
  /\ ((forall u : User.t, In u (users db) -> User.id u <> 1) ->
      get_leaderboard E (snd posted) = get_leaderboard E db)
  /\ (forall (u : User.t) (r : SubmitResultResponse.t)
        (rows : list LeaderboardRow.t),
        In u (users db) -> User.id u = 1 ->
        fst posted = Ok r ->
        get_leaderboard E (snd posted) = Returned rows ->
        exists e : LeaderboardRow.t,
          In e rows
          /\ LeaderboardRow.username e = User.username u
          /\ 1 <= LeaderboardRow.quizzes_taken e).
Proof.
  intros Hok posted.
  destruct (submit_quiz_result_outcome str_of_exception quiz_data db)
    as [Hfail
       | [score [total [time [Hscore [Htotal [Htime [Hs [Ht [Hb Hrun]]]]]]]]]].
  { unfold posted. rewrite Hfail. simpl.
    split; [intros e He; injection He as <-; split; reflexivity|].
    split; [intros r Hr; discriminate|].
    split; [intros _; reflexivity|].
    intros u r rows _ _ Hr. discriminate. }
  unfold posted. rewrite Hrun. simpl.
  set (stored := QuizResult.mk (next_result_id (quiz_results db)) 1 1
                   score total time (QuizResultData.answers quiz_data)).
  set (db' := mkDb (users db) (quiz_results db ++ [stored])).
  assert (Hjoined :
            joined db'
            = joined db ++
              map (fun u => (u, stored))
                (filter (fun u => User.id u =? 1) (users db))).
  { unfold db', joined. simpl.
    rewrite flat_map_app. simpl. rewrite app_nil_r. reflexivity. }
  split; [intros e He; discriminate|].
  split.
  { intros r Hr. injection Hr as <-.
    split; [reflexivity|]. split; [reflexivity|].
    exists stored. repeat split; solve [reflexivity | assumption]. }
  split.
  - intros Hnone. apply get_leaderboard_same_join. rewrite Hjoined.
    rewrite filter_none; [apply app_nil_r|].
    intros u Hu. apply Z.eqb_neq. apply Hnone. exact Hu.
  - intros u r rows Hu Hid _ Hrows.
    assert (Hin : In (u, stored) (joined db')).
    { rewrite Hjoined. apply in_or_app. right.
      apply in_map_iff. exists u. split; [reflexivity|].
      apply filter_In. split; [exact Hu | apply Z.eqb_eq; exact Hid]. }
    assert (Hne : joined db' <> [])
      by (intros Hnil; rewrite Hnil in Hin; exact Hin).
    destruct (get_leaderboard_computed E db' rows Hok Hne Hrows)
      as [Hperm _].
    assert (Hname : In (User.username u)
                      (map (fun ur => User.username (fst ur)) (joined db'))).
    { apply in_map_iff. exists (u, stored).
      split; [reflexivity | exact Hin]. }
    exists (leaderboard_row
              (exact_aggregate E (joined db') (User.username u))).
    split.
    + apply (Permutation_in _ (Permutation_sym Hperm)).
      apply in_map_iff. exists (User.username u).
      split; [reflexivity|]. apply group_keys_In. exact Hname.
    + split; [reflexivity|]. simpl.
      assert (Hscores := scores_of_member _ _ Hname).
      destruct (scores_of (User.username u) (joined db'));
        [contradiction | simpl List.length; lia].
Qed.

(** The hypothesis of X17 at the database that holds one result and no
    user: a second result changes nothing on the leaderboard. *)
Lemma submit_quiz_result_on_leaderboard_witness :
  get_leaderboard insertion_engine
    (snd (submit_quiz_result (fun _ => "") eighty orphan_db))
  = get_leaderboard insertion_engine orphan_db.
Proof.
  apply (submit_quiz_result_on_leaderboard insertion_engine (fun _ => "")
           eighty orphan_db insertion_engine_ok).
  intros u [].
Defined.

(** A body whose score is [null] is refused and stores nothing; so is one
    whose score does not fit 64 bits. *)
Example submit_quiz_result_null_score :
  submit_quiz_result (fun _ => "NOT NULL constraint failed")
    (QuizResultData.mk JsonNull (JsonInt 10) JsonMissing "{}") played_db
  = (Raise
       (HTTPException 500
          "Failed to submit quiz result: NOT NULL constraint failed"),
     played_db).
Proof. reflexivity. Qed.

Example submit_quiz_result_huge_score :
  submit_quiz_result (fun _ => "int too large")
    (QuizResultData.mk (JsonInt (2 ^ 63)) (JsonInt 10) JsonNull "{}") played_db
  = (Raise
       (HTTPException 500 "Failed to submit quiz result: int too large"),
     played_db).
Proof. reflexivity. Qed.

(** ** Per-quiz analytics *)

Lemma increment_total (key : string) (d : list (string * Z)) :
  count_total (increment key d) = count_total d + 1.
Proof.
  unfold count_total, sum_list.
  induction d as [|[k v] d IH]; simpl; [reflexivity|].
  destruct (String.eqb k key); simpl; [lia | rewrite IH; lia].
Qed.

Lemma increment_keys (key : string) (d : list (string * Z)) :
  In key (map fst d) -> map fst (increment key d) = map fst d.
Proof.
  induction d as [|[k v] d IH]; simpl; [contradiction|]. intros Hin.
  destruct (String.eqb_spec k key) as [Heq | Hneq]; simpl; [reflexivity|].
  destruct Hin as [Hin | Hin]; [contradiction|].
  rewrite (IH Hin). reflexivity.
Qed.

Lemma increment_key_origin (key x : string) (d : list (string * Z)) :
  In x (map fst (increment key d)) -> x = key \/ In x (map fst d).
Proof.
  induction d as [|[k v] d IH]; simpl.
  - intros [<- | []]. left. reflexivity.
  - destruct (String.eqb k key); simpl.
    + intros H. right. exact H.
    + intros [<- | H]; [right; left; reflexivity|].
      destruct (IH H) as [-> | Hin]; [left; reflexivity | right; right; exact Hin].
Qed.

Lemma increment_NoDup (key : string) (d : list (string * Z)) :
  NoDup (map fst d) -> NoDup (map fst (increment key d)).
Proof.
  induction d as [|[k v] d IH]; simpl; intros Hnodup.
  - constructor; [intros [] | constructor].
  - apply NoDup_cons_iff in Hnodup. destruct Hnodup as [Hk Hd].
    destruct (String.eqb_spec k key) as [Heq | Hneq]; simpl.
    + constructor; assumption.
    + constructor; [|apply IH; exact Hd].
      intros Hin. apply increment_key_origin in Hin.
      destruct Hin as [-> | Hin]; [apply Hneq; reflexivity | contradiction].
Qed.

Lemma increment_positive (low : Z) (key : string) (d : list (string * Z)) :
  low <= 1 ->
  Forall (fun kv => low <= snd kv) d ->
  Forall (fun kv => low <= snd kv) (increment key d).
Proof.
  intros Hlow. induction d as [|[k v] d IH]; simpl; intros Hall.
  - constructor; [exact Hlow | constructor].
  - inversion Hall as [|? ? Hv Hd]; subst. simpl in Hv.
    destruct (String.eqb k key); constructor; simpl; try assumption;
      [lia | apply IH; exact Hd].
Qed.

(** What a loop of [d[key(x)] += 1] over a list keeps and adds. *)
Lemma counting_loop {A} (key : A -> string) (l : list A) :
  forall d : list (string * Z),
    count_total (fold_left (fun d x => increment (key x) d) l d)
    = count_total d + Z.of_nat (List.length l)
    /\ (NoDup (map fst d) ->
        NoDup (map fst (fold_left (fun d x => increment (key x) d) l d)))
    /\ (forall low : Z,
          low <= 1 ->
          Forall (fun kv => low <= snd kv) d ->
          Forall (fun kv => low <= snd kv)
            (fold_left (fun d x => increment (key x) d) l d))
    /\ ((forall x, In x l -> In (key x) (map fst d)) ->
        map fst (fold_left (fun d x => increment (key x) d) l d) = map fst d).
Proof.
  induction l as [|x l IH]; intros d.
  - simpl. repeat split; try tauto. lia.
  - cbn [fold_left List.length].
    destruct (IH (increment (key x) d)) as [Htotal [Hnodup [Hpos Hkeys]]].
    split; [rewrite Htotal, increment_total; lia|].
    split; [intros H; apply Hnodup; apply increment_NoDup; exact H|].
    split.
    + intros low Hlow Hall. apply (Hpos low Hlow).
      apply increment_positive; assumption.
    + intros Hin.
      assert (Hx : map fst (increment (key x) d) = map fst d)
        by (apply increment_keys; apply Hin; left; reflexivity).
      rewrite Hkeys; [exact Hx|].
      intros y Hy. rewrite Hx. apply Hin. right. exact Hy.
Qed.

Lemma range_of_label (score : float) :
  In (range_of score) ["0-25"; "26-50"; "51-75"; "76-100"].
Proof.
  unfold range_of.
  destruct (PrimFloat.leb score 25); [left; reflexivity|].
  destruct (PrimFloat.leb score 50); [right; left; reflexivity|].
  destruct (PrimFloat.leb score 75); simpl; tauto.
Qed.

Lemma insert_by_date_perm (x : string * Z) (l : list (string * Z)) :
  Permutation (insert_by_date x l) (x :: l).
Proof.
  induction l as [|y l IH]; simpl; [apply Permutation_refl|].
  destruct (String.leb (fst x) (fst y)); [apply Permutation_refl|].
  apply perm_trans with (y :: x :: l);
    [apply perm_skip; exact IH | apply perm_swap].
Qed.

Lemma sorted_by_date_perm (l : list (string * Z)) :
  Permutation (sorted_by_date l) l.
Proof.
  induction l as [|x l IH]; simpl; [apply perm_nil|].
  apply perm_trans with (x :: sorted_by_date l);
    [apply insert_by_date_perm | apply perm_skip; exact IH].
Qed.

Lemma insert_by_date_sorted (x : string * Z) (l : list (string * Z)) :
  Sorted (fun a b => String.leb (fst a) (fst b) = true) l ->
  Sorted (fun a b => String.leb (fst a) (fst b) = true) (insert_by_date x l).
Proof.
  induction l as [|y l IH]; simpl; intros Hsorted.
  - repeat constructor.
  - destruct (String.leb (fst x) (fst y)) eqn:Hle.
    + constructor; [exact Hsorted|]. constructor. exact Hle.
    + assert (Hyx : String.leb (fst y) (fst x) = true).
      { destruct (String.leb_total (fst x) (fst y)); [congruence|assumption]. }
      inversion Hsorted as [|? ? Hrest Hhd]; subst.
      constructor; [apply IH; exact Hrest|].
      destruct l as [|z l]; simpl.
      * constructor. exact Hyx.
      * destruct (String.leb (fst x) (fst z)); constructor;
          [exact Hyx | inversion Hhd; assumption].
Qed.

Lemma sorted_by_date_sorted (l : list (string * Z)) :
  Sorted (fun a b => String.leb (fst a) (fst b) = true) (sorted_by_date l).
Proof.
  induction l as [|x l IH]; simpl;
    [constructor | apply insert_by_date_sorted; exact IH].
Qed.

(** What a successful call of [get_quiz_analytics] returned. *)
Lemma get_quiz_analytics_ok_inv (py_sum : list float -> float) (quiz_id : Z)
    (st st' : Store) (a : QuizAnalytics.t) :
  get_quiz_analytics py_sum quiz_id st = (Ok a, st') ->
  st' = st
  /\ exists quiz : Quiz.t,
       find_quiz quiz_id (quizzes st) = Some quiz
       /\ let attempts :=
            filter (fun h =>
                      String.eqb (HistoryEntry.quiz_title h) (Quiz.title quiz))
              (quiz_history st) in
          QuizAnalytics.quiz a = quiz
          /\ QuizAnalytics.total_attempts a = Z.of_nat (List.length attempts)
          /\ ((attempts = []
               /\ a = QuizAnalytics.mk quiz 0 (Int 0) 0 [] [] [])
              \/ (attempts <> []
                  /\ QuizAnalytics.score_distribution a
                     = score_ranges attempts
                  /\ QuizAnalytics.attempts_over_time a
                     = sorted_by_date (attempts_by_date attempts)
                  /\ QuizAnalytics.question_analytics a
                     = question_stats 0 (Quiz.questions quiz) attempts
                  /\ QuizAnalytics.completion_rate a = 100)).
Proof.
  unfold get_quiz_analytics, bind, get, ret, raise.
  destruct (find_quiz quiz_id (quizzes st)) as [quiz|]; [|discriminate].
  destruct (filter _ (quiz_history st)) as [|h attempts] eqn:Hattempts;
    intros H; injection H as <- <-.
  - split; [reflexivity|]. exists quiz. split; [reflexivity|].
    simpl. rewrite Hattempts. simpl. repeat split. left. split; reflexivity.
  - split; [reflexivity|]. exists quiz. split; [reflexivity|].
    simpl. rewrite Hattempts. repeat split.
    right. repeat split. discriminate.
Qed.

(** X18: in every body [get_quiz_analytics] returns, the counts of the
    score distribution add up to the number of attempts, which is the
    number of history entries that carry the quiz's title; when there are
    attempts the distribution has the four ranges 0-25, 26-50, 51-75 and
    76-100 in this order, each attempt counted in exactly one of them. *)
Theorem quiz_analytics_distribution
    (py_sum : list float -> float) (quiz_id : Z) (st st' : Store)
    (a : QuizAnalytics.t) :
  get_quiz_analytics py_sum quiz_id st = (Ok a, st') ->
  st' = st
  /\ count_total (QuizAnalytics.score_distribution a)
     = QuizAnalytics.total_attempts a
  /\ QuizAnalytics.total_attempts a
     = Z.of_nat
         (List.length
            (filter (fun h =>
                       String.eqb (HistoryEntry.quiz_title h)
                         (Quiz.title (QuizAnalytics.quiz a)))
               (quiz_history st)))
  /\ Forall (fun kv => 0 <= snd kv) (QuizAnalytics.score_distribution a)
  /\ (0 < QuizAnalytics.total_attempts a ->
      map fst (QuizAnalytics.score_distribution a)
      = ["0-25"; "26-50"; "51-75"; "76-100"]).
Proof.
  intros Hrun.
  destruct (get_quiz_analytics_ok_inv _ _ _ _ _ Hrun)
    as [-> [quiz [_ [Hquiz [Htotal Hbody]]]]].
  split; [reflexivity|]. rewrite Hquiz, Htotal.
  destruct Hbody as [[Hnil ->] | [Hne [Hdist _]]].
  - rewrite Hnil. simpl. repeat split; try constructor. lia.
  - rewrite Hdist. unfold score_ranges.
    destruct (counting_loop
                (fun attempt => range_of (HistoryEntry.score attempt))
                (filter (fun h =>
                           String.eqb (HistoryEntry.quiz_title h)
                             (Quiz.title quiz)) (quiz_history st))
                [("0-25", 0); ("26-50", 0); ("51-75", 0); ("76-100", 0)])
      as [Hsum [_ [Hpos Hkeys]]].
    split; [rewrite Hsum; reflexivity|]. split; [reflexivity|].
    split.
    + apply (Hpos 0); [lia|]. repeat constructor; simpl; lia.
    + intros _. apply Hkeys. intros x _. apply range_of_label.
Qed.

(** The hypothesis of X18 at the history with three attempts on the Math
    Quiz. *)
Lemma quiz_analytics_distribution_witness :
  exists a : QuizAnalytics.t,
    get_quiz_analytics (fun l => fold_left PrimFloat.add l 0%float) 1
      played_store = (Ok a, played_store)
    /\ QuizAnalytics.total_attempts a = 3
    /\ count_total (QuizAnalytics.score_distribution a)
       = QuizAnalytics.total_attempts a.
Proof.
  eexists. split; [vm_compute; reflexivity|]. split; [reflexivity|].
  apply (quiz_analytics_distribution
           (fun l => fold_left PrimFloat.add l 0%float) 1
           played_store played_store).
  vm_compute. reflexivity.
Defined.
Lemma increment_key_in (key x : string) (d : list (string * Z)) :
  x = key \/ In x (map fst d) -> In x (map fst (increment key d)).
Proof.
  induction d as [|[k v] d IH]; simpl.
  - intros [-> | []]. left. reflexivity.
  - destruct (String.eqb_spec k key) as [Heq | Hneq]; simpl.
    + intros [-> | [H | H]]; [left; exact Heq | left; exact H | right; exact H].
    + intros [-> | [H | H]].
      * right. apply IH. left. reflexivity.
      * left. exact H.
      * right. apply IH. right. exact H.
Qed.

(** The keys after a counting loop: those it began with and those it met. *)
Lemma counting_loop_keys {A} (key : A -> string) (l : list A) :
  forall (d : list (string * Z)) (x : string),
    In x (map fst (fold_left (fun d y => increment (key y) d) l d)) <->
    In x (map fst d) \/ exists y : A, In y l /\ key y = x.
Proof.
  induction l as [|z l IH]; intros d x; cbn [fold_left].
  - split; [intros H; left; exact H|].
    intros [H | [y [[] _]]]. exact H.
  - rewrite IH. split.
    + intros [H | [y [Hy Hk]]].
      * apply increment_key_origin in H. destruct H as [-> | H].
        -- right. exists z. split; [left; reflexivity | reflexivity].
        -- left. exact H.
      * right. exists y. split; [right; exact Hy | exact Hk].
    + intros [H | [y [[-> | Hy] Hk]]].
      * left. apply increment_key_in. right. exact H.
      * left. apply increment_key_in. left. symmetry. exact Hk.
      * right. exists y. split; assumption.
Qed.

(** X19: in every body [get_quiz_analytics] returns, the attempts over time
    are in ascending order of their dates, no date occurs twice, every
    date has a count of at least 1, the dates are exactly the first ten
    characters of the dates of the quiz's attempts, and the counts add up
    to the number of attempts. *)
Theorem quiz_analytics_over_time
    (py_sum : list float -> float) (quiz_id : Z) (st st' : Store)
    (a : QuizAnalytics.t) :
  get_quiz_analytics py_sum quiz_id st = (Ok a, st') ->
  Sorted (fun x y => String.leb (fst x) (fst y) = true)
    (QuizAnalytics.attempts_over_time a)
  /\ NoDup (map fst (QuizAnalytics.attempts_over_time a))
  /\ Forall (fun kv => 1 <= snd kv) (QuizAnalytics.attempts_over_time a)
  /\ count_total (QuizAnalytics.attempts_over_time a)
     = QuizAnalytics.total_attempts a
  /\ (forall day : string,
        In day (map fst (QuizAnalytics.attempts_over_time a)) <->
        exists h : HistoryEntry.t,
          In h (quiz_history st)
          /\ HistoryEntry.quiz_title h = Quiz.title (QuizAnalytics.quiz a)
          /\ substring 0 10 (HistoryEntry.date h) = day).
Proof.
  intros Hrun.
  destruct (get_quiz_analytics_ok_inv _ _ _ _ _ Hrun)
    as [-> [quiz [_ [Hquiz [Htotal Hbody]]]]].
  rewrite Hquiz, Htotal.
  set (attempts := filter (fun h =>
                             String.eqb (HistoryEntry.quiz_title h)
                               (Quiz.title quiz)) (quiz_history st)) in *.
  assert (Htime : QuizAnalytics.attempts_over_time a
                  = sorted_by_date (attempts_by_date attempts)).
  { destruct Hbody as [[Hnil ->] | [_ [_ [Htime _]]]]; [|exact Htime].
    rewrite Hnil. reflexivity. }
  rewrite Htime.
  assert (Hperm := sorted_by_date_perm (attempts_by_date attempts)).
  destruct (counting_loop
              (fun attempt => substring 0 10 (HistoryEntry.date attempt))
              attempts []) as [Hsum [Hnodup [Hpos _]]].
  fold (attempts_by_date attempts) in Hsum, Hnodup, Hpos.
  split; [apply sorted_by_date_sorted|]. split.
  { apply (Permutation_NoDup (Permutation_sym (Permutation_map fst Hperm))).
    apply Hnodup. constructor. }
  split.
  { apply (Permutation_Forall (Permutation_sym Hperm)).
    apply (Hpos 1); [lia | constructor]. }
  split.
  { unfold count_total.
    rewrite (sum_list_perm _ _ (Permutation_map snd Hperm)).
    exact Hsum. }
  intros day. split.
  - intros Hin.
    apply (Permutation_in _ (Permutation_map fst Hperm)) in Hin.
    apply counting_loop_keys in Hin. destruct Hin as [[] | [h [Hh Hday]]].
    apply filter_In in Hh. destruct Hh as [Hh Htitle].
    exists h. split; [exact Hh|]. split; [|exact Hday].
    apply String.eqb_eq. exact Htitle.
  - intros [h [Hh [Htitle Hday]]].
    apply (Permutation_in _ (Permutation_sym (Permutation_map fst Hperm))).
    apply counting_loop_keys. right. exists h. split; [|exact Hday].
    apply filter_In. split; [exact Hh|]. apply String.eqb_eq. exact Htitle.
Qed.

(** The hypothesis of X19 at the history with three attempts on the Math
    Quiz. *)
Lemma quiz_analytics_over_time_witness :
  exists a : QuizAnalytics.t,
    get_quiz_analytics (fun l => fold_left PrimFloat.add l 0%float) 1
      played_store = (Ok a, played_store)
    /\ QuizAnalytics.attempts_over_time a
       = [("2024-01-02", 1); ("2024-01-03", 2)]
    /\ NoDup (map fst (QuizAnalytics.attempts_over_time a)).
Proof.
  eexists. split; [vm_compute; reflexivity|]. split; [reflexivity|].
  apply (quiz_analytics_over_time
           (fun l => fold_left PrimFloat.add l 0%float) 1
           played_store played_store).
  vm_compute. reflexivity.
Defined.

(** The counts of one position: of the attempts, some recorded the
    position, and of those some got it right. *)
Lemma position_counts_bounds (i : nat) (attempts : list HistoryEntry.t) :
  0 <= fst (position_counts i attempts)
  /\ fst (position_counts i attempts) <= snd (position_counts i attempts)
  /\ snd (position_counts i attempts) <= Z.of_nat (List.length attempts).
Proof.
  unfold position_counts.
  assert (Hgen :
            forall (l : list HistoryEntry.t) (c t : Z),
              let r :=
                fold_left
                  (fun counts attempt =>
                     let '(correct_count, total_count) := counts in
                     match nth_error (HistoryEntry.detailed_results attempt) i
                     with
                     | Some d =>
                         (if DetailedResult.is_correct d
                          then correct_count + 1 else correct_count,
                          total_count + 1)
                     | None => (correct_count, total_count)
                     end) l (c, t) in
              c <= fst r
              /\ fst r - c <= snd r - t
              /\ snd r - t <= Z.of_nat (List.length l)).
  { induction l as [|h l IH]; intros c t; cbn [fold_left List.length].
    - simpl. lia.
    - destruct (nth_error (HistoryEntry.detailed_results h) i) as [d|].
      + destruct (DetailedResult.is_correct d).
        * specialize (IH (c + 1) (t + 1)). cbv zeta in IH. lia.
        * specialize (IH c (t + 1)). cbv zeta in IH. lia.
      + specialize (IH c t). cbv zeta in IH. lia. }
  specialize (Hgen attempts 0 0). cbv zeta in Hgen. lia.
Qed.

Lemma question_stats_spec (attempts : list HistoryEntry.t)
    (questions : list Question.t) :
  forall i : nat,
    map QuestionStat.question (question_stats i questions attempts)
    = map Question.question questions
    /\ Forall (fun s =>
                 0 <= QuestionStat.total_attempts s
                 /\ QuestionStat.total_attempts s
                    <= Z.of_nat (List.length attempts)
                 /\ (QuestionStat.total_attempts s = 0 ->
                     QuestionStat.correct_rate s = Int 0)
                 /\ (0 < QuestionStat.total_attempts s ->
                     exists c : Z,
                       0 <= c <= QuestionStat.total_attempts s
                       /\ QuestionStat.correct_rate s
                          = Float (score_of c (QuestionStat.total_attempts s))))
         (question_stats i questions attempts).
Proof.
  induction questions as [|q questions IH]; intros i; simpl.
  - split; constructor.
  - destruct (IH (S i)) as [Hnames Hall].
    assert (Hb := position_counts_bounds i attempts).
    destruct (position_counts i attempts) as [c t]. simpl in Hb. simpl.
    split; [rewrite Hnames; reflexivity|].
    constructor; [|exact Hall]. simpl.
    split; [lia|]. split; [lia|]. split.
    + intros ->. reflexivity.
    + intros Hpos. exists c. split; [lia|].
      destruct (0 <? t) eqn:Ht; [reflexivity|].
      apply Z.ltb_ge in Ht. lia.
Qed.

(** X20: when there are attempts, [get_quiz_analytics] reports on every
    question of the quiz, in order and by its text; for each, the number of
    attempts that recorded the position is between 0 and the number of
    attempts; the rate is the integer 0 when no attempt recorded it, and
    otherwise [(correct / recorded) * 100] for a number of correct results
    between 0 and the number recorded. *)
Theorem quiz_analytics_questions
    (py_sum : list float -> float) (quiz_id : Z) (st st' : Store)
    (a : QuizAnalytics.t) :
  get_quiz_analytics py_sum quiz_id st = (Ok a, st') ->
  0 < QuizAnalytics.total_attempts a ->
  map QuestionStat.question (QuizAnalytics.question_analytics a)
  = map Question.question (Quiz.questions (QuizAnalytics.quiz a))
  /\ Forall (fun s =>
               0 <= QuestionStat.total_attempts s
               /\ QuestionStat.total_attempts s
                  <= QuizAnalytics.total_attempts a
               /\ (QuestionStat.total_attempts s = 0 ->
                   QuestionStat.correct_rate s = Int 0)
               /\ (0 < QuestionStat.total_attempts s ->
                   exists c : Z,
                     0 <= c <= QuestionStat.total_attempts s
                     /\ QuestionStat.correct_rate s
                        = Float (score_of c (QuestionStat.total_attempts s))))
       (QuizAnalytics.question_analytics a).
Proof.
  intros Hrun Hsome.
  destruct (get_quiz_analytics_ok_inv _ _ _ _ _ Hrun)
    as [-> [quiz [_ [Hquiz [Htotal Hbody]]]]].
  destruct Hbody as [[Hnil ->] | [_ [_ [_ [Hstats _]]]]].
  - simpl in Hsome. lia.
  - rewrite Hstats, Hquiz, Htotal. apply question_stats_spec.
Qed.

(** The hypotheses of X20 at the history with three attempts on the Math
    Quiz. *)
Lemma quiz_analytics_questions_witness :
  exists a : QuizAnalytics.t,
    get_quiz_analytics (fun l => fold_left PrimFloat.add l 0%float) 1
      played_store = (Ok a, played_store)
    /\ map QuestionStat.total_attempts (QuizAnalytics.question_analytics a)
       = [3; 2]
    /\ map QuestionStat.question (QuizAnalytics.question_analytics a)
       = map Question.question (Quiz.questions (QuizAnalytics.quiz a)).
Proof.
  eexists. split; [vm_compute; reflexivity|]. split; [reflexivity|].
  apply (quiz_analytics_questions
           (fun l => fold_left PrimFloat.add l 0%float) 1
           played_store played_store).
  - vm_compute. reflexivity.
  - simpl. lia.
Defined.

Lemma requests_keep_history (st0 st : Store) :
  requests st0 st -> quiz_history st = quiz_history st0.
Proof.
  induction 1 as [st | st1 st2 st3 Hrun IH Hreq]; [reflexivity|].
  rewrite (proj1 (request_effect _ _ Hreq)). exact IH.
Qed.

(** X21: in every store reached by requests from one with an empty history
    (the start-up state in particular), [get_quiz_analytics] has nothing to
    report: it answers 404 for an unknown quiz and, for a known one, the
    body with 0 attempts, average 0, completion rate 0 and three empty
    lists, however often the quiz was submitted to. *)
Theorem quiz_analytics_without_history
    (st0 st : Store) (py_sum : list float -> float) (quiz_id : Z) :
  quiz_history st0 = [] ->
  requests st0 st ->
  get_quiz_analytics py_sum quiz_id st =
  match find_quiz quiz_id (quizzes st) with
  | None => (Raise (HTTPException 404 "Quiz not found"), st)
  | Some quiz => (Ok (QuizAnalytics.mk quiz 0 (Int 0) 0 [] [] []), st)
  end.
Proof.
  intros Hempty Hrun.
  assert (Hhistory : quiz_history st = [])
    by (rewrite (requests_keep_history _ _ Hrun); exact Hempty).
  unfold get_quiz_analytics, bind, get, ret, raise.
  destruct (find_quiz quiz_id (quizzes st)); [|reflexivity].
  rewrite Hhistory. reflexivity.
Qed.

(** The hypotheses of X21 at the run that creates the Math Quiz and submits
    to it. *)
Lemma quiz_analytics_without_history_witness :
  fst (get_quiz_analytics (fun l => fold_left PrimFloat.add l 0%float) 1
         (snd (submit_quiz math_submission "t1" "t2" math_store)))
  = Ok (QuizAnalytics.mk
          (Quiz.mk 1 "Math Quiz" "Simple Math" "Math" "Easy" 60
             [Question.mk "1+1?" ["1"; "2"; "3"; "4"] "B";
              Question.mk "2+2?" ["3"; "4"; "5"; "6"] "B"]
             "Anonymous" "2024-01-01T00:00:00" None None)
          0 (Int 0) 0 [] [] []).
Proof.
  rewrite (quiz_analytics_without_history initial_store
             (snd (submit_quiz math_submission "t1" "t2" math_store))
             (fun l => fold_left PrimFloat.add l 0%float) 1).
  - reflexivity.
  - reflexivity.
  - apply requests_snoc with (st2 := math_store).
    + apply requests_snoc with (st2 := initial_store);
        [apply requests_refl|].
      apply request_step.
      apply (step_create math_quiz_data "2024-01-01T00:00:00" initial_store).
    + apply request_step. apply step_submit.
Defined.

(** ** Registration and login *)

Lemma find_none_not_in {A B} (key : A -> B) (eqb : B -> B -> bool)
    (eqb_eq : forall x y, eqb x y = true <-> x = y) (k : B) (l : list A) :
  find (fun a => eqb (key a) k) l = None -> ~ In k (map key l).
Proof.
  intros Hfind Hin. apply in_map_iff in Hin. destruct Hin as [a [Hk Ha]].
  assert (H := find_none _ _ Hfind a Ha). simpl in H.
  assert (eqb (key a) k = true) by (apply eqb_eq; exact Hk). congruence.
Qed.

Lemma next_user_id_above (rows : list User.t) (u : User.t) :
  In u rows -> User.id u < next_user_id rows.
Proof.
  intros Hin. unfold next_user_id, py_max.
  apply (in_map User.id) in Hin.
  destruct (map User.id rows) as [|first others]; [contradiction|].
  destruct Hin as [<- | Hin].
  - assert (H := fold_max_ge_init others first). lia.
  - assert (H := fold_max_ge_elem others first _ Hin). lia.
Qed.

Lemma NoDup_snoc {A} (l : list A) (x : A) :
  NoDup l -> ~ In x l -> NoDup (l ++ [x]).
Proof.
  intros Hl Hx. apply NoDup_app; [exact Hl | repeat constructor; intros []|].
  intros y Hy [<- | []]. contradiction.
Qed.

Lemma db_request_keeps_users_distinct (db db' : Db) :
  db_request db db' -> users_distinct db -> users_distinct db'.
Proof.
  intros Hreq [Hnames [Hemails Hids]].
  destruct Hreq as [create_access_token user now db
                   | str_of_exception quiz_data db].
  - unfold register.
    destruct (user_by_name (UserCreate.username user) db) eqn:Hname;
      [repeat split; assumption|].
    destruct (user_by_email (UserCreate.email user) db) eqn:Hemail;
      [repeat split; assumption|].
    unfold users_distinct. simpl. rewrite !map_app. simpl.
    split; [|split].
    + apply NoDup_snoc; [exact Hnames|].
      apply (find_none_not_in User.username String.eqb String.eqb_eq).
      exact Hname.
    + apply NoDup_snoc; [exact Hemails|].
      apply (find_none_not_in User.email String.eqb String.eqb_eq).
      exact Hemail.
    + apply NoDup_snoc; [exact Hids|].
      intros Hin. apply in_map_iff in Hin. destruct Hin as [u [Hu Hin]].
      assert (H := next_user_id_above _ _ Hin). lia.
  - destruct (submit_quiz_result_outcome str_of_exception quiz_data db)
      as [-> | [score [total [time [_ [_ [_ [_ [_ [_ ->]]]]]]]]]];
      repeat split; assumption.
Qed.

(** X22: registration never stores a second user with a name, an email or
    an identifier that is in use: starting from a users table where these
    are distinct (the empty one in particular), they are distinct after
    any sequence of registrations and result submissions; a registration
    that is refused changes nothing. *)
Theorem registered_users_stay_distinct
    (db0 db : Db) (create_access_token : string -> string -> string)
    (user : UserCreate.t) (now : string) :
  users_distinct db0 ->
  db_requests db0 db ->
  users_distinct db
  /\ (forall e : exn,
        fst (register create_access_token user now db) = Raise e ->
        snd (register create_access_token user now db) = db
        /\ (e = HTTPException 400 "Username already exists"
            \/ e = HTTPException 400 "Email already exists"))
  /\ (In (UserCreate.username user) (map User.username (users db)) ->
      register create_access_token user now db
      = (Raise (HTTPException 400 "Username already exists"), db)).
Proof.
  intros Hstart Hrun.
  assert (Hdistinct : users_distinct db).
  { induction Hrun as [db | db1 db2 db3 Hrun IH Hreq]; [exact Hstart|].
    apply (db_request_keeps_users_distinct _ _ Hreq). apply IH. exact Hstart. }
  split; [exact Hdistinct|]. split.
  - intros e. unfold register.
    destruct (user_by_name (UserCreate.username user) db);
      [simpl; intros H; injection H as <-; split; [reflexivity | left;
                                                                 reflexivity]|].
    destruct (user_by_email (UserCreate.email user) db);
      [simpl; intros H; injection H as <-; split; [reflexivity | right;
                                                                 reflexivity]|].
    simpl. discriminate.
  - intros Hin. unfold register.
    destruct (user_by_name (UserCreate.username user) db) eqn:Hname;
      [reflexivity|].
    exfalso.
    apply (find_none_not_in User.username String.eqb String.eqb_eq _ _ Hname).
    exact Hin.
Qed.

(** The hypotheses of X22 at the database with [carol] and [dave]. *)
Lemma registered_users_stay_distinct_witness :
  register (fun sub now => sub)
    (UserCreate.mk "carol" "other@example.com" "secret") "t" played_db
  = (Raise (HTTPException 400 "Username already exists"), played_db).
Proof.
  destruct (registered_users_stay_distinct played_db played_db
              (fun sub now => sub)
              (UserCreate.mk "carol" "other@example.com" "secret") "t")
    as [_ [_ H]].
  - unfold users_distinct. simpl.
    repeat split; repeat constructor; simpl; intuition discriminate.
  - apply db_requests_refl.
  - apply H. left. reflexivity.
Defined.

Lemma find_app_fresh {A} (p : A -> bool) (l : list A) (x : A) :
  find p l = None -> p x = true -> find p (l ++ [x]) = Some x.
Proof.
  intros Hnone Hx. induction l as [|y l IH]; simpl in *.
  - rewrite Hx. reflexivity.
  - destruct (p y); [discriminate | apply IH; exact Hnone].
Qed.

(** X23: after a registration that succeeded, logging in with the
    registered name and password succeeds and returns a bearer token for
    that name, and logging in with that name and any other password is
    refused with the 401; the token of the registration itself is a bearer
    token for the name, and the results table is untouched. *)
Theorem register_then_login
    (create_access_token : string -> string -> string) (user : UserCreate.t)
    (now later : string) (db db' : Db) (token : Token.t) :
  register create_access_token user now db = (Ok token, db') ->
  token = Token.mk (create_access_token (UserCreate.username user) now)
            "bearer"
  /\ quiz_results db' = quiz_results db
  /\ login_for_access_token create_access_token
       (LoginForm.mk (UserCreate.username user) (UserCreate.password user))
       later db'
     = Ok (Token.mk (create_access_token (UserCreate.username user) later)
             "bearer")
  /\ (forall password : string,
        password <> UserCreate.password user ->
        login_for_access_token create_access_token
          (LoginForm.mk (UserCreate.username user) password) later db'
        = Raise (HTTPException 401 "Incorrect username or password")).
Proof.
  unfold register.
  destruct (user_by_name (UserCreate.username user) db) eqn:Hname;
    [discriminate|].
  destruct (user_by_email (UserCreate.email user) db); [discriminate|].
  intros H. injection H as <- <-.
  split; [reflexivity|]. split; [reflexivity|].
  assert (Hfound :
            forall password : string,
              user_by_name
                (LoginForm.username
                   (LoginForm.mk (UserCreate.username user) password))
                (mkDb
                   (users db ++
                    [User.mk (next_user_id (users db))
                       (UserCreate.username user) (UserCreate.email user)
                       (UserCreate.password user) 0 0])
                   (quiz_results db))
              = Some (User.mk (next_user_id (users db))
                        (UserCreate.username user) (UserCreate.email user)
                        (UserCreate.password user) 0 0)).
  { intros password. unfold user_by_name in *. simpl.
    apply find_app_fresh; [exact Hname|]. simpl. apply String.eqb_refl. }
  split.
  - unfold login_for_access_token. rewrite Hfound. simpl.
    rewrite String.eqb_refl. reflexivity.
  - intros password Hwrong. unfold login_for_access_token.
    rewrite Hfound. simpl.
    destruct (String.eqb_spec (UserCreate.password user) password)
      as [Heq|]; [|reflexivity].
    exfalso. apply Hwrong. symmetry. exact Heq.
Qed.

(** The hypothesis of X23 at the registration of [erin] after [carol] and
    [dave]. *)
Lemma register_then_login_witness :
  login_for_access_token (fun sub now => (sub ++ "@" ++ now)%string)
    (LoginForm.mk "erin" "secret") "t2"
    (snd (register (fun sub now => (sub ++ "@" ++ now)%string)
            (UserCreate.mk "erin" "erin@example.com" "secret") "t1"
            played_db))
  = Ok (Token.mk "erin@t2" "bearer").
Proof.
  apply (register_then_login (fun sub now => (sub ++ "@" ++ now)%string)
           (UserCreate.mk "erin" "erin@example.com" "secret") "t1" "t2"
           played_db
           (snd (register (fun sub now => (sub ++ "@" ++ now)%string)
                   (UserCreate.mk "erin" "erin@example.com" "secret") "t1"
                   played_db))
           (Token.mk "erin@t1" "bearer")).
  reflexivity.
Defined.
